(** * swift.llm: model registry, resolution pipeline and load-time patches

    A shallow embedding of [swift/llm/utils/model.py] (the catalog
    [MODEL_MAPPING], [register_model], [safe_snapshot_download],
    [get_torch_dtype], [get_model_tokenizer], the shared loader
    [get_model_tokenizer_from_repo] with its quantization checks, and the
    process-wide monkey patches, the catalog accessors) and of
    [swift/llm/infer.py] ([save_checkpoint], [merge_lora],
    [prepare_model_template], [read_media_file] and the interactive loop of
    [llm_infer]).

    Python objects are records, [None]-able attributes are [option]s,
    dictionaries are [gmap]s, raised exceptions are the left summand of the
    result, and the mutable process state (patched library attributes and a
    chronological log of the calls made to external collaborators) is
    threaded explicitly. *)

From Stdlib Require Import ZArith QArith String List Bool Lia.
From stdpp Require Import base option gmap strings pretty list fin_maps.

Local Open Scope Z_scope.
Local Open Scope string_scope.
Local Open Scope list_scope.

(** ** Python values *)

(** [torch.dtype] objects that [eval(f'torch.{name}')] can produce from a
    checkpoint's [config.json]. *)
Inductive Dtype :=
| float16 | bfloat16 | float32 | float64
| uint8 | int8 | int16 | int32 | int64 | bool_.

#[global] Instance Dtype_eq_dec : EqDecision Dtype.
Proof. solve_decision. Defined.

(** [repr] of a dtype, as interpolated in the f-strings of the source. *)
Definition dtype_repr (d : Dtype) : string :=
  match d with
  | float16 => "torch.float16" | bfloat16 => "torch.bfloat16"
  | float32 => "torch.float32" | float64 => "torch.float64"
  | uint8 => "torch.uint8" | int8 => "torch.int8" | int16 => "torch.int16"
  | int32 => "torch.int32" | int64 => "torch.int64" | bool_ => "torch.bool"
  end.

(** Attribute lookup [torch.<name>] restricted to dtype names; any other name
    is reported as absent. *)
Definition torch_getattr (name : string) : option Dtype :=
  if String.eqb name "float16" then Some float16
  else if String.eqb name "half" then Some float16
  else if String.eqb name "bfloat16" then Some bfloat16
  else if String.eqb name "float32" then Some float32
  else if String.eqb name "float" then Some float32
  else if String.eqb name "float64" then Some float64
  else if String.eqb name "double" then Some float64
  else if String.eqb name "uint8" then Some uint8
  else if String.eqb name "int8" then Some int8
  else if String.eqb name "int16" then Some int16
  else if String.eqb name "short" then Some int16
  else if String.eqb name "int32" then Some int32
  else if String.eqb name "int" then Some int32
  else if String.eqb name "int64" then Some int64
  else if String.eqb name "long" then Some int64
  else if String.eqb name "bool" then Some bool_
  else None.

(** A Python [float] (or [int]) as far as ordering goes: a finite value is a
    rational, and the three special floats compare as IEEE 754 says. *)
Inductive PyNum :=
| Finite (q : Q)
| PosInf
| NegInf
| NaN.

Definition Qltb (x y : Q) : bool := negb (Qle_bool y x).

(** [a < b] on Python numbers. *)
Definition num_lt (a b : PyNum) : bool :=
  match a, b with
  | NaN, _ | _, NaN => false
  | Finite x, Finite y => Qltb x y
  | NegInf, NegInf => false
  | NegInf, _ => true
  | _, PosInf => match a with PosInf => false | _ => true end
  | _, _ => false
  end.

Record PreTrainedTokenizerBase := mkTokenizer {
  tok_name : string;
  eos_token : option string;
  pad_token : option string;
  tok_model_type : option string;
  tok_model_dir : option string;
}.

(** Plain attribute values stored on a config object. *)
Inductive AttrValue :=
| ANone
| ABool (b : bool)
| AInt (n : Z)
| AStr (s : string)
| AObject.

(** The attributes of a model config the loaders write; an attribute that
    has not been set is [None]. *)
Record PretrainedConfig := mkConfig {
  config_name : string;
  config_torch_dtype : option Dtype;
  _attn_implementation : option string;
  _flash_attn_2_enabled : option AttrValue;
  pretraining_tp : option Z;
}.

Definition set_config_torch_dtype (c : PretrainedConfig) (d : Dtype)
  : PretrainedConfig :=
  mkConfig (config_name c) (Some d) (_attn_implementation c)
           (_flash_attn_2_enabled c) (pretraining_tp c).

Definition set_attn_implementation (c : PretrainedConfig) (impl : string)
  : PretrainedConfig :=
  mkConfig (config_name c) (config_torch_dtype c) (Some impl)
           (_flash_attn_2_enabled c) (pretraining_tp c).

Definition set_flash_attn_2_enabled (c : PretrainedConfig) (v : AttrValue)
  : PretrainedConfig :=
  mkConfig (config_name c) (config_torch_dtype c) (_attn_implementation c)
           (Some v) (pretraining_tp c).

Definition set_pretraining_tp (c : PretrainedConfig) (n : Z)
  : PretrainedConfig :=
  mkConfig (config_name c) (config_torch_dtype c) (_attn_implementation c)
           (_flash_attn_2_enabled c) (Some n).

(** The fragment of [GenerationConfig] the pipeline reads and writes.
    [temperature] is a number or [None], [do_sample] is [Some true],
    [Some false] or [None]. *)
Record GenerationConfig := mkGenerationConfig {
  temperature : option PyNum;
  do_sample : option bool;
  max_new_tokens : option Z;
}.

(** Values that travel in [**kwargs] and in [function_kwargs]. *)
Inductive PyVal :=
| VNone
| VBool (b : bool)
| VInt (n : Z)
| VStr (s : string)
| VTokenizer (t : PreTrainedTokenizerBase)
| VConfig (c : PretrainedConfig).

(** A keyword value as stored in a config attribute. *)
Definition attr_of (v : PyVal) : AttrValue :=
  match v with
  | VNone => ANone
  | VBool b => ABool b
  | VInt n => AInt n
  | VStr s => AStr s
  | VTokenizer _ | VConfig _ => AObject
  end.

(** Python truthiness. *)
Definition truthy (v : PyVal) : bool :=
  match v with
  | VNone => false
  | VBool b => b
  | VInt n => negb (Z.eqb n 0)
  | VStr s => negb (String.eqb s "")
  | VTokenizer _ | VConfig _ => true
  end.

(** [quantization_config] objects placed in the load-options bag. *)
Inductive QuantizationConfig :=
| BitsAndBytesConfig (load_in_8bit load_in_4bit : bool)
                     (bnb_4bit_compute_dtype : option Dtype)
                     (llm_int8_skip_modules : option (list string))
| GPTQConfig (bits : Z) (use_exllama disable_exllama : option bool)
             (llm_int8_skip_modules : option (list string)).

(** [quantization_config.llm_int8_skip_modules = modules] *)
Definition set_llm_int8_skip_modules (q : QuantizationConfig)
    (modules : list string) : QuantizationConfig :=
  match q with
  | BitsAndBytesConfig l8 l4 d _ => BitsAndBytesConfig l8 l4 d (Some modules)
  | GPTQConfig bits u d _ => GPTQConfig bits u d (Some modules)
  end.

(** The load-options bag [model_kwargs]: only the two keys the source
    touches are tracked. *)
Record ModelKwargs := mkModelKwargs {
  device_map : option string;
  low_cpu_mem_usage : option bool;
  quantization_config : option QuantizationConfig;
}.

Definition empty_model_kwargs : ModelKwargs := mkModelKwargs None None None.

Record PreTrainedModel := mkModel {
  config : PretrainedConfig;
  model_dtype : option Dtype;
  load_options : ModelKwargs;
  max_model_len : option Z;
  model_type : option string;
  model_dir : option string;
  generation_config : option GenerationConfig;
  is_awq : option PyVal;
  gptq_bits : option PyVal;
  (** whether [_set_gradient_checkpointing] still has the pre-4.35
      signature with a [value] parameter *)
  legacy_set_gradient_checkpointing : bool;
}.

(** ** Exceptions *)

Inductive Exception :=
| KeyError (key : string)
| ValueError (msg : string)
| AssertionError (msg : string)
| ImportError (msg : string)
| AttributeError (msg : string)
| TypeError (msg : string)
| RecursionError
(** raised by [require_version]; the message names the requirement *)
| RequireVersionError (requirement : string)
(** any failure inside an external collaborator (hub, transformers) *)
| ExternalError (msg : string).

(** ** Process state *)

(** Calls to external collaborators, in the order they are made. *)
Inductive Event :=
| EvHfSnapshotDownload (model_id revision : string)
                       (ignore_patterns : option (list string))
| EvSnapshotDownload (model_id revision : string)
                     (ignore_file_pattern : option (list string))
| EvRequireVersion (requirement : string)
| EvGetConfigDict (dir : string)
| EvGetFunction (dir : string) (torch_dtype : option Dtype) (load_model : bool)
| EvConfigFromPretrained (dir : string)
| EvTokenizerFromPretrained (dir : string)
| EvModelFromPretrained (dir : string) (torch_dtype : option Dtype).

Definition is_download (e : Event) : bool :=
  match e with
  | EvHfSnapshotDownload _ _ _ | EvSnapshotDownload _ _ _ => true
  | _ => false
  end.

Definition is_load (e : Event) : bool :=
  match e with
  | EvGetFunction _ _ _ | EvConfigFromPretrained _
  | EvTokenizerFromPretrained _ | EvModelFromPretrained _ _ => true
  | _ => false
  end.

(** Function objects bound to [torch.utils.checkpoint.checkpoint] and to
    [transformers.modeling_utils.checkpoint]: the library's own function, or
    one of the lambdas of [fix_gradient_checkpointing_warning], which closes
    over its default [use_reentrant] and over the function it forwards to. *)
Inductive CheckpointFn :=
| checkpoint_orig
| checkpoint_lambda (use_reentrant : bool) (_old_checkpoint : CheckpointFn).

(** Function objects bound to [QuantLinear.forward]. [_new_forward] closes
    over nothing: it reaches the saved forward through [self.__old_forward]. *)
Inductive ForwardFn :=
| forward_orig
| _new_forward.

(** Function objects bound to [torch.nn.CrossEntropyLoss.forward]: the
    library's own, or the [cross_entropy_forward] of the chatglm loader,
    which closes over the forward it found installed. *)
Inductive LossForwardFn :=
| loss_forward_orig
| cross_entropy_forward (__old_forward : LossForwardFn).

Record Runtime := mkRuntime {
  log : list Event;
  (** [torch.utils.checkpoint.checkpoint] *)
  torch_checkpoint : CheckpointFn;
  (** [torch.utils.checkpoint._old_checkpoint], when the attribute exists *)
  torch_old_checkpoint : option CheckpointFn;
  (** [transformers.modeling_utils.checkpoint], when the attribute exists *)
  transformers_checkpoint : option CheckpointFn;
  (** [QuantLinear.forward] *)
  QuantLinear_forward : ForwardFn;
  (** [QuantLinear.__old_forward], when the attribute exists *)
  QuantLinear_old_forward : option ForwardFn;
  (** [torch.nn.CrossEntropyLoss.forward] *)
  CrossEntropyLoss_forward : LossForwardFn;
  (** [huggingface_hub._snapshot_download.HF_HUB_ENABLE_HF_TRANSFER] *)
  HF_HUB_ENABLE_HF_TRANSFER : bool;
}.

Definition set_log (rt : Runtime) (l : list Event) : Runtime :=
  mkRuntime l (torch_checkpoint rt) (torch_old_checkpoint rt)
            (transformers_checkpoint rt) (QuantLinear_forward rt)
            (QuantLinear_old_forward rt) (CrossEntropyLoss_forward rt)
            (HF_HUB_ENABLE_HF_TRANSFER rt).

(** [torch.utils.checkpoint._old_checkpoint = old;
     torch.utils.checkpoint.checkpoint = f] *)
Definition set_torch_checkpoint (rt : Runtime) (old f : CheckpointFn)
  : Runtime :=
  mkRuntime (log rt) f (Some old) (transformers_checkpoint rt)
            (QuantLinear_forward rt) (QuantLinear_old_forward rt)
            (CrossEntropyLoss_forward rt) (HF_HUB_ENABLE_HF_TRANSFER rt).

(** [transformers.modeling_utils.checkpoint = f] *)
Definition set_transformers_checkpoint (rt : Runtime) (f : CheckpointFn)
  : Runtime :=
  mkRuntime (log rt) (torch_checkpoint rt) (torch_old_checkpoint rt) (Some f)
            (QuantLinear_forward rt) (QuantLinear_old_forward rt)
            (CrossEntropyLoss_forward rt) (HF_HUB_ENABLE_HF_TRANSFER rt).

(** [QuantLinear.__old_forward = old; QuantLinear.forward = f] *)
Definition set_QuantLinear_forward (rt : Runtime) (old f : ForwardFn)
  : Runtime :=
  mkRuntime (log rt) (torch_checkpoint rt) (torch_old_checkpoint rt)
            (transformers_checkpoint rt) f (Some old)
            (CrossEntropyLoss_forward rt) (HF_HUB_ENABLE_HF_TRANSFER rt).

(** [CrossEntropyLoss.forward = f] *)
Definition set_CrossEntropyLoss_forward (rt : Runtime) (f : LossForwardFn)
  : Runtime :=
  mkRuntime (log rt) (torch_checkpoint rt) (torch_old_checkpoint rt)
            (transformers_checkpoint rt) (QuantLinear_forward rt)
            (QuantLinear_old_forward rt) f (HF_HUB_ENABLE_HF_TRANSFER rt).

(** [hf_s.HF_HUB_ENABLE_HF_TRANSFER = b] *)
Definition set_HF_HUB_ENABLE_HF_TRANSFER (rt : Runtime) (b : bool)
  : Runtime :=
  mkRuntime (log rt) (torch_checkpoint rt) (torch_old_checkpoint rt)
            (transformers_checkpoint rt) (QuantLinear_forward rt)
            (QuantLinear_old_forward rt) (CrossEntropyLoss_forward rt) b.

Definition emit (e : Event) (rt : Runtime) : Runtime :=
  set_log rt (log rt ++ [e]).

(** ** The effect monad: state that survives an exception *)

Definition M (A : Type) : Type := Runtime -> (Exception + A) * Runtime.

#[global] Instance M_ret : MRet M := fun A (a : A) rt => (inr a, rt).

#[global] Instance M_bind : MBind M := fun A B (f : A -> M B) (c : M A) rt =>
  match c rt with
  | (inl e, rt') => (inl e, rt')
  | (inr a, rt') => f a rt'
  end.

Definition raise {A} (e : Exception) : M A := fun rt => (inl e, rt).

Definition tell (e : Event) : M unit := fun rt => (inr tt, emit e rt).

Definition get_runtime : M Runtime := fun rt => (inr rt, rt).

Definition put_runtime (rt' : Runtime) : M unit := fun _ => (inr tt, rt').

(** Lift the outcome of a pure external call. *)
Definition lift {A} (r : Exception + A) : M A := fun rt => (r, rt).

(** [assert cond, msg] *)
Definition py_assert (cond : bool) (msg : string) : M unit :=
  if cond then mret tt else raise (AssertionError msg).

(** ** The catalog *)

(** A loader procedure: [(model_dir, torch_dtype, model_kwargs, load_model,
    **kwargs) -> (model, tokenizer)]. *)
Definition GetModelTokenizerFunction : Type :=
  string -> option Dtype -> ModelKwargs -> bool -> gmap string PyVal ->
  M (option PreTrainedModel * PreTrainedTokenizerBase).

(** [functools.partial(get_function, **function_kwargs)]: keywords given at
    the call override the bound ones. *)
Definition partial (get_function : GetModelTokenizerFunction)
    (function_kwargs : gmap string PyVal) : GetModelTokenizerFunction :=
  fun dir torch_dtype model_kwargs load_model kwargs =>
    get_function dir torch_dtype model_kwargs load_model
                 (kwargs ∪ function_kwargs).

(** A value of [MODEL_MAPPING]. The keys written by [register_model] are
    fields; the extra [**kwargs] (capability flags) stay a dictionary. *)
Record ModelInfo := mkModelInfo {
  info_model_id_or_path : option string;
  info_lora_target_modules : option (list string);
  info_template : string;
  info_requires : list string;
  info_torch_dtype : option Dtype;
  info_ignore_file_pattern : option (list string);
  info_hf_model_id : option string;
  info_revision : string;
  info_eos_token : option string;
  info_kwargs : gmap string PyVal;
  info_get_function : GetModelTokenizerFunction;
}.

(** The arguments of one [register_model] call, [get_function] apart. *)
Record Registration := mkRegistration {
  reg_model_type : string;
  reg_model_id_or_path : option string;
  reg_lora_target_modules : option (list string);
  reg_template : string;
  reg_requires : option (list string);
  reg_torch_dtype : option Dtype;
  reg_hf_model_id : option string;
  reg_revision : option string;
  reg_ignore_file_pattern : option (list string);
  reg_function_kwargs : option (gmap string PyVal);
  reg_exists_ok : bool;
  reg_eos_token : option string;
  reg_kwargs : gmap string PyVal;
}.

(** The function stored under ['get_function']: bound with
    [function_kwargs] when there are any. *)
Definition bind_function_kwargs (function_kwargs : gmap string PyVal)
    (get_function : GetModelTokenizerFunction) : GetModelTokenizerFunction :=
  if bool_decide (0 < size function_kwargs)%nat
  then partial get_function function_kwargs
  else get_function.

(** The dictionary [model_info] once ['get_function'] has been set. *)
Definition model_info_of (r : Registration)
    (get_function : GetModelTokenizerFunction) : ModelInfo :=
  let requires := default [] (reg_requires r) in
  let function_kwargs := default ∅ (reg_function_kwargs r) in
  let revision := default "master" (reg_revision r) in
  mkModelInfo (reg_model_id_or_path r) (reg_lora_target_modules r)
    (reg_template r) requires (reg_torch_dtype r)
    (reg_ignore_file_pattern r) (reg_hf_model_id r) revision
    (reg_eos_token r) (reg_kwargs r)
    (bind_function_kwargs function_kwargs get_function).

(** The closure [_register_model] returned in decorator form: applied to a
    loader it inserts the entry and hands the loader back unchanged. *)
Definition _register_model (r : Registration)
    (get_function : GetModelTokenizerFunction)
    (MODEL_MAPPING : gmap string ModelInfo)
  : gmap string ModelInfo * GetModelTokenizerFunction :=
  (<[reg_model_type r := model_info_of r get_function]> MODEL_MAPPING,
   get_function).

Inductive RegisterResult :=
(** [get_function] was given: the entry is inserted, [None] is returned *)
| Registered (MODEL_MAPPING : gmap string ModelInfo)
(** [get_function] was omitted: nothing is inserted yet *)
| Decorator (MODEL_MAPPING : gmap string ModelInfo)
            (decorate : GetModelTokenizerFunction -> gmap string ModelInfo ->
                        gmap string ModelInfo * GetModelTokenizerFunction).

(** [register_model] (model.py 396-454), on the catalog passed in. *)
Definition register_model (r : Registration)
    (get_function : option GetModelTokenizerFunction)
    (MODEL_MAPPING : gmap string ModelInfo) : Exception + RegisterResult :=
  if negb (reg_exists_ok r) && bool_decide (is_Some (MODEL_MAPPING !! reg_model_type r))
  then inl (ValueError ("The `" +:+ reg_model_type r +:+
                        "` has already been registered in the MODEL_MAPPING."))
  else
    match get_function with
    | Some f =>
        inr (Registered (<[reg_model_type r := model_info_of r f]> MODEL_MAPPING))
    | None =>
        inr (Decorator MODEL_MAPPING (_register_model r))
    end.

(** ** External collaborators *)

(** The ['torch_dtype'] entry of a checkpoint's config dictionary: the name
    written in [config.json], or an already built dtype object. *)
Inductive ConfigDtypeEntry :=
| DtypeName (s : string)
| DtypeObject (d : Dtype).

(** The release number [major.minor] of a final release, ordered as
    [packaging.version] orders release segments. *)
Definition Version : Type := (Z * Z)%type.

Definition version_lt (a b : Version) : bool :=
  (a.1 <? b.1)%Z || ((a.1 =? b.1)%Z && (a.2 <? b.2)%Z).

Definition version_ge (a b : Version) : bool := negb (version_lt a b).

(** Everything the pipeline asks of its surroundings: the process
    environment, the file system, the two hub providers, the dependency
    checker, the transformers entry points and the installed versions. *)
Record Env := mkEnv {
  (** [strtobool(os.environ.get('USE_HF', 'False'))], in a process
      environment where [USE_HF] is unset or set to a truth value *)
  USE_HF : bool;
  os_path_exists : string -> bool;
  os_path_isdir : string -> bool;
  os_path_isfile : string -> bool;
  os_path_expanduser : string -> string;
  (** [huggingface_hub.snapshot_download(id, revision, ignore_patterns)] *)
  hf_snapshot_download :
    string -> string -> option (list string) -> Exception + string;
  (** [modelscope.snapshot_download(id, revision, ignore_file_pattern)] *)
  snapshot_download :
    string -> string -> option (list string) -> Exception + string;
  (** whether [require_version] accepts the requirement string *)
  requirement_met : string -> bool;
  (** [PretrainedConfig.get_config_dict(dir)[0].get('torch_dtype')] *)
  get_config_dict : string -> Exception + option ConfigDtypeEntry;
  AutoConfig_from_pretrained : string -> Exception + PretrainedConfig;
  AutoTokenizer_from_pretrained :
    string -> Exception + PreTrainedTokenizerBase;
  (** the tokenizer class named in the checkpoint's [tokenizer_config.json],
      fetched with [get_class_from_dynamic_module], stripped of its token
      properties by [remove_property] and instantiated with
      [from_pretrained] (model.py 1232-1238) *)
  dynamic_tokenizer_from_pretrained :
    string -> Exception + PreTrainedTokenizerBase;
  (** [automodel_class.from_pretrained(dir, config, torch_dtype, **model_kwargs)],
      by the name of the class *)
  automodel_from_pretrained :
    string -> string -> PretrainedConfig -> option Dtype -> ModelKwargs ->
    Exception + PreTrainedModel;
  GenerationConfig_from_pretrained : string -> Exception + GenerationConfig;
  (** [swift.llm.utils.utils.get_max_model_len] *)
  get_max_model_len : PretrainedConfig -> option Z;
  use_torchacc : bool;
  torch_version : Version;
  transformers_version : Version;
  (** whether [awq.utils.packing_utils] and [awq_ext] can be imported *)
  awq_ext_importable : bool;
  (** whether [auto_gptq.nn_modules.qlinear.qlinear_cuda_old] can be imported *)
  auto_gptq_importable : bool;
  aqlm_importable : bool;
  (** [strtobool(os.environ.get('USE_HF_TRANSFER', 'False'))]: a truth
      value, or the [ValueError] for a value that is none *)
  USE_HF_TRANSFER : Exception + bool;
}.

(** [os.path.join(a, b)] for a relative [b]. *)
Definition os_path_join (a b : string) : string :=
  if String.eqb a "" then b
  else if String.eqb (String.substring (String.length a - 1) 1 a) "/"
       then a +:+ b
       else a +:+ "/" +:+ b.

(** [d[key]] *)
Definition getitem {A} (d : gmap string A) (key : string) : M A :=
  match d !! key with
  | Some v => mret v
  | None => raise (KeyError key)
  end.

(** An optional string argument arriving through [**kwargs]. *)
Definition as_optional_str (v : option PyVal) : M (option string) :=
  match v with
  | None | Some VNone => mret None
  | Some (VStr s) => mret (Some s)
  | Some _ => raise (TypeError "expected str, bytes or os.PathLike object")
  end.

(** [gptq_bits > 0] *)
Definition py_gt_zero (v : PyVal) : Exception + bool :=
  match v with
  | VInt n => inr (0 <? n)%Z
  | VBool b => inr b
  | _ => inl (TypeError "'>' not supported between instances")
  end.

Definition py_int (v : PyVal) : Z :=
  match v with
  | VInt n => n
  | VBool true => 1
  | _ => 0
  end.

(** The text of the error raised by [_check_awq_ext]. *)
Definition awq_ext_hint : string :=
  "You are training awq models, remember installing awq_ext by " +:+
  "`git clone https://github.com/casper-hansen/AutoAWQ_kernels " +:+
  "&& cd AutoAWQ_kernels && pip install -e .`".

Section Pipeline.

Context (E : Env).

(** [require_version(require)] of transformers. *)
Definition require_version (require : string) : M unit :=
  tell (EvRequireVersion require);;
  if requirement_met E require then mret tt
  else raise (RequireVersionError require).

(** [for require in requires: require_version(require)] *)
Fixpoint check_requires (requires : list string) : M unit :=
  match requires with
  | [] => mret tt
  | require :: rest => require_version require;; check_requires rest
  end.

(** [safe_snapshot_download] (model.py 3808-3860). The [safe_ddp_context]
    lock only serialises cooperating processes and is transparent here. *)
Definition safe_snapshot_download (MODEL_MAPPING : gmap string ModelInfo)
    (model_type : string) (model_id_or_path revision : option string)
    (kwargs : gmap string PyVal) : M string :=
  model_info ← getitem MODEL_MAPPING model_type;
  let use_hf := USE_HF E in
  model_id_or_path ←
    match model_id_or_path with
    | Some p => mret (Some p)
    | None =>
        model_dir ← as_optional_str (kwargs !! "model_dir");
        match model_dir with
        | Some d => mret (Some d)
        | None => mret (if use_hf then info_hf_model_id model_info
                        else info_model_id_or_path model_info)
        end
    end;
  model_dir ←
    match model_id_or_path with
    | Some p =>
        if negb (os_path_exists E p) then
          let ignore_file_pattern := info_ignore_file_pattern model_info in
          if use_hf then
            let revision := default "main" revision in
            use_hf_transfer ← lift (USE_HF_TRANSFER E);
            (if use_hf_transfer : bool then
               rt ← get_runtime;
               put_runtime (set_HF_HUB_ENABLE_HF_TRANSFER rt true)
             else mret tt);;
            tell (EvHfSnapshotDownload p revision ignore_file_pattern);;
            d ← lift (hf_snapshot_download E p revision ignore_file_pattern);
            mret (Some d)
          else
            let revision := default (info_revision model_info) revision in
            tell (EvSnapshotDownload p revision ignore_file_pattern);;
            d ← lift (snapshot_download E p revision ignore_file_pattern);
            mret (Some d)
        else mret (Some p)
    | None => mret None
    end;
  match model_dir with
  | None => raise (TypeError "expected str, bytes or os.PathLike object, not NoneType")
  | Some d =>
      let model_dir := os_path_expanduser E d in
      py_assert (os_path_isdir E model_dir) ("model_dir: " +:+ model_dir);;
      mret model_dir
  end.

(** [get_torch_dtype] (model.py 3863-3870). *)
Definition get_torch_dtype (model_dir : string) : M (option Dtype) :=
  tell (EvGetConfigDict model_dir);;
  entry ← lift (get_config_dict E model_dir);
  torch_dtype ←
    match entry with
    | None => mret None
    | Some (DtypeObject d) => mret (Some d)
    | Some (DtypeName s) =>
        match torch_getattr s with
        | Some d => mret (Some d)
        | None => raise (AttributeError ("module 'torch' has no attribute '" +:+ s +:+ "'"))
        end
    end;
  mret (if decide (torch_dtype = Some float32) then Some float16
        else torch_dtype).

(** [_check_awq_ext] (model.py 457-465). *)
Definition _check_awq_ext : M unit :=
  if awq_ext_importable E then mret tt
  else raise (ImportError awq_ext_hint).

(** [_check_gptq_model] (model.py 468-492); returns the updated
    [model_kwargs]. *)
Definition _check_gptq_model (bits : Z) (model_kwargs : ModelKwargs)
  : M ModelKwargs :=
  py_assert (bool_decide (quantization_config model_kwargs = None)) "";;
  let cfg :=
    if version_ge (transformers_version E) (4, 35)
    then GPTQConfig bits (Some false) None None
    else GPTQConfig bits None (Some true) None in
  let model_kwargs :=
    mkModelKwargs (device_map model_kwargs) (low_cpu_mem_usage model_kwargs)
                  (Some cfg) in
  (if auto_gptq_importable E then mret tt
   else raise (ImportError "No module named 'auto_gptq'"));;
  rt ← get_runtime;
  let __old_forward := QuantLinear_forward rt in
  (if negb (bool_decide (is_Some (QuantLinear_old_forward rt))) then
     put_runtime (set_QuantLinear_forward rt __old_forward _new_forward)
   else mret tt);;
  mret model_kwargs.

(** [fix_transformers_upgrade] (model.py 3771-3777). *)
Definition fix_transformers_upgrade (module : PreTrainedModel)
  : PreTrainedModel :=
  if version_ge (transformers_version E) (4, 35)
     && legacy_set_gradient_checkpointing module
  then mkModel (config module) (model_dtype module) (load_options module)
               (max_model_len module) (model_type module) (model_dir module)
               (generation_config module) (is_awq module) (gptq_bits module)
               false
  else module.

(** [fix_gradient_checkpointing_warning] (model.py 3780-3805). *)
Definition fix_gradient_checkpointing_warning : M unit :=
  let torch_version := torch_version E in
  if version_lt torch_version (2, 0) then mret tt
  else
    let use_reentrant :=
      if version_lt torch_version (2, 1) then true else false in
    rt ← get_runtime;
    let _old_checkpoint := torch_checkpoint rt in
    (if negb (bool_decide (is_Some (torch_old_checkpoint rt))) then
       put_runtime (set_torch_checkpoint rt _old_checkpoint
                      (checkpoint_lambda use_reentrant _old_checkpoint))
     else mret tt);;
    rt ← get_runtime;
    if bool_decide (is_Some (transformers_checkpoint rt)) then
      put_runtime (set_transformers_checkpoint rt
                     (checkpoint_lambda use_reentrant _old_checkpoint))
    else mret tt.

End Pipeline.

Section Loading.

Context (E : Env).

(** An injected [model_config] keyword. *)
Definition as_optional_config (v : option PyVal) : M (option PretrainedConfig) :=
  match v with
  | None | Some VNone => mret None
  | Some (VConfig c) => mret (Some c)
  | Some _ => raise (TypeError "model_config is not a PretrainedConfig")
  end.

(** An injected [tokenizer] keyword. *)
Definition as_optional_tokenizer (v : option PyVal)
  : M (option PreTrainedTokenizerBase) :=
  match v with
  | None | Some VNone => mret None
  | Some (VTokenizer t) => mret (Some t)
  | Some _ => raise (TypeError "tokenizer is not a PreTrainedTokenizerBase")
  end.

(** The [automodel_class] keyword, by class name. *)
Definition automodel_class_of (v : option PyVal) : string :=
  match v with
  | Some (VStr name) => name
  | _ => "AutoModelForCausalLM"
  end.

Definition set_eos_token (tokenizer : PreTrainedTokenizerBase)
    (eos : option string) : PreTrainedTokenizerBase :=
  mkTokenizer (tok_name tokenizer) eos (pad_token tokenizer)
              (tok_model_type tokenizer) (tok_model_dir tokenizer).

Definition set_pad_token (tokenizer : PreTrainedTokenizerBase)
    (pad : option string) : PreTrainedTokenizerBase :=
  mkTokenizer (tok_name tokenizer) (eos_token tokenizer) pad
              (tok_model_type tokenizer) (tok_model_dir tokenizer).

Definition set_generation_config_attr (model : PreTrainedModel)
    (g : option GenerationConfig) : PreTrainedModel :=
  mkModel (config model) (model_dtype model) (load_options model)
          (max_model_len model) (model_type model) (model_dir model)
          g (is_awq model) (gptq_bits model)
          (legacy_set_gradient_checkpointing model).

Definition set_max_model_len (model : PreTrainedModel) (n : option Z)
  : PreTrainedModel :=
  mkModel (config model) (model_dtype model) (load_options model)
          n (model_type model) (model_dir model)
          (generation_config model) (is_awq model) (gptq_bits model)
          (legacy_set_gradient_checkpointing model).

(** [get_model_tokenizer_from_repo] (model.py 757-805). The [context]
    manager around [from_pretrained] does not change what is returned and is
    left out; the checks that select it are kept. *)
Definition get_model_tokenizer_from_repo : GetModelTokenizerFunction :=
  fun model_dir_ torch_dtype model_kwargs load_model kwargs =>
  let is_awq_ := default (VBool false) (kwargs !! "is_awq") in
  let is_aqlm := default (VBool false) (kwargs !! "is_aqlm") in
  let gptq_bits_ := default (VInt 0) (kwargs !! "gptq_bits") in
  let is_training := default (VBool false) (kwargs !! "is_training") in
  (if truthy is_awq_ && truthy is_training then _check_awq_ext E
   else mret tt);;
  is_gptq ← lift (py_gt_zero gptq_bits_);
  model_kwargs ←
    (if is_gptq && truthy is_training
     then _check_gptq_model E (py_int gptq_bits_) model_kwargs
     else mret model_kwargs);
  (if truthy is_aqlm && truthy is_training then
     require_version E "transformers>=4.39";;
     if aqlm_importable E then mret tt
     else raise (ImportError "No module named 'aqlm'")
   else mret tt);;
  model_config ← as_optional_config (kwargs !! "model_config");
  model_config ←
    match model_config with
    | Some c => mret c
    | None =>
        tell (EvConfigFromPretrained model_dir_);;
        lift (AutoConfig_from_pretrained E model_dir_)
    end;
  let model_config :=
    match torch_dtype with
    | Some d => set_config_torch_dtype model_config d
    | None => model_config
    end in
  tokenizer ← as_optional_tokenizer (kwargs !! "tokenizer");
  tokenizer ←
    match tokenizer with
    | Some t => mret t
    | None =>
        tell (EvTokenizerFromPretrained model_dir_);;
        lift (AutoTokenizer_from_pretrained E model_dir_)
    end;
  let eos_token_ :=
    match kwargs !! "eos_token" with
    | Some (VStr s) => Some s
    | _ => None
    end in
  let tokenizer :=
    match eos_token_ with
    | Some s => set_eos_token tokenizer (Some s)
    | None => tokenizer
    end in
  model ←
    (if load_model then
       tell (EvModelFromPretrained model_dir_ torch_dtype);;
       m ← lift (automodel_from_pretrained E
                   (automodel_class_of (kwargs !! "automodel_class"))
                   model_dir_ model_config torch_dtype model_kwargs);
       mret (Some m)
     else mret None);
  let model :=
    match model with
    | Some m =>
        let m :=
          if truthy is_awq_
          then mkModel (config m) (model_dtype m) (load_options m)
                 (max_model_len m) (model_type m) (model_dir m)
                 (generation_config m) (Some is_awq_) (gptq_bits m)
                 (legacy_set_gradient_checkpointing m)
          else m in
        let m :=
          if (match py_gt_zero gptq_bits_ with inr b => b | inl _ => false end)
          then mkModel (config m) (model_dtype m) (load_options m)
                 (max_model_len m) (model_type m) (model_dir m)
                 (generation_config m) (is_awq m) (Some gptq_bits_)
                 (legacy_set_gradient_checkpointing m)
          else m in
        Some m
    | None => None
    end in
  mret (model, tokenizer).

(** [get_model_tokenizer_with_flash_attn] (model.py 1835-1856). *)
Definition get_model_tokenizer_with_flash_attn : GetModelTokenizerFunction :=
  fun model_dir_ torch_dtype model_kwargs load_model kwargs =>
  model_config ← as_optional_config (kwargs !! "model_config");
  model_config ←
    match model_config with
    | Some c => mret c
    | None =>
        tell (EvConfigFromPretrained model_dir_);;
        lift (AutoConfig_from_pretrained E model_dir_)
    end;
  let use_flash_attn := default (VBool false) (kwargs !! "use_flash_attn") in
  let kwargs := delete "use_flash_attn" kwargs in
  let model_config :=
    if version_ge (transformers_version E) (4, 36) then
      if truthy use_flash_attn
      then set_attn_implementation model_config "flash_attention_2"
      else model_config
    else set_flash_attn_2_enabled model_config (attr_of use_flash_attn) in
  get_model_tokenizer_from_repo model_dir_ torch_dtype model_kwargs load_model
    (<["model_config" := VConfig model_config]> kwargs).

(** [get_model_tokenizer_llama2] (model.py 2719-2732). Passing
    [model_config] both by name and inside [**kwargs] is a [TypeError]. *)
Definition get_model_tokenizer_llama2 : GetModelTokenizerFunction :=
  fun model_dir_ torch_dtype model_kwargs load_model kwargs =>
  tell (EvConfigFromPretrained model_dir_);;
  model_config ← lift (AutoConfig_from_pretrained E model_dir_);
  let model_config := set_pretraining_tp model_config 1 in
  if bool_decide (is_Some (kwargs !! "model_config"))
  then raise (TypeError "got multiple values for keyword argument 'model_config'")
  else
    get_model_tokenizer_with_flash_attn model_dir_ torch_dtype model_kwargs
      load_model (<["model_config" := VConfig model_config]> kwargs).

(** [get_model_tokenizer_chatglm] (model.py 1222-1253). *)
Definition get_model_tokenizer_chatglm : GetModelTokenizerFunction :=
  fun model_dir_ torch_dtype model_kwargs load_model kwargs =>
  let model_kwargs :=
    match quantization_config model_kwargs with
    | Some q =>
        mkModelKwargs (device_map model_kwargs)
          (low_cpu_mem_usage model_kwargs)
          (Some (set_llm_int8_skip_modules q ["output_layer"]))
    | None => model_kwargs
    end in
  kwargs ←
    (if version_ge (transformers_version E) (4, 34) then
       tell (EvTokenizerFromPretrained model_dir_);;
       t ← lift (dynamic_tokenizer_from_pretrained E model_dir_);
       mret (<["tokenizer" := VTokenizer t]> kwargs)
     else mret kwargs);
  '(model, tokenizer) ←
    get_model_tokenizer_from_repo model_dir_ torch_dtype model_kwargs
      load_model kwargs;
  (match model with
   | Some _ =>
       rt ← get_runtime;
       let __old_forward := CrossEntropyLoss_forward rt in
       put_runtime (set_CrossEntropyLoss_forward rt
                      (cross_entropy_forward __old_forward))
   | None => mret tt
   end);;
  mret (model, tokenizer).

(** ** [get_model_tokenizer] (model.py 3873-3950), block by block *)

(** Lines 3895-3898: the default load-options bag. *)
Definition default_model_kwargs (model_kwargs : option ModelKwargs)
  : ModelKwargs :=
  let model_kwargs := default empty_model_kwargs model_kwargs in
  if bool_decide (device_map model_kwargs = None) && negb (use_torchacc E)
  then mkModelKwargs (Some "auto") (low_cpu_mem_usage model_kwargs)
                     (quantization_config model_kwargs)
  else model_kwargs.

(** Lines 3911-3917: a [BitsAndBytesConfig] without a compute dtype gets the
    resolved precision. *)
Definition set_bnb_4bit_compute_dtype (model_kwargs : ModelKwargs)
    (torch_dtype : option Dtype) : ModelKwargs :=
  match quantization_config model_kwargs with
  | Some (BitsAndBytesConfig l8 l4 None skip) =>
      mkModelKwargs (device_map model_kwargs)
        (low_cpu_mem_usage model_kwargs)
        (Some (BitsAndBytesConfig l8 l4 torch_dtype skip))
  | _ => model_kwargs
  end.

(** Lines 3900-3917: the precision handed to the loader, and the bag with
    the 4-bit compute dtype filled in. *)
Definition determine_torch_dtype (model_info : ModelInfo) (model_dir : string)
    (torch_dtype : option Dtype) (model_kwargs : ModelKwargs)
  : M (option Dtype * ModelKwargs) :=
  match info_torch_dtype model_info with
  | Some model_torch_dtype =>
      match torch_dtype with
      | None => mret (Some model_torch_dtype, model_kwargs)
      | Some d =>
          py_assert (bool_decide (d = model_torch_dtype))
                    ("please use `" +:+ dtype_repr model_torch_dtype +:+ "`");;
          mret (Some d, model_kwargs)
      end
  | None =>
      match torch_dtype with
      | None =>
          torch_dtype ← get_torch_dtype E model_dir;
          mret (torch_dtype,
                set_bnb_4bit_compute_dtype model_kwargs torch_dtype)
      | Some d => mret (Some d, model_kwargs)
      end
  end.

(** Lines 3944-3949: the llama2 sampling fix on a generation config. *)
Definition fix_do_sample (generation_config : option GenerationConfig)
  : Exception + option GenerationConfig :=
  match generation_config with
  | Some g =>
      match temperature g with
      | Some t =>
          if num_lt (Finite 0) t && num_lt t (Finite 1)
             && bool_decide (do_sample g = Some false)
          then inr (Some (mkGenerationConfig (temperature g) (Some true)
                                             (max_new_tokens g)))
          else inr (Some g)
      | None =>
          inl (TypeError
                 "'<' not supported between instances of 'int' and 'NoneType'")
      end
  | None => inr None
  end.

(** Lines 3935-3949: generation-config reconciliation of a loaded model. *)
Definition reconcile_generation_config (model : PreTrainedModel)
    (model_dir_ : string) : M PreTrainedModel :=
  let generation_config_path := os_path_join model_dir_ "generation_config.json" in
  model ←
    (if os_path_isfile E generation_config_path
        && bool_decide (generation_config model = None)
     then g ← lift (GenerationConfig_from_pretrained E model_dir_);
          mret (set_generation_config_attr model (Some g))
     else mret model);
  generation_config_ ← lift (fix_do_sample (generation_config model));
  mret (set_generation_config_attr model generation_config_).

(** Lines 3923-3950: the fixups applied to whatever the loader returned. *)
Definition post_load_fixups (model_type_ model_dir_ : string)
    (model : option PreTrainedModel) (tokenizer : PreTrainedTokenizerBase)
  : M (option PreTrainedModel * PreTrainedTokenizerBase) :=
  let model :=
    match model with
    | Some m =>
        let m := set_max_model_len m (get_max_model_len E (config m)) in
        let m := mkModel (config m) (model_dtype m) (load_options m)
                   (max_model_len m) (Some model_type_) (Some model_dir_)
                   (generation_config m) (is_awq m) (gptq_bits m)
                   (legacy_set_gradient_checkpointing m) in
        Some (fix_transformers_upgrade E m)
    | None => None
    end in
  fix_gradient_checkpointing_warning E;;
  let tokenizer :=
    mkTokenizer (tok_name tokenizer) (eos_token tokenizer)
                (pad_token tokenizer) (Some model_type_) (Some model_dir_) in
  py_assert (bool_decide (eos_token tokenizer <> None))
            "tokenizer.eos_token has not been set.";;
  let tokenizer :=
    if bool_decide (pad_token tokenizer = None)
    then set_pad_token tokenizer (eos_token tokenizer)
    else tokenizer in
  match model with
  | Some m =>
      m ← reconcile_generation_config m model_dir_;
      mret (Some m, tokenizer)
  | None => mret (None, tokenizer)
  end.

(** [kwargs['eos_token'] = model_info['eos_token']] and the [is_training]
    default (lines 3918-3920). *)
Definition loader_kwargs (model_info : ModelInfo) (kwargs : gmap string PyVal)
  : gmap string PyVal :=
  let kwargs :=
    <["eos_token" := match info_eos_token model_info with
                     | Some s => VStr s
                     | None => VNone
                     end]> kwargs in
  if bool_decide (is_Some (kwargs !! "is_training")) then kwargs
  else <["is_training" := VBool false]> kwargs.

(** Lines 3918-3950: call the bound loader, then fix up what it returned. *)
Definition invoke_get_function (model_info : ModelInfo)
    (model_type_ model_dir_ : string) (torch_dtype : option Dtype)
    (model_kwargs : ModelKwargs) (load_model : bool)
    (kwargs : gmap string PyVal)
  : M (option PreTrainedModel * PreTrainedTokenizerBase) :=
  let get_function := info_get_function model_info in
  let kwargs := loader_kwargs model_info kwargs in
  tell (EvGetFunction model_dir_ torch_dtype load_model);;
  '(model, tokenizer) ←
    get_function model_dir_ torch_dtype model_kwargs load_model kwargs;
  post_load_fixups model_type_ model_dir_ model tokenizer.

Definition get_model_tokenizer (MODEL_MAPPING : gmap string ModelInfo)
    (model_type_ : string) (torch_dtype : option Dtype)
    (model_kwargs : option ModelKwargs) (load_model : bool)
    (model_id_or_path revision : option string) (kwargs : gmap string PyVal)
  : M (option PreTrainedModel * PreTrainedTokenizerBase) :=
  let model_dir_kw := default VNone (kwargs !! "model_dir") in
  let kwargs := delete "model_dir" kwargs in
  model_dir_ ← safe_snapshot_download E MODEL_MAPPING model_type_
                 model_id_or_path revision {["model_dir" := model_dir_kw]};
  model_info ← getitem MODEL_MAPPING model_type_;
  check_requires E (info_requires model_info);;
  let model_kwargs := default_model_kwargs model_kwargs in
  '(torch_dtype, model_kwargs) ←
    determine_torch_dtype model_info model_dir_ torch_dtype model_kwargs;
  invoke_get_function model_info model_type_ model_dir_ torch_dtype
                      model_kwargs load_model kwargs.

End Loading.

(** ** [prepare_model_template] (infer.py 188-197)

    The block that reconciles [args.max_model_len] with the limit
    [get_model_tokenizer] attached to the model; nothing else in
    [prepare_model_template] reads or writes [max_model_len]. *)

Definition prepare_model_template_max_model_len (model : PreTrainedModel)
    (args_max_model_len : option Z) : Exception + PreTrainedModel :=
  match max_model_len model with
  | None => inr (set_max_model_len model args_max_model_len)
  | Some model_max =>
      match args_max_model_len with
      | Some n =>
          if (n <=? model_max)%Z
          then inr (set_max_model_len model (Some n))
          else inl (ValueError
            ("args.max_model_len exceeds the maximum max_model_len supported by the model." +:+
             "args.max_model_len: " +:+ pretty n +:+
             ", model.max_model_len: " +:+ pretty model_max))
      | None => inr model
      end
  end.

(** ** Calling the patched functions *)

(** What the library's [checkpoint] receives as [use_reentrant] when the
    function object [f] is called with the keyword given ([Some b]) or left
    out ([None]): each lambda fills in its default and forwards. *)
Fixpoint call_checkpoint (f : CheckpointFn) (use_reentrant : option bool)
  : option bool :=
  match f with
  | checkpoint_orig => use_reentrant
  | checkpoint_lambda use_reentrant_default _old_checkpoint =>
      call_checkpoint _old_checkpoint
        (Some (default use_reentrant_default use_reentrant))
  end.

(** How many lambdas stand between a caller and the library's function. *)
Fixpoint wrap_depth (f : CheckpointFn) : nat :=
  match f with
  | checkpoint_orig => 0
  | checkpoint_lambda _ _old_checkpoint => S (wrap_depth _old_checkpoint)
  end.

(** The device on which the library's loss forward finds [target] when the
    function object [f] is called with [inputs] on [inputs_device]: each
    [cross_entropy_forward] moves [target] there and forwards. *)
Fixpoint call_loss_forward (f : LossForwardFn)
    (inputs_device target_device : string) : string :=
  match f with
  | loss_forward_orig => target_device
  | cross_entropy_forward __old_forward =>
      call_loss_forward __old_forward inputs_device inputs_device
  end.

Fixpoint loss_wrap_depth (f : LossForwardFn) : nat :=
  match f with
  | loss_forward_orig => 0
  | cross_entropy_forward __old_forward => S (loss_wrap_depth __old_forward)
  end.

(** The two attributes of a [QuantLinear] instance that [_new_forward]
    reads and writes. *)
Record QuantLinear := mkQuantLinear {
  training : bool;
  autogptq_cuda_available : bool;
}.

(** Calling a forward function object on [self]: the result is the value of
    [autogptq_cuda_available] the library's forward ran under, and [self]
    afterwards. [self.__old_forward] is looked up on the class at call time;
    [depth] bounds the Python call stack. *)
Fixpoint call_forward (depth : nat) (rt : Runtime) (f : ForwardFn)
    (self : QuantLinear) : Exception + (bool * QuantLinear) :=
  match f with
  | forward_orig => inr (autogptq_cuda_available self, self)
  | _new_forward =>
      match depth with
      | O => inl RecursionError
      | S depth' =>
          match QuantLinear_old_forward rt with
          | None => inl (AttributeError "'QuantLinear' object has no attribute '__old_forward'")
          | Some __old_forward =>
              if negb (training self) || negb (autogptq_cuda_available self)
              then call_forward depth' rt __old_forward self
              else
                match call_forward depth' rt __old_forward
                        (mkQuantLinear (training self) false) with
                | inr (res, self') =>
                    inr (res, mkQuantLinear (training self') true)
                | inl e => inl e
                end
          end
      end
  end.

(** ** Reading the log *)

(** The loading calls recorded so far: the loader invocation and the
    config, tokenizer and model constructions. *)
Definition loads (rt : Runtime) : list Event := List.filter is_load (log rt).

(** The hub downloads recorded so far. *)
Definition downloads (rt : Runtime) : list Event :=
  List.filter is_download (log rt).

(** The first requirement the installation does not meet. *)
Definition first_unmet (E : Env) (requires : list string) : option string :=
  List.find (fun r => negb (requirement_met E r)) requires.

(** The requirements [check_requires] gets to look at: all of them up to and
    including the first unmet one. *)
Fixpoint requires_checked (E : Env) (requires : list string) : list string :=
  match requires with
  | [] => []
  | r :: rest =>
      r :: (if requirement_met E r then requires_checked E rest else [])
  end.

Definition emit_all (es : list Event) (rt : Runtime) : Runtime :=
  set_log rt (log rt ++ es).

(** The state in which the precision is determined: materialization done,
    requirement checker consulted. *)
Definition after_requires (E : Env) (info : ModelInfo) (rt : Runtime)
  : Runtime :=
  emit_all (EvRequireVersion <$> requires_checked E (info_requires info)) rt.

(** The [model_dir] keyword as [get_model_tokenizer] forwards it to
    [safe_snapshot_download]. *)
Definition model_dir_kwarg (kwargs : gmap string PyVal) : gmap string PyVal :=
  {["model_dir" := default VNone (kwargs !! "model_dir")]}.

(** Fail-fast reading of the requirement check, at one call: with an unmet
    requirement in the catalog entry the call raises the checker's error for
    an unmet requirement and no hub download has been made by then. *)
Definition requirements_checked_before_download (E : Env)
    (MODEL_MAPPING : gmap string ModelInfo) (key : string)
    (torch_dtype : option Dtype) (model_kwargs : option ModelKwargs)
    (load_model : bool) (model_id_or_path revision : option string)
    (kwargs : gmap string PyVal) (rt : Runtime) : Prop :=
  forall info r,
    MODEL_MAPPING !! key = Some info ->
    first_unmet E (info_requires info) = Some r ->
    let out := get_model_tokenizer E MODEL_MAPPING key torch_dtype model_kwargs
                 load_model model_id_or_path revision kwargs rt in
    out.1 = inl (RequireVersionError r) ∧ downloads out.2 = downloads rt.


(** The precision a config entry declares, when [torch] knows the name. *)
Definition declared_precision (entry : option ConfigDtypeEntry)
  : option (option Dtype) :=
  match entry with
  | None => Some None
  | Some (DtypeObject d) => Some (Some d)
  | Some (DtypeName s) => Some <$> torch_getattr s
  end.

(** 32-bit float becomes half precision; anything else is kept. *)
Definition downgrade (d : option Dtype) : option Dtype :=
  match d with
  | Some float32 => Some float16
  | _ => d
  end.

(** ** A concrete installation and a slice of the catalog

    An installation to run the pipeline on, and six registrations of
    [model.py] with the loaders they decorate. Template ids are opaque to
    the registry and are given by name. *)

Module Fixture.

Definition tokenizer0 : PreTrainedTokenizerBase :=
  mkTokenizer "LlamaTokenizer" (Some "</s>") None None None.

Definition config0 : PretrainedConfig :=
  mkConfig "LlamaConfig" (Some float32) None None None.

(** What [from_pretrained] builds: no limit attached yet, a generation
    config with temperature 0.6 and sampling off. *)
Definition model0 (c : PretrainedConfig) (d : option Dtype) (kw : ModelKwargs)
  : PreTrainedModel :=
  mkModel c d kw None None None
          (Some (mkGenerationConfig (Some (Finite (6 # 10))) (Some false) None))
          None None true.

(** ModelScope as provider, nothing on disk, torch 2.1, transformers 4.36,
    [autoawq] installed without the [awq_ext] kernels, [auto_gptq] not
    installed. *)
Definition env0 : Env := {|
  USE_HF := false;
  os_path_exists := fun _ => false;
  os_path_isdir := fun _ => true;
  os_path_isfile := fun _ => false;
  os_path_expanduser := fun p => p;
  hf_snapshot_download := fun id _ _ => inr ("/cache/hf/" +:+ id);
  snapshot_download := fun id _ _ => inr ("/cache/ms/" +:+ id);
  requirement_met := fun r =>
    negb (String.eqb r "auto_gptq" || String.eqb r "auto_gptq>=0.5");
  get_config_dict := fun _ => inr (Some (DtypeName "float32"));
  AutoConfig_from_pretrained := fun _ => inr config0;
  AutoTokenizer_from_pretrained := fun _ => inr tokenizer0;
  dynamic_tokenizer_from_pretrained :=
    fun _ => inr (mkTokenizer "ChatGLMTokenizer" (Some "</s>") (Some "<unk>")
                              None None);
  automodel_from_pretrained := fun _ _ c d kw => inr (model0 c d kw);
  GenerationConfig_from_pretrained :=
    fun _ => inr (mkGenerationConfig (Some (Finite 1)) (Some false) None);
  get_max_model_len := fun _ => Some 4096;
  use_torchacc := false;
  torch_version := (2, 1);
  transformers_version := (4, 36);
  awq_ext_importable := false;
  auto_gptq_importable := false;
  aqlm_importable := false;
  USE_HF_TRANSFER := inr false;
|}.

(** A fresh process: nothing logged, nothing patched. *)
Definition rt0 : Runtime :=
  mkRuntime [] checkpoint_orig None (Some checkpoint_orig) forward_orig None
            loss_forward_orig false.

Definition capability (support_flash_attn support_vllm : bool)
  : gmap string PyVal :=
  {["support_flash_attn" := VBool support_flash_attn;
    "support_vllm" := VBool support_vllm]}.

(** model.py 503-510 *)
Definition atom_7b_chat : Registration :=
  mkRegistration "atom-7b-chat" (Some "FlagAlpha/Atom-7B-Chat")
    (Some ["q_proj"; "k_proj"; "v_proj"]) "atom" None None
    (Some "FlagAlpha/Atom-7B-Chat") None None None false None
    (capability true true).

(** model.py 2692-2700 *)
Definition llama2_7b_chat : Registration :=
  mkRegistration "llama2-7b-chat" (Some "modelscope/Llama-2-7b-chat-ms")
    (Some ["q_proj"; "k_proj"; "v_proj"]) "llama" None None
    (Some "meta-llama/Llama-2-7b-chat-hf") None (Some [".+\.bin$"]) None
    false None (capability true true).

(** model.py 1285-1295 *)
Definition wizardlm2_7b_awq : Registration :=
  mkRegistration "wizardlm2-7b-awq" (Some "AI-ModelScope/WizardLM-2-7B-AWQ")
    (Some ["q_proj"; "k_proj"; "v_proj"]) "wizardlm2-awq"
    (Some ["transformers>=4.34"]) (Some float16)
    (Some "MaziyarPanahi/WizardLM-2-7B-AWQ") None None
    (Some {["is_awq" := VBool true]}) false None (capability true true).

(** model.py 1576-1587 *)
Definition yi_6b_chat_awq : Registration :=
  mkRegistration "yi-6b-chat-awq" (Some "01ai/Yi-6B-Chat-4bits")
    (Some ["q_proj"; "k_proj"; "v_proj"]) "yi"
    (Some ["autoawq"]) (Some float16)
    (Some "01-ai/Yi-6B-Chat-4bits") None None
    (Some {["is_awq" := VBool true]}) false (Some "<|im_end|>")
    (capability true true).

(** model.py 1588-1599 *)
Definition yi_6b_chat_int8 : Registration :=
  mkRegistration "yi-6b-chat-int8" (Some "01ai/Yi-6B-Chat-8bits")
    (Some ["q_proj"; "k_proj"; "v_proj"]) "yi"
    (Some ["auto_gptq"]) (Some float16)
    (Some "01-ai/Yi-6B-Chat-8bits") None None
    (Some {["gptq_bits" := VInt 8]}) false (Some "<|im_end|>")
    (capability true true).

(** model.py 1185-1191 *)
Definition chatglm3_6b : Registration :=
  mkRegistration "chatglm3-6b" (Some "ZhipuAI/chatglm3-6b")
    (Some ["query_key_value"]) "chatglm3" None None
    (Some "THUDM/chatglm3-6b") None None None false None
    {["support_vllm" := VBool true]}.

(** Apply a decorator-form registration to the loader it decorates. *)
Definition decorate (r : Registration) (f : GetModelTokenizerFunction)
    (mm : gmap string ModelInfo) : gmap string ModelInfo :=
  match register_model r None mm with
  | inr (Decorator mm' decorator) => (decorator f mm').1
  | _ => mm
  end.

Definition catalog0 : gmap string ModelInfo :=
  decorate chatglm3_6b (get_model_tokenizer_chatglm env0)
  (decorate yi_6b_chat_int8 (get_model_tokenizer_with_flash_attn env0)
  (decorate yi_6b_chat_awq (get_model_tokenizer_with_flash_attn env0)
  (decorate wizardlm2_7b_awq (get_model_tokenizer_with_flash_attn env0)
  (decorate llama2_7b_chat (get_model_tokenizer_llama2 env0)
  (decorate atom_7b_chat (get_model_tokenizer_from_repo env0) ∅))))).

(** A second loader: the shared one with a tokenizer injected. *)
Definition loader_with_tokenizer : GetModelTokenizerFunction :=
  partial (get_model_tokenizer_from_repo env0)
          {["tokenizer" := VTokenizer
              (mkTokenizer "Injected" (Some "<eos>") (Some "<pad>") None None)]}.

(** Registering [atom-7b-chat] once more, from another repository. *)
Definition atom_7b_chat_again (exists_ok : bool) : Registration :=
  mkRegistration "atom-7b-chat" (Some "other/Atom-7B-Chat") None "atom" None
    None None None None None exists_ok None ∅.

End Fixture.

(** ** Loaders and the end-of-sequence override *)

(** A loader honours the [eos_token] keyword: whenever it returns, the
    tokenizer carries the token it was given. *)
Definition forces_eos_token (f : GetModelTokenizerFunction) : Prop :=
  forall dir dt mkw lm (kw : gmap string PyVal) rt m tok rt' s,
    kw !! "eos_token" = Some (VStr s) ->
    f dir dt mkw lm kw rt = (inr (m, tok), rt') ->
    eos_token tok = Some s.

(** ** Quantization extensions *)

(** The same installation with the two quantization extensions present or
    absent as given. *)
Definition with_extensions (E : Env) (awq_ext auto_gptq : bool) : Env :=
  mkEnv (USE_HF E) (os_path_exists E) (os_path_isdir E) (os_path_isfile E)
    (os_path_expanduser E) (hf_snapshot_download E) (snapshot_download E)
    (requirement_met E) (get_config_dict E) (AutoConfig_from_pretrained E)
    (AutoTokenizer_from_pretrained E) (dynamic_tokenizer_from_pretrained E)
    (automodel_from_pretrained E)
    (GenerationConfig_from_pretrained E) (get_max_model_len E)
    (use_torchacc E) (torch_version E) (transformers_version E)
    awq_ext auto_gptq (aqlm_importable E) (USE_HF_TRANSFER E).










(** ** Two resolutions in one process *)

(** The process state after resolving [key1] and after then resolving
    [key2], with default arguments. *)
Definition after_two_resolutions (E : Env)
    (MODEL_MAPPING : gmap string ModelInfo) (key1 key2 : string)
    (load_model : bool) (rt : Runtime) : Runtime * Runtime :=
  let rt1 := (get_model_tokenizer E MODEL_MAPPING key1 None None load_model
                None None ∅ rt).2 in
  let rt2 := (get_model_tokenizer E MODEL_MAPPING key2 None None load_model
                None None ∅ rt1).2 in
  (rt1, rt2).

(** The default [use_reentrant] the shim chooses for a torch release. *)
Definition use_reentrant_for (torch_version : Version) : bool :=
  if version_lt torch_version (2, 1) then true else false.

(** * More of [model.py] *)

(** ** Catalog accessors (model.py 3953-3970) *)

(** [key in model_type] on strings. *)
Fixpoint str_contains (key s : string) : bool :=
  String.prefix key s
  || match s with
     | EmptyString => false
     | String _ rest => str_contains key rest
     end.

(** The dictionary literal of [get_additional_saved_files], in insertion
    order. *)
Definition files_mapping : list (string * list string) :=
  [("qwen-vl", ["SimSun.ttf"]);
   ("qwen-audio", ["mel_filters.npz"]);
   ("yi-vl", ["vit"])].

(** [get_additional_saved_files] (model.py 3953-3962). *)
Definition get_additional_saved_files (model_type_ : string) : list string :=
  match List.find (fun kv => str_contains kv.1 model_type_) files_mapping with
  | Some kv => kv.2
  | None => []
  end.

(** [get_default_template_type] (model.py 3965-3966). *)
Definition get_default_template_type (MODEL_MAPPING : gmap string ModelInfo)
    (model_type_ : string) : Exception + string :=
  match MODEL_MAPPING !! model_type_ with
  | Some model_info => inr (info_template model_info)
  | None => inl (KeyError model_type_)
  end.

(** [get_default_lora_target_modules] (model.py 3969-3970). *)
Definition get_default_lora_target_modules
    (MODEL_MAPPING : gmap string ModelInfo) (model_type_ : string)
  : Exception + option (list string) :=
  match MODEL_MAPPING !! model_type_ with
  | Some model_info => inr (info_lora_target_modules model_info)
  | None => inl (KeyError model_type_)
  end.

(** ** Three more loaders *)

Section MoreLoaders.

Context (E : Env).

(** [get_model_tokenizer_grok] (model.py 816-843): the tokenizer comes from
    a fixed repository, not from [model_dir]. *)
Definition get_model_tokenizer_grok : GetModelTokenizerFunction :=
  fun model_dir_ torch_dtype model_kwargs load_model kwargs =>
  model_config ← as_optional_config (kwargs !! "model_config");
  model_config ←
    match model_config with
    | Some c => mret c
    | None =>
        tell (EvConfigFromPretrained model_dir_);;
        lift (AutoConfig_from_pretrained E model_dir_)
    end;
  let model_config :=
    match torch_dtype with
    | Some d => set_config_torch_dtype model_config d
    | None => model_config
    end in
  tokenizer ← as_optional_tokenizer (kwargs !! "tokenizer");
  tokenizer ←
    match tokenizer with
    | Some t => mret t
    | None =>
        tell (EvTokenizerFromPretrained "AI-ModelScope/grok-1-tokenizer");;
        lift (AutoTokenizer_from_pretrained E "AI-ModelScope/grok-1-tokenizer")
    end;
  let eos_token_ :=
    match kwargs !! "eos_token" with
    | Some (VStr s) => Some s
    | _ => None
    end in
  let tokenizer :=
    match eos_token_ with
    | Some s => set_eos_token tokenizer (Some s)
    | None => tokenizer
    end in
  model ←
    (if load_model then
       tell (EvModelFromPretrained model_dir_ torch_dtype);;
       m ← lift (automodel_from_pretrained E
                   (automodel_class_of (kwargs !! "automodel_class"))
                   model_dir_ model_config torch_dtype model_kwargs);
       mret (Some m)
     else mret None);
  mret (model, tokenizer).

(** [get_model_tokenizer_orion] (model.py 3473-3486). As in
    [get_model_tokenizer_llama2], [model_config] is passed by name next to
    [**kwargs]. *)
Definition get_model_tokenizer_orion : GetModelTokenizerFunction :=
  fun model_dir_ torch_dtype model_kwargs load_model kwargs =>
  tell (EvConfigFromPretrained model_dir_);;
  model_config ← lift (AutoConfig_from_pretrained E model_dir_);
  let use_flash_attn := default (VBool false) (kwargs !! "use_flash_attn") in
  let kwargs := delete "use_flash_attn" kwargs in
  let model_config :=
    set_flash_attn_2_enabled model_config (attr_of use_flash_attn) in
  if bool_decide (is_Some (kwargs !! "model_config"))
  then raise (TypeError "got multiple values for keyword argument 'model_config'")
  else
    get_model_tokenizer_from_repo E model_dir_ torch_dtype model_kwargs
      load_model (<["model_config" := VConfig model_config]> kwargs).

(** [get_model_tokenizer_internlm_chat] (model.py 974-984). Dropping the
    read-only [eos_token_id] property of the tokenizer class only makes the
    assignment possible. *)
Definition get_model_tokenizer_internlm_chat : GetModelTokenizerFunction :=
  fun model_dir_ torch_dtype model_kwargs load_model kwargs =>
  '(model, tokenizer) ←
    get_model_tokenizer_from_repo E model_dir_ torch_dtype model_kwargs
      load_model kwargs;
  mret (model, set_eos_token tokenizer (Some "<eoa>")).

End MoreLoaders.

(** ** Reading the log, continued *)

Definition is_model_load (e : Event) : bool :=
  match e with EvModelFromPretrained _ _ => true | _ => false end.

(** The model constructions recorded so far. *)
Definition model_loads (rt : Runtime) : list Event :=
  List.filter is_model_load (log rt).

Definition is_hf_download (e : Event) : bool :=
  match e with EvHfSnapshotDownload _ _ _ => true | _ => false end.

(** [USE_HF_TRANSFER] is set to a value [strtobool] reads as true. *)
Definition hf_transfer_requested (E : Env) : bool :=
  match USE_HF_TRANSFER E with
  | inr b => b
  | inl _ => false
  end.

(** The process state with the log left out: what has been patched. *)
Definition patches (rt : Runtime)
  : CheckpointFn * option CheckpointFn * option CheckpointFn * ForwardFn
    * option ForwardFn * LossForwardFn :=
  (torch_checkpoint rt, torch_old_checkpoint rt, transformers_checkpoint rt,
   QuantLinear_forward rt, QuantLinear_old_forward rt,
   CrossEntropyLoss_forward rt).

(** [fix_gradient_checkpointing_warning] called [n] times in a row. *)
Fixpoint fix_gradient_checkpointing_warning_times (E : Env) (n : nat)
    (rt : Runtime) : Runtime :=
  match n with
  | O => rt
  | S n' =>
      (fix_gradient_checkpointing_warning E
         (fix_gradient_checkpointing_warning_times E n' rt)).2
  end.

(** ** More installations *)

Module Installations.


(** [Fixture.env0] with Hugging Face selected as provider. *)
Definition env_hf : Env :=
  mkEnv true (os_path_exists Fixture.env0)
    (os_path_isdir Fixture.env0) (os_path_isfile Fixture.env0)
    (os_path_expanduser Fixture.env0) (hf_snapshot_download Fixture.env0)
    (snapshot_download Fixture.env0) (requirement_met Fixture.env0)
    (get_config_dict Fixture.env0) (AutoConfig_from_pretrained Fixture.env0)
    (AutoTokenizer_from_pretrained Fixture.env0)
    (dynamic_tokenizer_from_pretrained Fixture.env0)
    (automodel_from_pretrained Fixture.env0)
    (GenerationConfig_from_pretrained Fixture.env0)
    (get_max_model_len Fixture.env0) false (2, 1) (4, 36) false false false
    (inr false).

(** [env_hf] with [USE_HF_TRANSFER=1]. *)
Definition env_hf_transfer : Env :=
  mkEnv true (os_path_exists Fixture.env0)
    (os_path_isdir Fixture.env0) (os_path_isfile Fixture.env0)
    (os_path_expanduser Fixture.env0) (hf_snapshot_download Fixture.env0)
    (snapshot_download Fixture.env0) (requirement_met Fixture.env0)
    (get_config_dict Fixture.env0) (AutoConfig_from_pretrained Fixture.env0)
    (AutoTokenizer_from_pretrained Fixture.env0)
    (dynamic_tokenizer_from_pretrained Fixture.env0)
    (automodel_from_pretrained Fixture.env0)
    (GenerationConfig_from_pretrained Fixture.env0)
    (get_max_model_len Fixture.env0) false (2, 1) (4, 36) false false false
    (inr true).

(** [Fixture.env0] with both quantization extensions installed. *)
Definition env_quant : Env := with_extensions Fixture.env0 true true.



End Installations.

(** [key] occurs in [s]. *)
Definition occurs (key s : string) : Prop :=
  exists pre post, s = pre +:+ key +:+ post.


(** A checkpoint set up for greedy decoding: the generation config of the
    model that [from_pretrained] builds has no temperature. *)
Module Greedy.




End Greedy.

(** ** Loaders and tokenizer-only loading *)

(** A loader asked for the tokenizer only ([load_model=False]) constructs no
    model, returns none, and leaves [CrossEntropyLoss] alone. *)
Definition builds_no_model (f : GetModelTokenizerFunction) : Prop :=
  forall dir dt mkw (kw : gmap string PyVal) rt,
    model_loads (f dir dt mkw false kw rt).2 = model_loads rt
    ∧ CrossEntropyLoss_forward (f dir dt mkw false kw rt).2
      = CrossEntropyLoss_forward rt
    ∧ forall m tok rt',
        f dir dt mkw false kw rt = (inr (m, tok), rt') -> m = None.

(** * [infer.py]: interactive inference *)

(** ** The console session (infer.py 222-234 and 267-378) *)

(** What can end a session besides the exceptions of the pipeline: the end
    of the input, a list index out of range, and a local variable read
    before its first assignment. *)
Inductive InferException :=
| Raised (e : Exception)
| EOFError
| IndexError (msg : string)
| UnboundLocalError (name : string).

(** What the session writes to the terminal. *)
Inductive Output :=
(** the prompt of [input(text)] *)
| Prompted (text : string)
(** the prompt of [read_multi_line(addi_prompt)] *)
| PromptedMultiLine (addi_prompt : string)
(** [print(text, end=end_)] *)
| Printed (text end_ : string).

Definition History : Type := list (string * string).

(** [infer_kwargs]: the two keys the source writes. *)
Record InferKwargs := mkInferKwargs {
  kw_images : option (list string);
  kw_stop_words : option (list string);
}.

Definition empty_infer_kwargs : InferKwargs := mkInferKwargs None None.

(** One entry of [result], and one line of the [jsonl] file. *)
Record ResultObj := mkResultObj {
  obj_query : string;
  obj_response : string;
  obj_history : History;
}.

(** Calls of the four inference procedures, with what they are given. *)
Inductive Request :=
| CallInference (stream : bool) (query : string) (history : History)
                (system : option string) (infer_kwargs : InferKwargs)
| CallInferenceVllm (stream : bool) (query : string) (history : History)
                    (system : option string).

Definition req_query (r : Request) : string :=
  match r with
  | CallInference _ query _ _ _ | CallInferenceVllm _ query _ _ => query
  end.

Definition req_history (r : Request) : History :=
  match r with
  | CallInference _ _ history _ _ | CallInferenceVllm _ _ history _ => history
  end.

Definition req_system (r : Request) : option string :=
  match r with
  | CallInference _ _ _ system _ | CallInferenceVllm _ _ _ system => system
  end.

(** The media handed over with a request; the vLLM procedures are given
    none. *)
Definition req_images (r : Request) : list string :=
  match r with
  | CallInference _ _ _ _ infer_kwargs => default [] (kw_images infer_kwargs)
  | CallInferenceVllm _ _ _ _ => []
  end.

(** The session: the replies still to be read (one per call of [input] or
    [read_multi_line]), what has been written, the inference calls made and
    the objects appended to the [jsonl] file. *)
Record Session := mkSession {
  stdin : list string;
  stdout : list Output;
  requests : list Request;
  jsonl : list (string * ResultObj);
}.

Definition IO (A : Type) : Type :=
  Session -> (InferException + A) * Session.

#[global] Instance IO_ret : MRet IO := fun A (a : A) s => (inr a, s).

#[global] Instance IO_bind : MBind IO := fun A B (f : A -> IO B) (c : IO A) s =>
  match c s with
  | (inl e, s') => (inl e, s')
  | (inr a, s') => f a s'
  end.

Definition io_raise {A} (e : InferException) : IO A := fun s => (inl e, s).

Definition io_lift {A} (r : InferException + A) : IO A := fun s => (r, s).

Definition emit_output (o : Output) : IO unit := fun s =>
  (inr tt, mkSession (stdin s) (stdout s ++ [o]) (requests s) (jsonl s)).

(** The next reply, or [EOFError] at the end of the input. *)
Definition read_reply : IO string := fun s =>
  match stdin s with
  | [] => (inl EOFError, s)
  | reply :: rest =>
      (inr reply, mkSession rest (stdout s) (requests s) (jsonl s))
  end.

(** [input(text)] *)
Definition input (text : string) : IO string :=
  emit_output (Prompted text);; read_reply.

(** [read_multi_line(addi_prompt)] of [swift.utils]: one reply of the
    session is one multi-line text. *)
Definition read_multi_line (addi_prompt : string) : IO string :=
  emit_output (PromptedMultiLine addi_prompt);; read_reply.

Definition newline : string := String (Ascii.ascii_of_nat 10) EmptyString.

(** [print(text)] and [print(text, end='')] *)
Definition print (text : string) : IO unit := emit_output (Printed text newline).

Definition print_flush (text : string) : IO unit := emit_output (Printed text "").

Definition get_session : IO Session := fun s => (inr s, s).

Definition request (r : Request) : IO unit := fun s =>
  (inr tt, mkSession (stdin s) (stdout s) (requests s ++ [r]) (jsonl s)).

(** [append_to_jsonl(jsonl_path, obj)] *)
Definition append_to_jsonl (jsonl_path : string) (obj : ResultObj) : IO unit :=
  fun s =>
  (inr tt, mkSession (stdin s) (stdout s) (requests s)
                     (jsonl s ++ [(jsonl_path, obj)])).

(** What the loop calls and does not define: [str.strip], [str.lower] and
    the four inference procedures of [swift.llm.utils], each already applied
    to the model or engine, the template and the LoRA request of the
    session. A generator is given by what it yields and by the exception
    that ends it, when one does. The procedures leave their arguments as
    they are. *)
Record Chat := mkChat {
  str_strip : string -> string;
  str_lower : string -> string;
  inference :
    string -> History -> option string -> InferKwargs ->
    InferException + (string * History);
  inference_stream :
    string -> History -> option string -> InferKwargs ->
    list (string * History) * option InferException;
  inference_vllm :
    string -> History -> option string ->
    InferException + list (string * History);
  inference_stream_vllm :
    string -> History -> option string ->
    list (list (string * History)) * option InferException;
}.

(** The arguments the loop reads. *)
Record DialogueArguments := mkDialogueArguments {
  args_infer_backend : string;
  args_infer_media_type : string;
  args_stream : bool;
  args_stop_words : option (list string);
}.

(** [infer_kwargs['images'] = images] *)
Definition set_kw_images (k : InferKwargs) (images : list string)
  : InferKwargs :=
  mkInferKwargs (Some images) (kw_stop_words k).

(** [infer_kwargs['stop_words'] = stop_words] *)
Definition set_kw_stop_words (k : InferKwargs) (stop_words : list string)
  : InferKwargs :=
  mkInferKwargs (kw_images k) (Some stop_words).

(** [read_media_file] (infer.py 222-234); returns [infer_kwargs] as the call
    leaves it. [images += [image]] extends the list in place, so a list that
    was in [infer_kwargs] before is the one that is stored again. *)
Definition read_media_file (infer_kwargs : InferKwargs)
    (infer_media_type : string) : IO InferKwargs :=
  let text := "Input a media path or URL <<< " in
  let images := default [] (kw_images infer_kwargs) in
  if String.eqb infer_media_type "none" then mret infer_kwargs
  else
    images ←
      (if String.eqb infer_media_type "round" || Nat.eqb (length images) 0
       then
         image ← input text;
         if (0 <? String.length image)%nat
         then mret (images ++ [image])
         else mret images
       else mret images);
    if (0 <? length images)%nat
    then mret (set_kw_images infer_kwargs images)
    else mret infer_kwargs.

Inductive InputMode := mode_S | mode_M.

(** The local variables of the loop. [response] and [new_history] are
    unbound until a round assigns them. *)
Record Locals := mkLocals {
  input_mode : InputMode;
  read_system : bool;
  system : option string;
  history : History;
  infer_kwargs : InferKwargs;
  response : option string;
  new_history : option History;
  result : list ResultObj;
}.

(** The locals as the loop is entered (infer.py 267-285). *)
Definition initial_locals : Locals :=
  mkLocals mode_S false None [] empty_infer_kwargs None None [].

Definition set_input_mode (l : Locals) (m : InputMode) : Locals :=
  mkLocals m (read_system l) (system l) (history l) (infer_kwargs l)
           (response l) (new_history l) (result l).

Definition set_read_system (l : Locals) (b : bool) : Locals :=
  mkLocals (input_mode l) b (system l) (history l) (infer_kwargs l)
           (response l) (new_history l) (result l).

Definition set_system (l : Locals) (s : option string) : Locals :=
  mkLocals (input_mode l) (read_system l) s (history l) (infer_kwargs l)
           (response l) (new_history l) (result l).

Definition set_history (l : Locals) (h : History) : Locals :=
  mkLocals (input_mode l) (read_system l) (system l) h (infer_kwargs l)
           (response l) (new_history l) (result l).

Definition set_infer_kwargs (l : Locals) (k : InferKwargs) : Locals :=
  mkLocals (input_mode l) (read_system l) (system l) (history l) k
           (response l) (new_history l) (result l).

(** [response, new_history = r, h] *)
Definition set_response (l : Locals) (r : string) (h : History) : Locals :=
  mkLocals (input_mode l) (read_system l) (system l) (history l)
           (infer_kwargs l) (Some r) (Some h) (result l).

Definition set_result (l : Locals) (r : list ResultObj) : Locals :=
  mkLocals (input_mode l) (read_system l) (system l) (history l)
           (infer_kwargs l) (response l) (new_history l) r.

(** Reading a local variable. *)
Definition local {A} (name : string) (v : option A) : IO A :=
  match v with
  | Some a => mret a
  | None => io_raise (UnboundLocalError name)
  end.

(** How one round of the loop ends. *)
Inductive Next :=
| Continue (l : Locals)
| Break (l : Locals).

(** [if len(response) > print_idx: print(response[print_idx:], end='');
     print_idx = len(response)]; returns the new [print_idx]. *)
Definition print_delta (response : string) (print_idx : nat) : IO nat :=
  if (print_idx <? String.length response)%nat
  then
    print_flush (String.substring print_idx
                   (String.length response - print_idx) response);;
    mret (String.length response)
  else mret print_idx.

(** [for response, new_history in gen: ...] (infer.py 359-363) *)
Fixpoint print_stream (gen : list (string * History)) (print_idx : nat)
    (l : Locals) : IO Locals :=
  match gen with
  | [] => mret l
  | (response, new_history) :: gen =>
      let l := set_response l response new_history in
      print_idx ← print_delta response print_idx;
      print_stream gen print_idx l
  end.

(** [resp_list[0]] *)
Definition first_response (resp_list : list (string * History))
  : IO (string * History) :=
  match resp_list with
  | r :: _ => mret r
  | [] => io_raise (IndexError "list index out of range")
  end.

(** [for resp_list in gen: ...] (infer.py 336-342) *)
Fixpoint print_stream_vllm (gen : list (list (string * History)))
    (print_idx : nat) (l : Locals) : IO Locals :=
  match gen with
  | [] => mret l
  | resp_list :: gen =>
      '(response, new_history) ← first_response resp_list;
      let l := set_response l response new_history in
      print_idx ← print_delta response print_idx;
      print_stream_vllm gen print_idx l
  end.

(** The exception that ends a generator, once everything it yielded has
    been consumed. *)
Definition end_of_generator (e : option InferException) : IO unit :=
  match e with
  | Some e => io_raise e
  | None => mret tt
  end.

Section Dialogue.

Context (C : Chat) (args : DialogueArguments).
Context (support_multi_round : bool) (jsonl_path : option string).

(** [query.strip().lower()] *)
Definition command (query : string) : string :=
  str_lower C (str_strip C query).

(** The replies the loop takes as commands whatever it is waiting for:
    [exit], [quit], [clear], [reset-system] and a blank reply. *)
Definition is_command (query : string) : bool :=
  String.eqb (command query) "exit" || String.eqb (command query) "quit"
  || String.eqb (command query) "clear"
  || String.eqb (str_strip C query) ""
  || String.eqb (command query) "reset-system".

(** The inference of one round (infer.py 325-368). *)
Definition infer_round (query : string) (l : Locals) : IO Locals :=
  if String.eqb (args_infer_backend args) "vllm" then
    if args_stream args then
      request (CallInferenceVllm true query (history l) (system l));;
      let gen := inference_stream_vllm C query (history l) (system l) in
      l ← print_stream_vllm gen.1 0 l;
      end_of_generator gen.2;;
      print "";;
      mret l
    else
      request (CallInferenceVllm false query (history l) (system l));;
      resp_list ← io_lift (inference_vllm C query (history l) (system l));
      '(response, new_history) ← first_response resp_list;
      print response;;
      mret (set_response l response new_history)
  else
    let l :=
      match args_stop_words args with
      | Some (w :: ws) =>
          set_infer_kwargs l (set_kw_stop_words (infer_kwargs l) (w :: ws))
      | _ => l
      end in
    if args_stream args then
      request (CallInference true query (history l) (system l)
                 (infer_kwargs l));;
      let gen :=
        inference_stream C query (history l) (system l) (infer_kwargs l) in
      l ← print_stream gen.1 0 l;
      end_of_generator gen.2;;
      print "";;
      mret l
    else
      request (CallInference false query (history l) (system l)
                 (infer_kwargs l));;
      '(response, new_history) ←
        io_lift (inference C query (history l) (system l) (infer_kwargs l));
      print response;;
      mret (set_response l response new_history).

Definition dashes : string :=
  "--------------------------------------------------".

(** One pass through the body of [while True] (infer.py 286-378). *)
Definition llm_infer_round (l : Locals) : IO Next :=
  query ←
    match input_mode l with
    | mode_S =>
        let addi_prompt := if read_system l then "[S]" else "" in
        input ("<<<" +:+ addi_prompt +:+ " ")
    | mode_M =>
        let addi_prompt := if read_system l then "[MS]" else "[M]" in
        read_multi_line addi_prompt
    end;
  if String.eqb (command query) "exit" || String.eqb (command query) "quit"
  then mret (Break l)
  else if String.eqb (command query) "clear"
  then mret (Continue (set_infer_kwargs (set_history l []) empty_infer_kwargs))
  else if String.eqb (str_strip C query) ""
  then mret (Continue l)
  else if String.eqb (command query) "reset-system"
  then mret (Continue (set_read_system l true))
  else if read_system l
  then mret (Continue (set_read_system (set_system l (Some query)) false))
  else if match input_mode l with mode_S => true | mode_M => false end
          && String.eqb (command query) "multi-line"
  then mret (Continue (set_input_mode l mode_M))
  else if match input_mode l with mode_M => true | mode_S => false end
          && String.eqb (command query) "single-line"
  then mret (Continue (set_input_mode l mode_S))
  else
    let l :=
      if negb support_multi_round
      then set_infer_kwargs (set_history l []) empty_infer_kwargs
      else l in
    k ← read_media_file (infer_kwargs l) (args_infer_media_type args);
    let l := set_infer_kwargs l k in
    l ← infer_round query l;
    print dashes;;
    response_ ← local "response" (response l);
    let obj := mkResultObj query response_ (history l) in
    new_history_ ← local "new_history" (new_history l);
    let l := set_history l new_history_ in
    (match jsonl_path with
     | Some p => append_to_jsonl p obj
     | None => mret tt
     end);;
    mret (Continue (set_result l (result l ++ [obj]))).

(** [while True: ...]; [None] when [fuel] rounds were not enough. *)
Fixpoint llm_infer_loop (fuel : nat) (l : Locals) : IO (option Locals) :=
  match fuel with
  | O => mret None
  | S fuel =>
      next ← llm_infer_round l;
      match next with
      | Break l => mret (Some l)
      | Continue l => llm_infer_loop fuel l
      end
  end.

(** The [eval_human] branch of [llm_infer] (infer.py 267-378): every round
    reads a reply, so one round more than there are replies is enough. *)
Definition llm_infer_eval_human : IO (option (list ResultObj)) :=
  s ← get_session;
  l ← llm_infer_loop (S (length (stdin s))) initial_locals;
  mret (result <$> l).

End Dialogue.

(** The lines [append_to_jsonl] writes for [objs]: none without a path. *)
Definition jsonl_lines (jsonl_path : option string) (objs : list ResultObj)
  : list (string * ResultObj) :=
  match jsonl_path with
  | Some p => pair p <$> objs
  | None => []
  end.

(** Between [s] and [s'] nothing was read, asked or saved: at most
    something was written to the terminal. *)
Definition only_prints (s s' : Session) : Prop :=
  stdin s' = stdin s ∧ requests s' = requests s ∧ jsonl s' = jsonl s
  ∧ exists o, stdout s' = stdout s ++ o.

(** [l'] differs from [l] in [response] and [new_history] at most. *)
Definition same_dialogue (l l' : Locals) : Prop :=
  input_mode l' = input_mode l ∧ read_system l' = read_system l
  ∧ system l' = system l ∧ history l' = history l
  ∧ infer_kwargs l' = infer_kwargs l ∧ result l' = result l.

(** A console for the examples: ASCII [strip] and [lower], and inference
    procedures that answer [re: query]; the streams yield the answer in two
    steps. *)
Module Console.

Definition is_space (a : Ascii.ascii) : bool :=
  let n := Ascii.nat_of_ascii a in
  Nat.eqb n 32 || (Nat.leb 9 n && Nat.leb n 13).

Fixpoint lstrip (s : string) : string :=
  match s with
  | EmptyString => EmptyString
  | String a rest => if is_space a then lstrip rest else s
  end.

Fixpoint rstrip (s : string) : string :=
  match s with
  | EmptyString => EmptyString
  | String a rest =>
      let rest := rstrip rest in
      if is_space a && String.eqb rest "" then EmptyString else String a rest
  end.

Definition strip (s : string) : string := rstrip (lstrip s).

Definition lower_ascii (a : Ascii.ascii) : Ascii.ascii :=
  let n := Ascii.nat_of_ascii a in
  if Nat.leb 65 n && Nat.leb n 90 then Ascii.ascii_of_nat (n + 32) else a.

Fixpoint lower (s : string) : string :=
  match s with
  | EmptyString => EmptyString
  | String a rest => String (lower_ascii a) (lower rest)
  end.

Definition answer (query : string) (history : History)
  : string * History :=
  ("re: " +:+ query, history ++ [(query, "re: " +:+ query)]).

Definition chat0 : Chat := {|
  str_strip := strip;
  str_lower := lower;
  inference := fun query history _ _ => inr (answer query history);
  inference_stream := fun query history _ _ =>
    ([("re:", history ++ [(query, "re:")]); answer query history], None);
  inference_vllm := fun query history _ => inr [answer query history];
  inference_stream_vllm := fun query history _ =>
    ([[("re:", history ++ [(query, "re:")])]; [answer query history]], None);
|}.

Definition args0 : DialogueArguments :=
  mkDialogueArguments "pt" "none" false None.

(** Multimedia per round, streaming, with stop words. *)
Definition args_media : DialogueArguments :=
  mkDialogueArguments "pt" "round" true (Some ["Observation:"]).

Definition session (replies : list string) : Session :=
  mkSession replies [] [] [].

End Console.

(** * [infer.py]: saving a checkpoint and merging LoRA weights *)

(** ** Files (infer.py 25-76) *)

(** A value inside a JSON object: a string, or anything else as written. *)
Inductive JsonValue :=
| JString (s : string)
| JOther (text : string).

(** What [json.load] returns: a [dict], a [list], or a value of another
    type, given by the name of the type. *)
Inductive JsonDoc :=
| JDict (members : gmap string JsonValue)
| JList
| JAtom (type_name : string).

(** [res.pop(key, None)] *)
Definition json_pop (res : JsonDoc) (key : string) : Exception + JsonDoc :=
  match res with
  | JDict members => inr (JDict (delete key members))
  | JList => inl (TypeError "pop expected at most 1 argument, got 2")
  | JAtom type_name =>
      inl (AttributeError
             ("'" +:+ type_name +:+ "' object has no attribute 'pop'"))
  end.

(** [res[key] = value] *)
Definition json_setitem (res : JsonDoc) (key : string) (value : JsonValue)
  : Exception + JsonDoc :=
  match res with
  | JDict members => inr (JDict (<[key := value]> members))
  | JList => inl (TypeError "list indices must be integers or slices, not str")
  | JAtom type_name =>
      inl (TypeError
             ("'" +:+ type_name +:+ "' object does not support item assignment"))
  end.

(** What is done to the disk, in the order it is done. *)
Inductive FileOp :=
(** [model.save_pretrained(target_dir, safe_serialization=...)] *)
| ModelSavePretrained (model : PreTrainedModel) (target_dir : string)
                      (safe_serialization : bool)
(** [tokenizer.save_pretrained(target_dir)] *)
| TokenizerSavePretrained (tokenizer : PreTrainedTokenizerBase)
                          (target_dir : string)
(** [shutil.copy(src, dst)] *)
| ShutilCopy (src dst : string)
(** [shutil.copytree(src, dst)] *)
| ShutilCopytree (src dst : string)
(** [with open(path, 'w') as f: json.dump(res, f, indent=indent)] *)
| JsonDump (path : string) (res : JsonDoc) (indent : Z).

(** The disk, as far as the source asks and changes it: the three tests of
    [os.path], reading a JSON file, what an operation does to the disk,
    with the exception it ends in when it fails, and what a call of the
    resolution pipeline (a hub download, a [from_pretrained]) does to the
    disk. *)
Record Os (World : Type) := mkOs {
  path_isfile : World -> string -> bool;
  path_isdir : World -> string -> bool;
  path_exists : World -> string -> bool;
  json_load : World -> string -> Exception + JsonDoc;
  apply_op : FileOp -> World -> option Exception * World;
  call_effect : Event -> World -> World;
}.

Arguments path_isfile {World}.
Arguments path_isdir {World}.
Arguments path_exists {World}.
Arguments json_load {World}.
Arguments apply_op {World}.
Arguments call_effect {World}.

(** A chat template, as far as [infer.py] reads it. *)
Record Template := mkTemplate {
  template_tokenizer : PreTrainedTokenizerBase;
  default_system : option string;
  template_support_multi_round : bool;
}.

(** The fields of [InferArguments] that [prepare_model_template] and
    [merge_lora] read or write. *)
Record InferArguments := mkInferArguments {
  args_model_type : string;
  args_model_id_or_path : option string;
  args_model_revision : option string;
  args_sft_type : string;
  args_template_type : string;
  args_ckpt_dir : option string;
  args_torch_dtype : option Dtype;
  args_load_in_8bit : bool;
  args_load_in_4bit : bool;
  args_bnb_4bit_compute_dtype : option Dtype;
  args_use_flash_attn : option bool;
  args_max_model_len : option Z;
  args_max_new_tokens : option Z;
  args_temperature : PyNum;
  args_do_sample : bool;
  args_system : option string;
  args_max_length : Z;
  args_truncation_strategy : string;
  args_merge_device_map : option string;
  args_save_safetensors : bool;
}.

(** [args.system = system] *)
Definition set_args_system (a : InferArguments) (system : option string)
  : InferArguments :=
  mkInferArguments (args_model_type a) (args_model_id_or_path a)
    (args_model_revision a) (args_sft_type a) (args_template_type a)
    (args_ckpt_dir a) (args_torch_dtype a) (args_load_in_8bit a)
    (args_load_in_4bit a) (args_bnb_4bit_compute_dtype a)
    (args_use_flash_attn a) (args_max_model_len a) (args_max_new_tokens a)
    (args_temperature a) (args_do_sample a) system (args_max_length a)
    (args_truncation_strategy a) (args_merge_device_map a)
    (args_save_safetensors a).

(** [args.sft_type = sft_type; args.ckpt_dir = ckpt_dir] *)
Definition set_args_checkpoint (a : InferArguments) (sft_type : string)
    (ckpt_dir : string) : InferArguments :=
  mkInferArguments (args_model_type a) (args_model_id_or_path a)
    (args_model_revision a) sft_type (args_template_type a)
    (Some ckpt_dir) (args_torch_dtype a) (args_load_in_8bit a)
    (args_load_in_4bit a) (args_bnb_4bit_compute_dtype a)
    (args_use_flash_attn a) (args_max_model_len a) (args_max_new_tokens a)
    (args_temperature a) (args_do_sample a) (args_system a)
    (args_max_length a) (args_truncation_strategy a)
    (args_merge_device_map a) (args_save_safetensors a).

(** The process of [infer.py]: the state of the pipeline, the disk, the
    operations made on it, and the [args] object, which [merge_lora] and
    [prepare_model_template] write to. *)
Record Process (World : Type) := mkProcess {
  runtime : Runtime;
  world : World;
  file_ops : list FileOp;
  infer_args : InferArguments;
}.

Arguments mkProcess {World}.
Arguments runtime {World}.
Arguments world {World}.
Arguments file_ops {World}.
Arguments infer_args {World}.

Definition P (World : Type) (A : Type) : Type :=
  Process World -> (Exception + A) * Process World.

#[global] Instance P_ret {World} : MRet (P World) :=
  fun A (a : A) p => (inr a, p).

#[global] Instance P_bind {World} : MBind (P World) :=
  fun A B (f : A -> P World B) (c : P World A) p =>
  match c p with
  | (inl e, p') => (inl e, p')
  | (inr a, p') => f a p'
  end.

Definition throw {World A} (e : Exception) : P World A :=
  fun p => (inl e, p).

(** The outcome of a call that changes nothing. *)
Definition lift_result {World A} (r : Exception + A) : P World A :=
  fun p => (r, p).

(** What the calls a step of the pipeline made, in their order, have done
    to the disk. *)
Definition pipeline_effect {World} (OS : Os World) (calls : list Event)
    (w : World) : World :=
  foldl (fun w call => call_effect OS call w) w calls.

(** A step of the pipeline, run on the pipeline's state; the calls it
    logged are the ones that changed the disk, also when it fails. *)
Definition run_M {World A} (OS : Os World) (c : M A) : P World A := fun p =>
  let '(r, rt) := c (runtime p) in
  let calls := drop (length (log (runtime p))) (log rt) in
  (r, mkProcess rt (pipeline_effect OS calls (world p)) (file_ops p)
                (infer_args p)).

Definition get_world {World} : P World World := fun p => (inr (world p), p).

Definition get_args {World} : P World InferArguments :=
  fun p => (inr (infer_args p), p).

Definition put_args {World} (a : InferArguments) : P World unit := fun p =>
  (inr tt, mkProcess (runtime p) (world p) (file_ops p) a).

(** [assert cond, msg] *)
Definition check {World} (cond : bool) (msg : string) : P World unit :=
  if cond then mret tt else throw (AssertionError msg).

(** [os.path.split(p)] of [posixpath]: [p] cut after its last slash, the
    slashes at the end of the head dropped unless the head is slashes
    only. *)
Fixpoint cut_at_last_slash (p : string) : string * string :=
  match p with
  | EmptyString => (EmptyString, EmptyString)
  | String c rest =>
      let '(head, tail) := cut_at_last_slash rest in
      if negb (String.eqb head "") then (String c head, tail)
      else if String.eqb (String c EmptyString) "/" then ("/", rest)
      else (EmptyString, String c rest)
  end.

(** [s.rstrip('/')] *)
Fixpoint rstrip_slash (s : string) : string :=
  match s with
  | EmptyString => EmptyString
  | String c rest =>
      let rest := rstrip_slash rest in
      if String.eqb (String c EmptyString) "/" && String.eqb rest "" then EmptyString
      else String c rest
  end.

Definition os_path_split (p : string) : string * string :=
  let '(head, tail) := cut_at_last_slash p in
  if negb (String.eqb head "") && negb (String.eqb (rstrip_slash head) "")
  then (rstrip_slash head, tail)
  else (head, tail).

(** Lines 91-92 of [merge_lora]: the directory of the merged weights. *)
Definition merged_lora_path_of (args_ckpt_dir : string) : string :=
  let '(ckpt_dir, ckpt_name) := os_path_split args_ckpt_dir in
  os_path_join ckpt_dir (ckpt_name +:+ "-merged").

(** The names [save_checkpoint] looks for next to the weights. *)
Definition saved_file_names (tokenizer : PreTrainedTokenizerBase)
  : list string :=
  ["generation_config.json"; "preprocessor_config.json"]
  ++ match tok_model_type tokenizer with
     | Some model_type_ => get_additional_saved_files model_type_
     | None => []
     end.

(** What an operation of [save_checkpoint] may be: the model and the
    tokenizer saved into [target_dir]; one of the looked-for names copied
    from [ckpt_dir] or [model_cache_dir] to the same name in [target_dir];
    [configuration.json] written there without [adapter_cfg]; and, with a
    [ckpt_dir], [sft_args.json] written there with [sft_type] set to
    [full]. *)
Definition saved_by (model : option PreTrainedModel)
    (tokenizer : PreTrainedTokenizerBase)
    (model_cache_dir ckpt_dir : option string) (target_dir : string)
    (save_safetensors : bool) (op : FileOp) : Prop :=
  match op with
  | ModelSavePretrained m dir safe_serialization =>
      model = Some m ∧ dir = target_dir ∧ safe_serialization = save_safetensors
  | TokenizerSavePretrained tok dir => tok = tokenizer ∧ dir = target_dir
  | ShutilCopy src dst | ShutilCopytree src dst =>
      exists fname dir,
        fname ∈ saved_file_names tokenizer
        ∧ Some dir ∈ [ckpt_dir; model_cache_dir]
        ∧ src = os_path_join dir fname
        ∧ dst = os_path_join target_dir fname
  | JsonDump path res indent =>
      exists members,
        res = JDict members
        ∧ ((path = os_path_join target_dir "configuration.json"
            ∧ indent = 4 ∧ members !! "adapter_cfg" = None)
           ∨ (path = os_path_join target_dir "sft_args.json"
              ∧ indent = 2 ∧ is_Some ckpt_dir
              ∧ members !! "sft_type" = Some (JString "full")))
  end.

Definition is_copy (op : FileOp) : bool :=
  match op with
  | ShutilCopy _ _ | ShutilCopytree _ _ => true
  | _ => false
  end.




(** From [p] to [p'] exactly [ops] were made on the disk; the pipeline and
    [args] are as they were. *)
Definition wrote {World} (ops : list FileOp) (p p' : Process World) : Prop :=
  runtime p' = runtime p ∧ infer_args p' = infer_args p
  ∧ file_ops p' = file_ops p ++ ops.

(** Whatever the state, [c] makes only operations that satisfy [Q], at
    most [copies] of them copies, and leaves the pipeline and [args] as
    they were. *)
Definition performs {World A} (Q : FileOp -> Prop) (copies : nat)
    (c : P World A) : Prop :=
  forall p, exists ops,
    wrote ops p (c p).2 ∧ Forall Q ops
    ∧ (length (List.filter is_copy ops) <= copies)%nat.

Section Merging.

Context {World : Type} (OS : Os World).

(** A file operation: it is recorded and changes the disk, also when it
    fails. *)
Definition perform (op : FileOp) : P World unit := fun p =>
  let '(e, w) := apply_op OS op (world p) in
  (match e with Some e => inl e | None => inr tt end,
   mkProcess (runtime p) w (file_ops p ++ [op]) (infer_args p)).

(** [for model_dir in [ckpt_dir, model_cache_dir]: ...] of the copy loop
    (infer.py 43-52). *)
Fixpoint copy_from_first (fname tgt_path : string)
    (model_dirs : list (option string)) : P World unit :=
  match model_dirs with
  | [] => mret tt
  | None :: model_dirs => copy_from_first fname tgt_path model_dirs
  | Some model_dir :: model_dirs =>
      let src_path := os_path_join model_dir fname in
      w ← get_world;
      if path_isfile OS w src_path then perform (ShutilCopy src_path tgt_path)
      else if path_isdir OS w src_path
      then perform (ShutilCopytree src_path tgt_path)
      else copy_from_first fname tgt_path model_dirs
  end.

(** [for fname in fname_list: ...] (infer.py 41-52) *)
Fixpoint copy_files (target_dir : string) (model_dirs : list (option string))
    (fname_list : list string) : P World unit :=
  match fname_list with
  | [] => mret tt
  | fname :: fname_list =>
      let tgt_path := os_path_join target_dir fname in
      copy_from_first fname tgt_path model_dirs;;
      copy_files target_dir model_dirs fname_list
  end.

(** The [configuration.json] loop (infer.py 56-66). *)
Fixpoint copy_configuration (new_configuration_path : string)
    (model_dirs : list (option string)) : P World unit :=
  match model_dirs with
  | [] => mret tt
  | None :: model_dirs => copy_configuration new_configuration_path model_dirs
  | Some model_dir :: model_dirs =>
      let old_configuration_path :=
        os_path_join model_dir "configuration.json" in
      w ← get_world;
      if path_exists OS w old_configuration_path then
        res ← lift_result (json_load OS w old_configuration_path);
        res ← lift_result (json_pop res "adapter_cfg");
        perform (JsonDump new_configuration_path res 4)
      else copy_configuration new_configuration_path model_dirs
  end.

(** [save_checkpoint] (infer.py 25-76). A tokenizer whose [model_type] is
    [None] has no additional files. *)
Definition save_checkpoint (model : option PreTrainedModel)
    (tokenizer : PreTrainedTokenizerBase) (model_cache_dir : option string)
    (ckpt_dir : option string) (target_dir : string)
    (save_safetensors : bool) : P World unit :=
  (match model with
   | Some model =>
       perform (ModelSavePretrained model target_dir save_safetensors)
   | None => mret tt
   end);;
  perform (TokenizerSavePretrained tokenizer target_dir);;
  let model_type_ := tok_model_type tokenizer in
  let fname_list := ["generation_config.json"; "preprocessor_config.json"] in
  let fname_list :=
    match model_type_ with
    | Some model_type_ => fname_list ++ get_additional_saved_files model_type_
    | None => fname_list
    end in
  copy_files target_dir [ckpt_dir; model_cache_dir] fname_list;;
  let configuration_fname := "configuration.json" in
  let new_configuration_path := os_path_join target_dir configuration_fname in
  copy_configuration new_configuration_path [ckpt_dir; model_cache_dir];;
  match ckpt_dir with
  | Some ckpt_dir =>
      let sft_args_fname := "sft_args.json" in
      let old_sft_args_path := os_path_join ckpt_dir sft_args_fname in
      let new_sft_args_path := os_path_join target_dir sft_args_fname in
      w ← get_world;
      if path_exists OS w old_sft_args_path then
        res ← lift_result (json_load OS w old_sft_args_path);
        res ← lift_result (json_setitem res "sft_type" (JString "full"));
        perform (JsonDump new_sft_args_path res 2)
      else mret tt
  | None => mret tt
  end.

(** ** Preparing the model and merging (infer.py 79-219) *)

(** What [prepare_model_template] and [merge_lora] call and do not define;
    none of it touches the state of the pipeline or writes to the
    disk. *)
Record Tuners := mkTuners {
  is_torch_npu_available : bool;
  (** [BitsAndBytesConfig(load_in_8bit, load_in_4bit,
      bnb_4bit_compute_dtype=...)] *)
  BitsAndBytesConfig_new :
    bool -> bool -> option Dtype -> Exception + QuantizationConfig;
  (** [GenerationConfig(max_new_tokens=..., temperature=..., do_sample=...)] *)
  GenerationConfig_new :
    option Z -> PyNum -> bool -> Exception + GenerationConfig;
  (** [set_generation_config(model, generation_config)]; gives the model
      as the call leaves it *)
  set_generation_config :
    option PreTrainedModel -> GenerationConfig ->
    Exception + option PreTrainedModel;
  is_adapter : string -> bool;
  (** [Swift.from_pretrained(model, ckpt_dir, inference_mode=True)] *)
  Swift_from_pretrained :
    PreTrainedModel -> string -> Exception + PreTrainedModel;
  (** [model.to(model.dtype)] *)
  model_to_dtype : PreTrainedModel -> Exception + PreTrainedModel;
  (** [get_template(template_type, tokenizer, system, max_length,
      truncation_strategy, model=model)] *)
  get_template :
    string -> PreTrainedTokenizerBase -> option string -> Z -> string ->
    PreTrainedModel -> Exception + Template;
  (** [Swift.merge_and_unload(model)]; gives the model as the call leaves
      it *)
  Swift_merge_and_unload : PreTrainedModel -> Exception + PreTrainedModel;
  (** [model.model] *)
  model_model : PreTrainedModel -> Exception + PreTrainedModel;
}.

Context (E : Env) (T : Tuners) (MODEL_MAPPING : gmap string ModelInfo).

(** [quantization_config.bnb_4bit_compute_dtype = None] *)
Definition clear_bnb_4bit_compute_dtype (q : QuantizationConfig)
  : QuantizationConfig :=
  match q with
  | BitsAndBytesConfig l8 l4 _ skip => BitsAndBytesConfig l8 l4 None skip
  | GPTQConfig _ _ _ _ => q
  end.

(** The location [prepare_model_template] resolves the model from
    (infer.py 158-162). *)
Definition model_source (args : InferArguments) : option string :=
  if String.eqb (args_sft_type args) "full"
     && bool_decide (is_Some (args_ckpt_dir args))
  then args_ckpt_dir args
  else args_model_id_or_path args.

(** [prepare_model_template] (infer.py 122-219); [args] is the one of the
    process. *)
Definition prepare_model_template (device_map_ : option string)
    (verbose : bool) (automodel_class : option string)
  : P World (PreTrainedModel * Template) :=
  args ← get_args;
  let device_map_ :=
    match device_map_ with
    | Some device_map_ => device_map_
    | None => if is_torch_npu_available T then "npu:0" else "auto"
    end in
  let model_kwargs :=
    mkModelKwargs (Some device_map_)
      (if String.eqb device_map_ "auto" then Some true else None) None in
  model_kwargs ←
    (if args_load_in_8bit args || args_load_in_4bit args then
       quantization_config ←
         lift_result
           (BitsAndBytesConfig_new T (args_load_in_8bit args)
              (args_load_in_4bit args) (args_bnb_4bit_compute_dtype args));
       let quantization_config :=
         if bool_decide (args_bnb_4bit_compute_dtype args = None)
         then clear_bnb_4bit_compute_dtype quantization_config
         else quantization_config in
       mret (mkModelKwargs (device_map model_kwargs)
               (low_cpu_mem_usage model_kwargs) (Some quantization_config))
     else mret model_kwargs);
  let kwargs : gmap string PyVal :=
    match args_use_flash_attn args with
    | Some use_flash_attn => {["use_flash_attn" := VBool use_flash_attn]}
    | None => ∅
    end in
  let model_id_or_path := model_source args in
  let kwargs :=
    match automodel_class with
    | Some automodel_class =>
        <["automodel_class" := VStr automodel_class]> kwargs
    | None => kwargs
    end in
  '(model, tokenizer) ←
    run_M OS
      (get_model_tokenizer E MODEL_MAPPING (args_model_type args)
             (args_torch_dtype args) (Some model_kwargs) true
             model_id_or_path (args_model_revision args) kwargs);
  (if verbose && bool_decide (model = None)
   then throw (AttributeError "'NoneType' object has no attribute 'config'")
   else mret tt);;
  generation_config ←
    lift_result
      (GenerationConfig_new T (args_max_new_tokens args)
         (args_temperature args) (args_do_sample args));
  model ← lift_result (set_generation_config T model generation_config);
  model ←
    match model with
    | Some model => mret model
    | None =>
        throw (AttributeError
                 "'NoneType' object has no attribute 'max_model_len'")
    end;
  model ←
    lift_result
      (prepare_model_template_max_model_len model (args_max_model_len args));
  model ←
    (if is_adapter T (args_sft_type args)
        && bool_decide (is_Some (args_ckpt_dir args))
     then
       model ←
         lift_result
           (Swift_from_pretrained T model (default "" (args_ckpt_dir args)));
       if String.eqb (args_sft_type args) "adalora"
       then lift_result (model_to_dtype T model)
       else mret model
     else mret model);
  template ←
    lift_result
      (get_template T (args_template_type args) tokenizer (args_system args)
         (args_max_length args) (args_truncation_strategy args) model);
  args ← get_args;
  put_args (set_args_system args (default_system template));;
  mret (model, template).

(** Lines 99-113 of [merge_lora]: load, merge and save. *)
Definition merge_and_save (merged_lora_path : string) : P World unit :=
  args ← get_args;
  '(model, template) ←
    prepare_model_template (args_merge_device_map args) false None;
  model ← lift_result (Swift_merge_and_unload T model);
  model ← lift_result (model_model T model);
  args ← get_args;
  save_checkpoint (Some model) (template_tokenizer template)
    (model_dir model) (args_ckpt_dir args) merged_lora_path
    (args_save_safetensors args).

(** [merge_lora] (infer.py 79-119); [args] is the one of the process.
    The [device_map] parameter is not read. *)
Definition merge_lora (replace_if_exists : bool) (device_map_ : option string)
  : P World string :=
  args ← get_args;
  check (bool_decide (is_Some (args_ckpt_dir args)))
        "args.ckpt_dir is not specified.";;
  check (String.eqb (args_sft_type args) "lora")
        "Only supports sft_type == 'lora'";;
  check (negb (str_contains "int4" (args_model_type args)))
        "int4 model is not supported";;
  check (negb (str_contains "int8" (args_model_type args)))
        "int8 model is not supported";;
  check (negb (str_contains "awq" (args_model_type args)))
        "awq model is not supported";;
  let merged_lora_path :=
    merged_lora_path_of (default "" (args_ckpt_dir args)) in
  w ← get_world;
  (if path_exists OS w merged_lora_path && negb replace_if_exists
   then mret tt
   else merge_and_save merged_lora_path);;
  args ← get_args;
  put_args (set_args_checkpoint args "full" merged_lora_path);;
  mret merged_lora_path.

End Merging.


(** A workstation for the examples: the disk is the list of the paths that
    exist, all of them files; every operation succeeds and creates its
    destination; the tuners hand the model on as it is. *)
Module Workstation.

Definition os0 : Os (list string) := {|
  path_isfile := fun w path => existsb (String.eqb path) w;
  path_isdir := fun _ _ => false;
  path_exists := fun w path => existsb (String.eqb path) w;
  json_load := fun _ _ =>
    inr (JDict {["sft_type" := JString "lora";
                 "adapter_cfg" := JOther "{}"]});
  apply_op := fun op w =>
    (None,
     match op with
     | ModelSavePretrained _ dir _ | TokenizerSavePretrained _ dir => dir :: w
     | ShutilCopy _ dst | ShutilCopytree _ dst => dst :: w
     | JsonDump path _ _ => path :: w
     end);
  call_effect := fun call w =>
    match call with
    | EvHfSnapshotDownload model_id _ _ => ("/cache/hf/" +:+ model_id) :: w
    | EvSnapshotDownload model_id _ _ => ("/cache/ms/" +:+ model_id) :: w
    | _ => w
    end;
|}.

Definition tuners0 : Tuners := {|
  is_torch_npu_available := false;
  BitsAndBytesConfig_new := fun l8 l4 d =>
    inr (BitsAndBytesConfig l8 l4 (Some (default float32 d)) None);
  GenerationConfig_new := fun n t d =>
    inr (mkGenerationConfig (Some t) (Some d) n);
  set_generation_config := fun model g =>
    inr ((fun m => set_generation_config_attr m (Some g)) <$> model);
  is_adapter := fun sft_type =>
    String.eqb sft_type "lora" || String.eqb sft_type "adalora";
  Swift_from_pretrained := fun model _ => inr model;
  model_to_dtype := fun model => inr model;
  get_template := fun _ tokenizer system _ _ _ =>
    inr (mkTemplate tokenizer system true);
  Swift_merge_and_unload := fun model => inr model;
  model_model := fun model => inr model;
|}.

(** A LoRA checkpoint of [llama2-7b-chat]. *)
Definition args0 : InferArguments := {|
  args_model_type := "llama2-7b-chat";
  args_model_id_or_path := None;
  args_model_revision := None;
  args_sft_type := "lora";
  args_template_type := "llama";
  args_ckpt_dir := Some "output/llama2-7b-chat/v0/checkpoint-100";
  args_torch_dtype := None;
  args_load_in_8bit := false;
  args_load_in_4bit := false;
  args_bnb_4bit_compute_dtype := None;
  args_use_flash_attn := None;
  args_max_model_len := None;
  args_max_new_tokens := Some 2048;
  args_temperature := Finite (3 # 10);
  args_do_sample := true;
  args_system := None;
  args_max_length := -1;
  args_truncation_strategy := "delete";
  args_merge_device_map := Some "cpu";
  args_save_safetensors := true;
|}.

(** The same arguments for a quantized model type. *)
Definition args_int4 : InferArguments := {|
  args_model_type := "qwen-7b-chat-int4";
  args_model_id_or_path := None;
  args_model_revision := None;
  args_sft_type := "lora";
  args_template_type := "qwen";
  args_ckpt_dir := Some "output/qwen-7b-chat-int4/v0/checkpoint-100";
  args_torch_dtype := None;
  args_load_in_8bit := false;
  args_load_in_4bit := false;
  args_bnb_4bit_compute_dtype := None;
  args_use_flash_attn := None;
  args_max_model_len := None;
  args_max_new_tokens := Some 2048;
  args_temperature := Finite (3 # 10);
  args_do_sample := true;
  args_system := None;
  args_max_length := -1;
  args_truncation_strategy := "delete";
  args_merge_device_map := Some "cpu";
  args_save_safetensors := true;
|}.

(** The checkpoint directory holds [sft_args.json] and
    [configuration.json]. *)
Definition process0 (args : InferArguments) : Process (list string) :=
  mkProcess Fixture.rt0
    ["output/llama2-7b-chat/v0/checkpoint-100/sft_args.json";
     "output/llama2-7b-chat/v0/checkpoint-100/configuration.json"]
    [] args.

End Workstation.

(** What a completed call leaves in [response] and [new_history]: the pair
    it returned, or the last pair its stream yielded; nothing when the
    stream yielded nothing. *)
Definition outcome (C : Chat) (r : Request) : option (string * History) :=
  match r with
  | CallInference false query history system infer_kwargs =>
      match inference C query history system infer_kwargs with
      | inr answer => Some answer
      | inl _ => None
      end
  | CallInference true query history system infer_kwargs =>
      last (inference_stream C query history system infer_kwargs).1
  | CallInferenceVllm false query history system =>
      match inference_vllm C query history system with
      | inr (answer :: _) => Some answer
      | _ => None
      end
  | CallInferenceVllm true query history system =>
      match last (inference_stream_vllm C query history system).1 with
      | Some (answer :: _) => Some answer
      | _ => None
      end
  end.

(** The calls [reqs], made one after the other starting from the history
    [h], each carry the history the call before them produced. *)
Fixpoint history_chain (C : Chat) (h : History) (reqs : list Request)
  : Prop :=
  match reqs with
  | [] => True
  | r :: reqs =>
      req_history r = h
      ∧ history_chain C
          (match outcome C r with Some (_, h') => h' | None => h end) reqs
  end.

(** * Properties *)

(** ** Registration *)

Section Registration.

Implicit Types (MODEL_MAPPING : gmap string ModelInfo) (r : Registration).
Implicit Types (f g : GetModelTokenizerFunction).

Lemma register_model_rejects MODEL_MAPPING r (get_function : option GetModelTokenizerFunction) :
  is_Some (MODEL_MAPPING !! reg_model_type r) ->
  reg_exists_ok r = false ->
  register_model r get_function MODEL_MAPPING =
    inl (ValueError ("The `" +:+ reg_model_type r +:+
                     "` has already been registered in the MODEL_MAPPING.")).
Proof.
  intros Hin Hok. unfold register_model. rewrite Hok.
  rewrite bool_decide_eq_true_2 by assumption. reflexivity.
Qed.

Lemma register_model_inserts MODEL_MAPPING r g :
  reg_exists_ok r = true ∨ MODEL_MAPPING !! reg_model_type r = None ->
  register_model r (Some g) MODEL_MAPPING =
    inr (Registered (<[reg_model_type r := model_info_of r g]> MODEL_MAPPING)).
Proof.
  intros [Hok | Hnone]; unfold register_model.
  - rewrite Hok. reflexivity.
  - rewrite bool_decide_eq_false_2, andb_false_r; [reflexivity |].
    rewrite Hnone. intros [x Hx]. discriminate.
Qed.

(** C8. A key already in the catalog cannot be registered again without
    [exists_ok]: the call raises [ValueError], whether the loader is passed
    directly or the decorator form is used. With [exists_ok=True] the call
    goes through, and looking the key up afterwards yields the entry of the
    second registration, whose ['get_function'] is the second loader (bound
    with its [function_kwargs] when it has any); other keys are untouched.
    In decorator form the entry is replaced when the decorator is applied,
    and the decorated loader is handed back unchanged. *)
Theorem C8_register_model_exists_ok MODEL_MAPPING r g :
  is_Some (MODEL_MAPPING !! reg_model_type r) ->
  (reg_exists_ok r = false ->
     (exists msg, register_model r (Some g) MODEL_MAPPING = inl (ValueError msg))
     ∧ (exists msg, register_model r None MODEL_MAPPING = inl (ValueError msg)))
  ∧ (reg_exists_ok r = true ->
     (exists mm' info,
        register_model r (Some g) MODEL_MAPPING = inr (Registered mm')
        ∧ mm' !! reg_model_type r = Some info
        ∧ info = model_info_of r g
        ∧ info_get_function info =
            bind_function_kwargs (default ∅ (reg_function_kwargs r)) g
        ∧ (default ∅ (reg_function_kwargs r) = ∅ -> info_get_function info = g)
        ∧ (forall key, key <> reg_model_type r ->
             mm' !! key = MODEL_MAPPING !! key))
     ∧ (exists decorate,
        register_model r None MODEL_MAPPING = inr (Decorator MODEL_MAPPING decorate)
        ∧ forall mm,
            (decorate g mm).1 !! reg_model_type r = Some (model_info_of r g)
            ∧ (decorate g mm).2 = g)).
Proof.
  intros Hin. split; intros Hok.
  - split; eexists; apply register_model_rejects; assumption.
  - split.
    + exists (<[reg_model_type r := model_info_of r g]> MODEL_MAPPING),
             (model_info_of r g).
      split; [apply register_model_inserts; left; assumption |].
      split; [apply lookup_insert_eq |].
      split; [reflexivity |].
      split; [reflexivity |].
      split.
      * intros Hempty. simpl. rewrite Hempty. reflexivity.
      * intros key Hne. apply lookup_insert_ne. congruence.
    + exists (_register_model r). split.
      * unfold register_model. rewrite Hok. reflexivity.
      * intros mm. split; [apply lookup_insert_eq | reflexivity].
Qed.

End Registration.

Lemma C8_register_model_exists_ok_witness :
  (exists msg,
     register_model (Fixture.atom_7b_chat_again false)
       (Some Fixture.loader_with_tokenizer) Fixture.catalog0
     = inl (ValueError msg))
  ∧ (exists mm' info,
     register_model (Fixture.atom_7b_chat_again true)
       (Some Fixture.loader_with_tokenizer) Fixture.catalog0
     = inr (Registered mm')
     ∧ mm' !! "atom-7b-chat" = Some info
     ∧ info_get_function info = Fixture.loader_with_tokenizer).
Proof.
  assert (Hin : is_Some (Fixture.catalog0 !! "atom-7b-chat"))
    by (vm_compute; eexists; reflexivity).
  split.
  - exact (proj1 (proj1 (C8_register_model_exists_ok Fixture.catalog0
             (Fixture.atom_7b_chat_again false)
             Fixture.loader_with_tokenizer Hin) eq_refl)).
  - destruct (proj1 (proj2 (C8_register_model_exists_ok Fixture.catalog0
             (Fixture.atom_7b_chat_again true)
             Fixture.loader_with_tokenizer Hin) eq_refl))
      as (mm' & info & H1 & H2 & H3 & H4 & H5 & H6).
    exists mm', info. split; [exact H1 |]. split; [exact H2 |].
    apply H5. reflexivity.
Defined.

(** ** Maximum context length *)

Section MaxModelLen.

Implicit Types (model : PreTrainedModel) (n limit : Z).

(** C5. When the loaded model carries its own limit and the caller passes
    [max_model_len]: a value above the limit raises [ValueError]; a value at
    or below it is accepted, and the model's [max_model_len] becomes the
    caller's value, every other attribute being left as it was. *)
Theorem C5_max_model_len_within_limit model n limit :
  max_model_len model = Some limit ->
  (limit < n ->
     exists msg,
       prepare_model_template_max_model_len model (Some n) = inl (ValueError msg))
  ∧ (n <= limit ->
     exists model',
       prepare_model_template_max_model_len model (Some n) = inr model'
       ∧ max_model_len model' = Some n
       ∧ model' = set_max_model_len model (Some n)).
Proof.
  intros Hlim. unfold prepare_model_template_max_model_len. rewrite Hlim.
  split; intros Hn.
  - destruct (Z.leb_spec n limit) as [Hle | Hgt]; [lia |]. eexists. reflexivity.
  - destruct (Z.leb_spec n limit) as [Hle | Hgt]; [| lia].
    eexists. split; [reflexivity |]. split; reflexivity.
Qed.

Lemma C5_max_model_len_within_limit_witness :
  (exists msg,
     prepare_model_template_max_model_len
       (set_max_model_len (Fixture.model0 Fixture.config0 None empty_model_kwargs)
                          (Some 4096))
       (Some 8192) = inl (ValueError msg))
  ∧ (exists model',
     prepare_model_template_max_model_len
       (set_max_model_len (Fixture.model0 Fixture.config0 None empty_model_kwargs)
                          (Some 4096))
       (Some 4096) = inr model'
     ∧ max_model_len model' = Some 4096).
Proof.
  split.
  - apply (proj1 (C5_max_model_len_within_limit
             (set_max_model_len (Fixture.model0 Fixture.config0 None empty_model_kwargs)
                                (Some 4096)) 8192 4096 eq_refl)).
    lia.
  - destruct (proj2 (C5_max_model_len_within_limit
             (set_max_model_len (Fixture.model0 Fixture.config0 None empty_model_kwargs)
                                (Some 4096)) 4096 4096 eq_refl))
      as (model' & H1 & H2 & _); [lia |].
    exists model'. split; assumption.
Defined.

(** C10. When the loaded model carries no limit of its own, whatever the
    caller passes is stored as [max_model_len] without any comparison, and
    the only way this block raises is a model-side limit strictly below the
    caller's value. *)
Theorem C10_max_model_len_without_limit model :
  max_model_len model = None ->
  (forall n,
     prepare_model_template_max_model_len model (Some n)
       = inr (set_max_model_len model (Some n))
     ∧ max_model_len (set_max_model_len model (Some n)) = Some n)
  ∧ (forall model0 args_max_model_len e,
     prepare_model_template_max_model_len model0 args_max_model_len = inl e ->
     exists limit n,
       max_model_len model0 = Some limit ∧ args_max_model_len = Some n
       ∧ limit < n).
Proof.
  intros Hnone. split.
  - intros n. unfold prepare_model_template_max_model_len. rewrite Hnone.
    split; reflexivity.
  - intros model0 a e. unfold prepare_model_template_max_model_len.
    destruct (max_model_len model0) as [limit |]; [| discriminate].
    destruct a as [n |]; [| discriminate].
    destruct (Z.leb_spec n limit) as [Hle | Hgt]; [discriminate |].
    intros _. exists limit, n. repeat split; assumption.
Qed.

Lemma C10_max_model_len_without_limit_witness :
  prepare_model_template_max_model_len
    (Fixture.model0 Fixture.config0 None empty_model_kwargs) (Some 1000000)
  = inr (set_max_model_len
           (Fixture.model0 Fixture.config0 None empty_model_kwargs)
           (Some 1000000)).
Proof.
  apply (proj1 (C10_max_model_len_without_limit
                  (Fixture.model0 Fixture.config0 None empty_model_kwargs)
                  eq_refl)).
Defined.

End MaxModelLen.

(** ** Running the pipeline *)

Ltac unfold_M :=
  unfold py_assert, getitem, raise, tell, lift, get_runtime, put_runtime,
    mbind, mret, M_bind, M_ret in *.

Lemma emit_all_nil rt : emit_all [] rt = rt.
Proof.
  destruct rt. unfold emit_all, set_log. simpl. rewrite app_nil_r.
  reflexivity.
Qed.

Lemma emit_all_emit e es rt : emit_all es (emit e rt) = emit_all (e :: es) rt.
Proof.
  unfold emit_all, emit, set_log. simpl. rewrite <- app_assoc. reflexivity.
Qed.

Lemma loads_emit_all es rt :
  loads (emit_all es rt) = loads rt ++ List.filter is_load es.
Proof. unfold loads, emit_all, set_log. simpl. apply List.filter_app. Qed.

Lemma loads_emit e rt :
  loads (emit e rt) = loads rt ++ List.filter is_load [e].
Proof. unfold loads, emit, set_log. simpl. apply List.filter_app. Qed.

Lemma filter_is_load_requires (rs : list string) :
  List.filter is_load (EvRequireVersion <$> rs) = [].
Proof. induction rs as [| r rs IH]; [reflexivity | exact IH]. Qed.

(** The requirement loop stops at the first unmet requirement, having
    consulted the checker for it and for everything before it. *)
Lemma check_requires_run E requires rt :
  check_requires E requires rt =
    (match first_unmet E requires with
     | Some r => inl (RequireVersionError r)
     | None => inr tt
     end,
     emit_all (EvRequireVersion <$> requires_checked E requires) rt).
Proof.
  revert rt. induction requires as [| r rest IH]; intros rt.
  - simpl. rewrite emit_all_nil. reflexivity.
  - simpl. unfold require_version. unfold_M.
    unfold first_unmet. simpl.
    destruct (requirement_met E r) eqn:Hmet; simpl.
    + rewrite IH. rewrite emit_all_emit. reflexivity.
    + rewrite <- emit_all_emit, emit_all_nil. reflexivity.
Qed.

(** Materialization only ever talks to the hub: it constructs nothing and
    patches nothing. *)
Lemma safe_snapshot_download_loads E MODEL_MAPPING key id rev kw rt :
  loads (safe_snapshot_download E MODEL_MAPPING key id rev kw rt).2 = loads rt.
Proof.
  unfold safe_snapshot_download, as_optional_str. unfold_M.
  repeat (case_match; simplify_eq; simpl in *; try reflexivity;
          rewrite ?loads_emit, ?app_nil_r; try reflexivity).
Qed.

Section Resolution.

Context (E : Env) (MODEL_MAPPING : gmap string ModelInfo).
Implicit Types (key : string) (info : ModelInfo) (rt : Runtime).
Implicit Types (kw : gmap string PyVal) (mk : option ModelKwargs).

Lemma get_model_tokenizer_download_failed key dt mk lm id rev kw rt e rt1 :
  safe_snapshot_download E MODEL_MAPPING key id rev (model_dir_kwarg kw) rt
    = (inl e, rt1) ->
  get_model_tokenizer E MODEL_MAPPING key dt mk lm id rev kw rt = (inl e, rt1).
Proof.
  intros Hdl. unfold get_model_tokenizer, model_dir_kwarg in *. unfold_M.
  rewrite Hdl. reflexivity.
Qed.

(** What [get_model_tokenizer] does once the checkpoint directory is there. *)
Lemma get_model_tokenizer_run key info dt mk lm id rev kw rt dir rt1 :
  MODEL_MAPPING !! key = Some info ->
  safe_snapshot_download E MODEL_MAPPING key id rev (model_dir_kwarg kw) rt
    = (inr dir, rt1) ->
  get_model_tokenizer E MODEL_MAPPING key dt mk lm id rev kw rt =
    match first_unmet E (info_requires info) with
    | Some r => (inl (RequireVersionError r), after_requires E info rt1)
    | None =>
        match determine_torch_dtype E info dir dt (default_model_kwargs E mk)
                (after_requires E info rt1) with
        | (inl e, rt3) => (inl e, rt3)
        | (inr (dt', mk'), rt3) =>
            invoke_get_function E info key dir dt' mk' lm
              (delete "model_dir" kw) rt3
        end
    end.
Proof.
  intros Hin Hdl. unfold get_model_tokenizer, model_dir_kwarg in *.
  unfold mbind, M_bind at 1. rewrite Hdl.
  unfold getitem. rewrite Hin.
  unfold mbind, mret, M_bind, M_ret. rewrite check_requires_run.
  unfold after_requires.
  destruct (first_unmet E (info_requires info)); [reflexivity |].
  destruct (determine_torch_dtype _ _ _ _ _ _) as [[e | [dt' mk']] rt3];
    reflexivity.
Qed.

Lemma loads_after_requires info rt :
  loads (after_requires E info rt) = loads rt.
Proof.
  unfold after_requires. rewrite loads_emit_all, filter_is_load_requires.
  apply app_nil_r.
Qed.

(** C1 (as amended). Requirements are verified after the checkpoint
    directory has been materialized and before the loader is called: when
    materialization has gone through and some requirement of the entry is
    unmet, the call raises the checker's error naming the first unmet
    requirement; the process is then in the state materialization left it in
    (any hub download already made) plus the checker calls, and no loader,
    config, tokenizer or model construction has taken place. *)
Theorem C1_requirements_checked_after_materialization
    key info dt mk lm id rev kw rt dir rt1 r :
  MODEL_MAPPING !! key = Some info ->
  safe_snapshot_download E MODEL_MAPPING key id rev (model_dir_kwarg kw) rt
    = (inr dir, rt1) ->
  first_unmet E (info_requires info) = Some r ->
  get_model_tokenizer E MODEL_MAPPING key dt mk lm id rev kw rt
    = (inl (RequireVersionError r), after_requires E info rt1)
  ∧ log (after_requires E info rt1)
      = log rt1 ++ (EvRequireVersion <$> requires_checked E (info_requires info))
  ∧ downloads (after_requires E info rt1) = downloads rt1
  ∧ loads (after_requires E info rt1) = loads rt.
Proof.
  intros Hin Hdl Hunmet.
  rewrite (get_model_tokenizer_run _ _ _ _ _ _ _ _ _ _ _ Hin Hdl), Hunmet.
  split; [reflexivity |]. split; [reflexivity |]. split.
  - unfold downloads, after_requires, emit_all, set_log. simpl.
    rewrite List.filter_app.
    assert (Hnone : forall rs, List.filter is_download (EvRequireVersion <$> rs) = []).
    { induction rs as [| x rs IH]; [reflexivity | exact IH]. }
    rewrite Hnone. apply app_nil_r.
  - rewrite loads_after_requires.
    pose proof (safe_snapshot_download_loads E MODEL_MAPPING key id rev
                  (model_dir_kwarg kw) rt) as Hl.
    rewrite Hdl in Hl. exact Hl.
Qed.

End Resolution.

Lemma C1_requirements_checked_after_materialization_witness :
  get_model_tokenizer Fixture.env0 Fixture.catalog0 "yi-6b-chat-int8" None
    None true None None ∅ Fixture.rt0
  = (inl (RequireVersionError "auto_gptq"),
     emit_all [EvSnapshotDownload "01ai/Yi-6B-Chat-8bits" "master" None;
               EvRequireVersion "auto_gptq"] Fixture.rt0).
Proof.
  apply (proj1 (C1_requirements_checked_after_materialization
    Fixture.env0 Fixture.catalog0 "yi-6b-chat-int8"
    (model_info_of Fixture.yi_6b_chat_int8
       (get_model_tokenizer_with_flash_attn Fixture.env0))
    None None true None None ∅ Fixture.rt0
    "/cache/ms/01ai/Yi-6B-Chat-8bits"
    (emit (EvSnapshotDownload "01ai/Yi-6B-Chat-8bits" "master" None)
          Fixture.rt0)
    "auto_gptq"
    ltac:(reflexivity) ltac:(reflexivity) ltac:(reflexivity))).
Defined.

(** C1 (as stated) fails: resolving [yi-6b-chat-int8], whose requirement
    [auto_gptq] is unmet and whose checkpoint is not on disk, makes the hub
    download first and raises the requirement error afterwards. *)
Lemma C1_download_precedes_requirement_check :
  ~ requirements_checked_before_download Fixture.env0 Fixture.catalog0
      "yi-6b-chat-int8" None None true None None ∅ Fixture.rt0.
Proof.
  intros Hclaim.
  destruct (Hclaim
    (model_info_of Fixture.yi_6b_chat_int8
       (get_model_tokenizer_with_flash_attn Fixture.env0))
    "auto_gptq" ltac:(reflexivity) ltac:(reflexivity)) as [_ Hno].
  vm_compute in Hno. discriminate Hno.
Qed.

Section Precision.

Context (E : Env) (MODEL_MAPPING : gmap string ModelInfo).
Implicit Types (key : string) (info : ModelInfo) (rt : Runtime).
Implicit Types (kw : gmap string PyVal) (mk : option ModelKwargs).

Lemma determine_torch_dtype_declared info dir mkw rt d :
  info_torch_dtype info = Some d ->
  determine_torch_dtype E info dir None mkw rt = (inr (Some d, mkw), rt)
  ∧ determine_torch_dtype E info dir (Some d) mkw rt = (inr (Some d, mkw), rt)
  ∧ forall d', d' <> d ->
      determine_torch_dtype E info dir (Some d') mkw rt
        = (inl (AssertionError ("please use `" +:+ dtype_repr d +:+ "`")), rt).
Proof.
  intros Hd. unfold determine_torch_dtype. rewrite Hd. unfold_M.
  split; [reflexivity |]. split.
  - rewrite bool_decide_eq_true_2 by reflexivity. reflexivity.
  - intros d' Hne. rewrite bool_decide_eq_false_2 by assumption. reflexivity.
Qed.

(** C2. On an entry that declares a dtype, a different requested precision
    never gets as far as the loader: the call raises, and neither the loader
    nor any config, tokenizer or model construction has run. Once the
    checkpoint directory is there and the requirements are met, what is
    raised is the assertion error that names the declared dtype. With no
    requested precision the loader is called with the declared dtype, exactly
    as if the caller had asked for it. *)
Theorem C2_declared_dtype_enforced key info d mk lm id rev kw rt :
  MODEL_MAPPING !! key = Some info ->
  info_torch_dtype info = Some d ->
  (forall d', d' <> d ->
     let out := get_model_tokenizer E MODEL_MAPPING key (Some d') mk lm id rev
                  kw rt in
     (exists e, out.1 = inl e)
     ∧ loads out.2 = loads rt
     ∧ forall dir rt1,
         safe_snapshot_download E MODEL_MAPPING key id rev (model_dir_kwarg kw) rt
           = (inr dir, rt1) ->
         first_unmet E (info_requires info) = None ->
         out = (inl (AssertionError ("please use `" +:+ dtype_repr d +:+ "`")),
                after_requires E info rt1))
  ∧ (forall dir rt1,
       safe_snapshot_download E MODEL_MAPPING key id rev (model_dir_kwarg kw) rt
         = (inr dir, rt1) ->
       first_unmet E (info_requires info) = None ->
       get_model_tokenizer E MODEL_MAPPING key None mk lm id rev kw rt
         = invoke_get_function E info key dir (Some d)
             (default_model_kwargs E mk) lm (delete "model_dir" kw)
             (after_requires E info rt1))
  ∧ get_model_tokenizer E MODEL_MAPPING key None mk lm id rev kw rt
      = get_model_tokenizer E MODEL_MAPPING key (Some d) mk lm id rev kw rt.
Proof.
  intros Hin Hd.
  pose proof (safe_snapshot_download_loads E MODEL_MAPPING key id rev
                (model_dir_kwarg kw) rt) as Hloads.
  destruct (safe_snapshot_download E MODEL_MAPPING key id rev
              (model_dir_kwarg kw) rt) as [[e | dir] rt1] eqn:Hdl.
  - (* materialization failed *)
    split; [| split].
    + intros d' Hne. simpl.
      rewrite (get_model_tokenizer_download_failed _ _ _ _ _ _ _ _ _ _ _ _ Hdl).
      split; [eexists; reflexivity |]. split; [exact Hloads |].
      intros dir rt1' Heq. discriminate Heq.
    + intros dir rt1' Heq. discriminate Heq.
    + rewrite !(get_model_tokenizer_download_failed _ _ _ _ _ _ _ _ _ _ _ _ Hdl).
      reflexivity.
  - pose proof (fun dt =>
      get_model_tokenizer_run E MODEL_MAPPING key info dt mk lm id rev kw rt
        dir rt1 Hin Hdl) as Hrun.
    destruct (determine_torch_dtype_declared info dir
                (default_model_kwargs E mk) (after_requires E info rt1) d Hd)
      as (Hnone & Hsame & Hdiff).
    split; [| split].
    + intros d' Hne. simpl. rewrite Hrun.
      destruct (first_unmet E (info_requires info)) as [r |] eqn:Hunmet.
      * split; [eexists; reflexivity |].
        split; [simpl; rewrite loads_after_requires; exact Hloads |].
        intros dir' rt1' _ Habs. discriminate Habs.
      * rewrite (Hdiff d' Hne).
        split; [eexists; reflexivity |].
        split; [simpl; rewrite loads_after_requires; exact Hloads |].
        intros dir' rt1' Heq _. injection Heq as <- <-. reflexivity.
    + intros dir' rt1' Heq Hmet. injection Heq as <- <-.
      rewrite Hrun, Hmet, Hnone. reflexivity.
    + rewrite !Hrun, Hnone, Hsame. reflexivity.
Qed.

End Precision.

Lemma C2_declared_dtype_enforced_witness :
  get_model_tokenizer Fixture.env0 Fixture.catalog0 "wizardlm2-7b-awq"
    (Some bfloat16) None true None None ∅ Fixture.rt0
  = (inl (AssertionError "please use `torch.float16`"),
     emit_all [EvSnapshotDownload "AI-ModelScope/WizardLM-2-7B-AWQ" "master" None;
               EvRequireVersion "transformers>=4.34"] Fixture.rt0).
Proof.
  apply (proj2 (proj2 (proj1 (C2_declared_dtype_enforced
    Fixture.env0 Fixture.catalog0 "wizardlm2-7b-awq"
    (model_info_of Fixture.wizardlm2_7b_awq
       (get_model_tokenizer_with_flash_attn Fixture.env0))
    float16 None true None None ∅ Fixture.rt0
    ltac:(reflexivity) ltac:(reflexivity)) bfloat16 ltac:(discriminate)))
    "/cache/ms/AI-ModelScope/WizardLM-2-7B-AWQ"
    (emit (EvSnapshotDownload "AI-ModelScope/WizardLM-2-7B-AWQ" "master" None)
          Fixture.rt0)
    ltac:(reflexivity) ltac:(reflexivity)).
Defined.

Section DefaultPrecision.

Context (E : Env) (MODEL_MAPPING : gmap string ModelInfo).
Implicit Types (key : string) (info : ModelInfo) (rt : Runtime).
Implicit Types (kw : gmap string PyVal) (mk : option ModelKwargs).

Lemma downgrade_decide (t : option Dtype) :
  (if decide (t = Some float32) then Some float16 else t) = downgrade t.
Proof. destruct t as [[] |]; reflexivity. Qed.

(** [get_torch_dtype] returns the declared precision of the checkpoint,
    with 32-bit float replaced by half precision. *)
Lemma get_torch_dtype_run dir rt entry t :
  get_config_dict E dir = inr entry ->
  declared_precision entry = Some t ->
  get_torch_dtype E dir rt = (inr (downgrade t), emit (EvGetConfigDict dir) rt).
Proof.
  intros Hcfg Hdecl. unfold get_torch_dtype. unfold_M. rewrite Hcfg.
  destruct entry as [[s | d] |]; simpl in Hdecl.
  - destruct (torch_getattr s) as [d |]; [| discriminate].
    injection Hdecl as <-. rewrite downgrade_decide. reflexivity.
  - injection Hdecl as <-. rewrite downgrade_decide. reflexivity.
  - injection Hdecl as <-. reflexivity.
Qed.

Lemma downgrade_other (t : option Dtype) :
  t <> Some float32 -> downgrade t = t.
Proof. destruct t as [[] |]; intros H; try reflexivity. congruence. Qed.

(** C3. On an entry without a declared dtype, once the checkpoint directory
    is there and the requirements are met: with no requested precision the
    loader is called with the precision read from the checkpoint's config,
    where a declared 32-bit float has become half precision and any other
    declared precision is passed on as it is; a requested precision is passed
    to the loader as given, without the config being read. *)
Theorem C3_default_precision_from_config
    key info mk lm id rev kw rt dir rt1 :
  MODEL_MAPPING !! key = Some info ->
  info_torch_dtype info = None ->
  safe_snapshot_download E MODEL_MAPPING key id rev (model_dir_kwarg kw) rt
    = (inr dir, rt1) ->
  first_unmet E (info_requires info) = None ->
  (forall entry t,
     get_config_dict E dir = inr entry ->
     declared_precision entry = Some t ->
     get_model_tokenizer E MODEL_MAPPING key None mk lm id rev kw rt
       = invoke_get_function E info key dir (downgrade t)
           (set_bnb_4bit_compute_dtype (default_model_kwargs E mk) (downgrade t))
           lm (delete "model_dir" kw)
           (emit (EvGetConfigDict dir) (after_requires E info rt1)))
  ∧ downgrade (Some float32) = Some float16
  ∧ (forall t, t <> Some float32 -> downgrade t = t)
  ∧ (forall d,
     get_model_tokenizer E MODEL_MAPPING key (Some d) mk lm id rev kw rt
       = invoke_get_function E info key dir (Some d)
           (default_model_kwargs E mk) lm (delete "model_dir" kw)
           (after_requires E info rt1)).
Proof.
  intros Hin Hnone Hdl Hmet.
  pose proof (fun dt =>
    get_model_tokenizer_run E MODEL_MAPPING key info dt mk lm id rev kw rt
      dir rt1 Hin Hdl) as Hrun.
  split; [| split; [reflexivity | split; [exact downgrade_other |]]].
  - intros entry t Hcfg Hdecl. rewrite Hrun, Hmet.
    unfold determine_torch_dtype. rewrite Hnone.
    unfold mbind, M_bind at 1.
    rewrite (get_torch_dtype_run _ _ _ _ Hcfg Hdecl). reflexivity.
  - intros d. rewrite Hrun, Hmet.
    unfold determine_torch_dtype. rewrite Hnone. reflexivity.
Qed.

End DefaultPrecision.

Lemma C3_default_precision_from_config_witness :
  log (get_model_tokenizer Fixture.env0 Fixture.catalog0 "llama2-7b-chat" None
         None false None None ∅ Fixture.rt0).2
  = [EvSnapshotDownload "modelscope/Llama-2-7b-chat-ms" "master"
       (Some [".+\.bin$"]);
     EvGetConfigDict "/cache/ms/modelscope/Llama-2-7b-chat-ms";
     EvGetFunction "/cache/ms/modelscope/Llama-2-7b-chat-ms" (Some float16) false;
     EvConfigFromPretrained "/cache/ms/modelscope/Llama-2-7b-chat-ms";
     EvTokenizerFromPretrained "/cache/ms/modelscope/Llama-2-7b-chat-ms"].
Proof.
  rewrite (proj1 (C3_default_precision_from_config
    Fixture.env0 Fixture.catalog0 "llama2-7b-chat"
    (model_info_of Fixture.llama2_7b_chat
       (get_model_tokenizer_llama2 Fixture.env0))
    None false None None ∅ Fixture.rt0
    "/cache/ms/modelscope/Llama-2-7b-chat-ms"
    (emit (EvSnapshotDownload "modelscope/Llama-2-7b-chat-ms" "master"
             (Some [".+\.bin$"])) Fixture.rt0)
    ltac:(reflexivity) ltac:(reflexivity) ltac:(reflexivity)
    ltac:(reflexivity))
    (Some (DtypeName "float32")) (Some float32)
    ltac:(reflexivity) ltac:(reflexivity)).
  reflexivity.
Defined.

Section PostLoad.

Context (E : Env).
Implicit Types (key dir : string) (rt : Runtime).
Implicit Types (tok : PreTrainedTokenizerBase).

(** The checkpoint shim only rebinds library attributes: it cannot raise and
    logs nothing. *)
Lemma fix_gradient_checkpointing_warning_ok rt :
  exists rt', fix_gradient_checkpointing_warning E rt = (inr tt, rt')
              ∧ log rt' = log rt.
Proof.
  unfold fix_gradient_checkpointing_warning. unfold_M.
  repeat case_match; simplify_eq; eexists; split; reflexivity.
Qed.

(** The generation config a loaded model ends up with before the sampling
    fix: its own, or the one read from [generation_config.json] when it has
    none and the file exists. *)
Lemma reconcile_generation_config_inv (m m' : PreTrainedModel) dir rt rt' :
  reconcile_generation_config E m dir rt = (inr m', rt') ->
  rt' = rt
  ∧ max_model_len m' = max_model_len m
  ∧ exists g0,
      fix_do_sample g0 = inr (generation_config m')
      ∧ (g0 = generation_config m
         ∨ (generation_config m = None
            ∧ os_path_isfile E (os_path_join dir "generation_config.json") = true
            ∧ exists g, GenerationConfig_from_pretrained E dir = inr g
                        ∧ g0 = Some g)).
Proof.
  unfold reconcile_generation_config. unfold_M.
  destruct (os_path_isfile E _) eqn:Hfile; simpl.
  - destruct (generation_config m) as [g |] eqn:Hg; simpl.
    + rewrite Hg.
      destruct (fix_do_sample (Some g)) as [e | g'] eqn:Hfix; [discriminate |].
      intros Heq. injection Heq as <- <-. split; [reflexivity |].
      split; [reflexivity |]. exists (Some g).
      split; [exact Hfix | left; reflexivity].
    + destruct (GenerationConfig_from_pretrained E dir) as [e | g] eqn:Hload;
        [discriminate |].
      cbn [generation_config set_generation_config_attr].
      destruct (fix_do_sample (Some g)) as [e | g'] eqn:Hfix; [discriminate |].
      intros Heq. injection Heq as <- <-. split; [reflexivity |].
      split; [reflexivity |]. exists (Some g).
      split; [exact Hfix |]. right. split; [reflexivity |].
      split; [reflexivity |]. exists g. split; reflexivity.
  - destruct (fix_do_sample (generation_config m)) as [e | g'] eqn:Hfix;
      [discriminate |].
    intros Heq. injection Heq as <- <-. split; [reflexivity |].
    split; [reflexivity |]. exists (generation_config m).
    split; [exact Hfix | left; reflexivity].
Qed.


Lemma post_load_fixups_inv key dir (m0 model : option PreTrainedModel)
    t0 tok rt rt' :
  post_load_fixups E key dir m0 t0 rt = (inr (model, tok), rt') ->
  eos_token t0 <> None
  ∧ eos_token tok = eos_token t0
  ∧ pad_token tok = match pad_token t0 with
                    | Some p => Some p
                    | None => eos_token t0
                    end
  ∧ tok_model_type tok = Some key
  ∧ tok_model_dir tok = Some dir
  ∧ match m0, model with
    | None, None => True
    | Some m, Some m' =>
        max_model_len m' = get_max_model_len E (config m)
        ∧ exists g0,
            fix_do_sample g0 = inr (generation_config m')
            ∧ (g0 = generation_config m
               ∨ (generation_config m = None
                  ∧ os_path_isfile E (os_path_join dir "generation_config.json") = true
                  ∧ exists g, GenerationConfig_from_pretrained E dir = inr g
                              ∧ g0 = Some g))
    | _, _ => False
    end.
Proof.
  unfold post_load_fixups.
  destruct (fix_gradient_checkpointing_warning_ok rt) as (rt1 & Hfix & _).
  unfold mbind, M_bind at 1. rewrite Hfix.
  unfold py_assert. simpl.
  destruct (eos_token t0) as [eos |] eqn:Heos; simpl; [| unfold raise, mbind, M_bind; discriminate].
  unfold mbind, mret, M_bind, M_ret. simpl.
  destruct m0 as [m |].
  - destruct (reconcile_generation_config E _ dir rt1) as [[e | m'] rt2] eqn:Hrec;
      [discriminate |].
    intros Heq. injection Heq as <- <- <-.
    apply reconcile_generation_config_inv in Hrec as (_ & Hlen & g0 & Hg & Hsrc).
    split; [discriminate |].
    split; [destruct (pad_token t0); simpl; rewrite ?Heos; reflexivity |].
    split; [destruct (pad_token t0); simpl; rewrite ?Heos; reflexivity |].
    split; [destruct (pad_token t0); reflexivity |].
    split; [destruct (pad_token t0); reflexivity |].
    split.
    + rewrite Hlen. unfold fix_transformers_upgrade. case_match; reflexivity.
    + exists g0. split; [exact Hg |].
      unfold fix_transformers_upgrade in Hsrc.
      destruct (version_ge _ _ && _); exact Hsrc.
  - intros Heq. injection Heq as <- <- <-.
    split; [discriminate |].
    split; [destruct (pad_token t0); simpl; rewrite ?Heos; reflexivity |].
    split; [destruct (pad_token t0); simpl; rewrite ?Heos; reflexivity |].
    split; [destruct (pad_token t0); reflexivity |].
    split; [destruct (pad_token t0); reflexivity |].
    exact I.
Qed.

(** Without an end-of-sequence token on the loader's tokenizer the fixups
    raise. *)
Lemma post_load_fixups_missing_eos key dir (m0 : option PreTrainedModel) t0 rt :
  eos_token t0 = None ->
  (post_load_fixups E key dir m0 t0 rt).1
    = inl (AssertionError "tokenizer.eos_token has not been set.").
Proof.
  intros Heos. unfold post_load_fixups.
  destruct (fix_gradient_checkpointing_warning_ok rt) as (rt1 & Hfix & _).
  unfold mbind, M_bind at 1. rewrite Hfix.
  unfold py_assert. simpl. rewrite Heos. reflexivity.
Qed.

End PostLoad.

Section Tokenizer.

Context (E : Env) (MODEL_MAPPING : gmap string ModelInfo).
Implicit Types (key dir : string) (info : ModelInfo) (rt : Runtime).
Implicit Types (kw : gmap string PyVal) (mk : option ModelKwargs).
Implicit Types (tok : PreTrainedTokenizerBase).

Lemma safe_snapshot_download_registered key id rev kw rt dir rt1 :
  safe_snapshot_download E MODEL_MAPPING key id rev kw rt = (inr dir, rt1) ->
  exists info, MODEL_MAPPING !! key = Some info.
Proof.
  unfold safe_snapshot_download, getitem. unfold mbind, M_bind at 1.
  destruct (MODEL_MAPPING !! key) as [info |]; [eauto |].
  unfold raise. discriminate.
Qed.

(** A successful call went through every stage of the pipeline. *)
Lemma get_model_tokenizer_inv key dt mk lm id rev kw rt model tok rt' :
  get_model_tokenizer E MODEL_MAPPING key dt mk lm id rev kw rt
    = (inr (model, tok), rt') ->
  exists dir rt1 info dt' mkw' rt3 m0 t0 rt4,
    safe_snapshot_download E MODEL_MAPPING key id rev (model_dir_kwarg kw) rt
      = (inr dir, rt1)
    ∧ MODEL_MAPPING !! key = Some info
    ∧ first_unmet E (info_requires info) = None
    ∧ determine_torch_dtype E info dir dt (default_model_kwargs E mk)
        (after_requires E info rt1) = (inr (dt', mkw'), rt3)
    ∧ info_get_function info dir dt' mkw' lm
        (loader_kwargs info (delete "model_dir" kw))
        (emit (EvGetFunction dir dt' lm) rt3) = (inr (m0, t0), rt4)
    ∧ post_load_fixups E key dir m0 t0 rt4 = (inr (model, tok), rt').
Proof.
  intros Hrun.
  destruct (safe_snapshot_download E MODEL_MAPPING key id rev
              (model_dir_kwarg kw) rt) as [[e | dir] rt1] eqn:Hdl.
  - rewrite (get_model_tokenizer_download_failed _ _ _ _ _ _ _ _ _ _ _ _ Hdl)
      in Hrun. discriminate.
  - destruct (safe_snapshot_download_registered _ _ _ _ _ _ _ Hdl) as [info Hin].
    rewrite (get_model_tokenizer_run _ _ _ _ _ _ _ _ _ _ _ _ _ Hin Hdl) in Hrun.
    destruct (first_unmet E (info_requires info)) eqn:Hmet; [discriminate |].
    destruct (determine_torch_dtype _ _ _ _ _ _) as [[e | [dt' mkw']] rt3] eqn:Hdt;
      [discriminate |].
    unfold invoke_get_function in Hrun. unfold tell in Hrun.
    unfold mbind, M_bind in Hrun.
    destruct (info_get_function info dir dt' mkw' lm _ _)
      as [[e | [m0 t0]] rt4] eqn:Hload; [discriminate |].
    exists dir, rt1, info, dt', mkw', rt3, m0, t0, rt4.
    repeat split; assumption.
Qed.

(** The shared loader forces an end-of-sequence token passed in [kwargs]
    onto the tokenizer it returns, injected or freshly built. *)
Lemma get_model_tokenizer_from_repo_eos :
  forces_eos_token (get_model_tokenizer_from_repo E).
Proof.
  intros dir dt mkw lm kw rt m tok rt' s Heos.
  unfold get_model_tokenizer_from_repo. rewrite Heos.
  unfold as_optional_config, as_optional_tokenizer. unfold_M.
  intros Hrun.
  repeat (case_match; simplify_eq; try reflexivity).
Qed.

(** So do the loaders that end in a call of the shared loader with the
    keywords passed on. *)
Lemma get_model_tokenizer_with_flash_attn_eos :
  forces_eos_token (get_model_tokenizer_with_flash_attn E).
Proof.
  intros dir dt mkw lm kw rt m tok rt' s Heos Hrun.
  unfold get_model_tokenizer_with_flash_attn, as_optional_config in Hrun.
  unfold_M.
  repeat (case_match; simplify_eq);
    (eapply get_model_tokenizer_from_repo_eos; [| eassumption];
     rewrite lookup_insert_ne by discriminate;
     rewrite lookup_delete_ne by discriminate; exact Heos).
Qed.

Lemma get_model_tokenizer_llama2_eos :
  forces_eos_token (get_model_tokenizer_llama2 E).
Proof.
  intros dir dt mkw lm kw rt m tok rt' s Heos Hrun.
  unfold get_model_tokenizer_llama2 in Hrun. unfold_M.
  repeat (case_match; simplify_eq);
    (eapply get_model_tokenizer_with_flash_attn_eos; [| eassumption];
     rewrite lookup_insert_ne by discriminate; exact Heos).
Qed.

Lemma get_model_tokenizer_chatglm_eos :
  forces_eos_token (get_model_tokenizer_chatglm E).
Proof.
  intros dir dt mkw lm kw rt m tok rt' s Heos Hrun.
  unfold get_model_tokenizer_chatglm in Hrun. unfold_M.
  repeat (case_match; simplify_eq);
    (eapply get_model_tokenizer_from_repo_eos; [| eassumption];
     rewrite ?lookup_insert_ne by discriminate; exact Heos).
Qed.

(** Binding [function_kwargs] keeps it so: keywords given at the call win
    over the bound ones. *)
Lemma partial_eos f function_kwargs :
  forces_eos_token f -> forces_eos_token (partial f function_kwargs).
Proof.
  intros Hf dir dt mkw lm kw rt m tok rt' s Heos Hrun.
  unfold partial in Hrun.
  refine (Hf _ _ _ _ _ _ _ _ _ _ _ Hrun).
  apply lookup_union_Some_l. exact Heos.
Qed.

Lemma bind_function_kwargs_eos f function_kwargs :
  forces_eos_token f ->
  forces_eos_token (bind_function_kwargs function_kwargs f).
Proof.
  intros Hf. unfold bind_function_kwargs.
  case_bool_decide; [apply partial_eos |]; exact Hf.
Qed.

Lemma loader_kwargs_eos info kw s :
  info_eos_token info = Some s ->
  loader_kwargs info kw !! "eos_token" = Some (VStr s).
Proof.
  intros Hs. unfold loader_kwargs. rewrite Hs.
  case_bool_decide.
  - apply lookup_insert_eq.
  - rewrite lookup_insert_ne by discriminate. apply lookup_insert_eq.
Qed.

(** C4. Whenever [get_model_tokenizer] returns, with or without a model, the
    tokenizer it returns has an end-of-sequence token and a padding token.
    The end-of-sequence token is the one on the tokenizer the loader
    returned, and the padding token is the loader's when it had one and the
    end-of-sequence token otherwise. An [eos_token] declared in the catalog
    is handed to the loader, and it is the end-of-sequence token of the
    result for every loader that honours the keyword: the shared loader
    [get_model_tokenizer_from_repo], the loaders built on it, and any of
    them bound with [function_kwargs]. A loader tokenizer without
    end-of-sequence token makes the fixups raise. *)
Theorem C4_tokenizer_eos_and_pad_set key dt mk lm id rev kw rt :
  (forall model tok rt',
     get_model_tokenizer E MODEL_MAPPING key dt mk lm id rev kw rt
       = (inr (model, tok), rt') ->
     eos_token tok <> None
     ∧ pad_token tok <> None
     ∧ exists info dir dt' mkw' rt3 m0 t0 rt4,
         MODEL_MAPPING !! key = Some info
         ∧ info_get_function info dir dt' mkw' lm
             (loader_kwargs info (delete "model_dir" kw)) rt3
             = (inr (m0, t0), rt4)
         ∧ eos_token tok = eos_token t0
         ∧ pad_token tok = match pad_token t0 with
                           | Some p => Some p
                           | None => eos_token t0
                           end
         ∧ forall s,
             info_eos_token info = Some s ->
             forces_eos_token (info_get_function info) ->
             eos_token tok = Some s)
  ∧ (forces_eos_token (get_model_tokenizer_from_repo E)
     ∧ forces_eos_token (get_model_tokenizer_with_flash_attn E)
     ∧ forces_eos_token (get_model_tokenizer_llama2 E)
     ∧ forces_eos_token (get_model_tokenizer_chatglm E)
     ∧ forall f function_kwargs,
         forces_eos_token f ->
         forces_eos_token (bind_function_kwargs function_kwargs f))
  ∧ (forall dir m0 t0 rt4,
       eos_token t0 = None ->
       (post_load_fixups E key dir m0 t0 rt4).1
         = inl (AssertionError "tokenizer.eos_token has not been set.")).
Proof.
  split; [| split].
  - intros model tok rt' Hrun.
    apply get_model_tokenizer_inv in Hrun
      as (dir & rt1 & info & dt' & mkw' & rt3 & m0 & t0 & rt4
          & Hdl & Hin & Hmet & Hdt & Hload & Hpost).
    apply post_load_fixups_inv in Hpost
      as (Heos0 & Heos & Hpad & _ & _ & _).
    split; [rewrite Heos; exact Heos0 |].
    split; [rewrite Hpad; destruct (pad_token t0); [discriminate | exact Heos0] |].
    exists info, dir, dt', mkw', (emit (EvGetFunction dir dt' lm) rt3), m0, t0,
           rt4.
    split; [exact Hin |]. split; [exact Hload |].
    split; [exact Heos |]. split; [exact Hpad |].
    intros s Hs Hforces. rewrite Heos.
    exact (Hforces _ _ _ _ _ _ _ _ _ _
             (loader_kwargs_eos info (delete "model_dir" kw) s Hs) Hload).
  - split; [exact get_model_tokenizer_from_repo_eos |].
    split; [exact get_model_tokenizer_with_flash_attn_eos |].
    split; [exact get_model_tokenizer_llama2_eos |].
    split; [exact get_model_tokenizer_chatglm_eos |].
    exact bind_function_kwargs_eos.
  - intros; apply post_load_fixups_missing_eos; assumption.
Qed.

End Tokenizer.

Lemma C4_tokenizer_eos_and_pad_set_witness :
  exists tok rt',
    get_model_tokenizer Fixture.env0 Fixture.catalog0 "yi-6b-chat-awq" None
      None false None None ∅ Fixture.rt0 = (inr (None, tok), rt')
    ∧ eos_token tok <> None
    ∧ pad_token tok <> None.
Proof.
  assert (Hrun : exists tok rt',
    get_model_tokenizer Fixture.env0 Fixture.catalog0 "yi-6b-chat-awq" None
      None false None None ∅ Fixture.rt0 = (inr (None, tok), rt'))
    by (vm_compute; eexists; eexists; reflexivity).
  destruct Hrun as (tok & rt' & Hrun).
  exists tok, rt'. split; [exact Hrun |].
  destruct (proj1 (C4_tokenizer_eos_and_pad_set Fixture.env0 Fixture.catalog0
    "yi-6b-chat-awq" None None false None None ∅ Fixture.rt0)
    _ _ _ Hrun) as (H1 & H2 & _).
  split; assumption.
Defined.

Section Sampling.

Context (E : Env) (MODEL_MAPPING : gmap string ModelInfo).
Implicit Types (g : GenerationConfig) (t : PyNum).







(** The limit [prepare_model_template] compares against is the one derived
    from the config of the model the loader returned. *)
Lemma get_model_tokenizer_max_model_len key dt mk lm id rev kw rt
    (m : PreTrainedModel) tok rt' :
  get_model_tokenizer E MODEL_MAPPING key dt mk lm id rev kw rt
    = (inr (Some m, tok), rt') ->
  exists info dir dt' mkw' rt3 (m0 : PreTrainedModel) tok0 rt4,
    MODEL_MAPPING !! key = Some info
    ∧ info_get_function info dir dt' mkw' lm
        (loader_kwargs info (delete "model_dir" kw)) rt3
        = (inr (Some m0, tok0), rt4)
    ∧ max_model_len m = get_max_model_len E (config m0).
Proof.
  intros Hrun.
  apply get_model_tokenizer_inv in Hrun
    as (dir & rt1 & info & dt' & mkw' & rt3 & m0 & tok0 & rt4
        & Hdl & Hin & Hmet & Hdt & Hload & Hpost).
  apply post_load_fixups_inv in Hpost as (_ & _ & _ & _ & _ & Hmodel).
  destruct m0 as [m0 |]; [| contradiction].
  destruct Hmodel as (Hlen & _).
  exists info, dir, dt', mkw', (emit (EvGetFunction dir dt' lm) rt3), m0, tok0,
         rt4.
  repeat split; assumption.
Qed.


End Sampling.



(** ** Quantization extension checks *)

Section Extensions.

Context (E : Env).
Implicit Types (dir : string) (kw : gmap string PyVal) (rt : Runtime).
Implicit Types (mkw : ModelKwargs).

Lemma loader_kwargs_is_training info kw fk :
  kw !! "is_training" = None ->
  (loader_kwargs info kw ∪ fk) !! "is_training" = Some (VBool false)
  ∧ loader_kwargs info kw !! "is_training" = Some (VBool false).
Proof.
  intros Hnone. unfold loader_kwargs.
  rewrite bool_decide_eq_false_2.
  - split; [apply lookup_union_Some_l |]; apply lookup_insert_eq.
  - rewrite lookup_insert_ne by discriminate. rewrite Hnone.
    intros [x Hx]. discriminate.
Qed.













End Extensions.



(** ** Monkey patches *)

Section Patching.

Context (E : Env).
Implicit Types (rt : Runtime) (f : CheckpointFn).

(** The guarded target: [torch.utils.checkpoint.checkpoint] is wrapped by
    the first call and left alone by every later one. *)
Lemma fix_gradient_checkpointing_warning_torch_stable rt :
  let rt1 := (fix_gradient_checkpointing_warning E rt).2 in
  let rt2 := (fix_gradient_checkpointing_warning E rt1).2 in
  torch_checkpoint rt2 = torch_checkpoint rt1
  ∧ torch_old_checkpoint rt2 = torch_old_checkpoint rt1.
Proof.
  unfold fix_gradient_checkpointing_warning. unfold_M.
  destruct (version_lt (torch_version E) (2, 0)); [split; reflexivity |].
  destruct rt as [l tc [old |] [tm |] qf qo]; split; reflexivity.
Qed.

Lemma fix_gradient_checkpointing_warning_first rt f :
  version_lt (torch_version E) (2, 0) = false ->
  torch_old_checkpoint rt = None ->
  transformers_checkpoint rt = Some f ->
  let rt1 := (fix_gradient_checkpointing_warning E rt).2 in
  torch_checkpoint rt1
    = checkpoint_lambda (use_reentrant_for (torch_version E)) (torch_checkpoint rt)
  ∧ torch_old_checkpoint rt1 = Some (torch_checkpoint rt)
  ∧ transformers_checkpoint rt1
    = Some (checkpoint_lambda (use_reentrant_for (torch_version E))
              (torch_checkpoint rt)).
Proof.
  intros Hv Hold Htm. unfold fix_gradient_checkpointing_warning. unfold_M.
  rewrite Hv. destruct rt as [l tc old tm qf qo]. simpl in Hold, Htm.
  subst old tm. repeat split; reflexivity.
Qed.

(** The unguarded target: the second call rebinds
    [transformers.modeling_utils.checkpoint] to a lambda around the function
    the first call installed. *)
Lemma fix_gradient_checkpointing_warning_rewraps rt f :
  version_lt (torch_version E) (2, 0) = false ->
  torch_old_checkpoint rt = None ->
  transformers_checkpoint rt = Some f ->
  let rt1 := (fix_gradient_checkpointing_warning E rt).2 in
  let rt2 := (fix_gradient_checkpointing_warning E rt1).2 in
  transformers_checkpoint rt2
    = Some (checkpoint_lambda (use_reentrant_for (torch_version E))
              (checkpoint_lambda (use_reentrant_for (torch_version E))
                 (torch_checkpoint rt))).
Proof.
  intros Hv Hold Htm. unfold fix_gradient_checkpointing_warning. unfold_M.
  rewrite Hv. destruct rt as [l tc old tm qf qo]. simpl in Hold, Htm.
  subst old tm. reflexivity.
Qed.

(** From the second call on the process state no longer changes: the
    unguarded target stays two lambdas deep. *)
Lemma fix_gradient_checkpointing_warning_settles rt :
  let rt2 := (fix_gradient_checkpointing_warning E
                (fix_gradient_checkpointing_warning E rt).2).2 in
  (fix_gradient_checkpointing_warning E rt2).2 = rt2.
Proof.
  unfold fix_gradient_checkpointing_warning. unfold_M.
  destruct (version_lt (torch_version E) (2, 0)); [reflexivity |].
  destruct rt as [l tc [old |] [tm |] qf qo cel]; reflexivity.
Qed.

Lemma call_checkpoint_lambda_twice u f arg :
  call_checkpoint (checkpoint_lambda u (checkpoint_lambda u f)) arg
  = call_checkpoint (checkpoint_lambda u f) arg.
Proof. reflexivity. Qed.

(** Whatever the wrapping depth, callers of the rebound function observe
    after the second call what they observed after the first. *)
Lemma fix_gradient_checkpointing_warning_same_calls rt arg :
  let rt1 := (fix_gradient_checkpointing_warning E rt).2 in
  let rt2 := (fix_gradient_checkpointing_warning E rt1).2 in
  (fun f => call_checkpoint f arg) <$> transformers_checkpoint rt2
  = (fun f => call_checkpoint f arg) <$> transformers_checkpoint rt1.
Proof.
  unfold fix_gradient_checkpointing_warning. unfold_M.
  destruct (version_lt (torch_version E) (2, 0)); [reflexivity |].
  destruct rt as [l tc [old |] [tm |] qf qo]; reflexivity.
Qed.

(** [QuantLinear.forward] is guarded: once [_check_gptq_model] has gone
    through, running it again changes nothing in the process. *)
Lemma _check_gptq_model_patches_once bits mkw rt mkw1 rt1 :
  _check_gptq_model E bits mkw rt = (inr mkw1, rt1) ->
  is_Some (QuantLinear_old_forward rt1)
  ∧ forall bits' mkw', (_check_gptq_model E bits' mkw' rt1).2 = rt1.
Proof.
  unfold _check_gptq_model. unfold_M.
  destruct (bool_decide (quantization_config mkw = None)); [| discriminate].
  destruct (auto_gptq_importable E) eqn:Himp; [| discriminate]. simpl.
  destruct (QuantLinear_old_forward rt) as [old |] eqn:Hold; simpl.
  - intros Heq. injection Heq as <- <-. split; [rewrite Hold; eauto |].
    intros bits' mkw'.
    destruct (bool_decide (quantization_config mkw' = None)); [| reflexivity].
    simpl. rewrite Hold. reflexivity.
  - intros Heq. injection Heq as <- <-. split; [simpl; eauto |].
    intros bits' mkw'.
    destruct (bool_decide (quantization_config mkw' = None)); reflexivity.
Qed.

(** After the one patch, a call of [QuantLinear.forward] reaches the
    library's forward with the CUDA flag off exactly when the module is in
    training with the flag on, and restores the flag. *)
Lemma _check_gptq_model_forward bits mkw rt mkw1 rt1 self depth :
  QuantLinear_forward rt = forward_orig ->
  QuantLinear_old_forward rt = None ->
  _check_gptq_model E bits mkw rt = (inr mkw1, rt1) ->
  call_forward (S depth) rt1 (QuantLinear_forward rt1) self
  = inr (autogptq_cuda_available self && negb (training self), self).
Proof.
  intros Hfwd Hold. unfold _check_gptq_model. unfold_M.
  destruct (bool_decide (quantization_config mkw = None)); [| discriminate].
  destruct (auto_gptq_importable E); [| discriminate]. simpl.
  rewrite Hold, Hfwd. simpl. intros Heq. injection Heq as <- <-. simpl.
  destruct self as [[] []]; destruct depth; reflexivity.
Qed.

End Patching.

(** Nothing the shared loader does touches [CrossEntropyLoss]. *)
Lemma get_model_tokenizer_from_repo_loss_forward E dir dt mkw lm
    (kw : gmap string PyVal) rt :
  CrossEntropyLoss_forward
    (get_model_tokenizer_from_repo E dir dt mkw lm kw rt).2
  = CrossEntropyLoss_forward rt.
Proof.
  unfold get_model_tokenizer_from_repo, _check_awq_ext, _check_gptq_model,
    require_version, as_optional_config, as_optional_tokenizer.
  unfold_M.
  repeat (case_match; simplify_eq; simpl in *; try reflexivity).
Qed.

(** The chatglm loader has no guard: every load that returns a model puts
    one more [cross_entropy_forward] around [CrossEntropyLoss.forward]. *)
Lemma get_model_tokenizer_chatglm_stacks E dir dt mkw
    (kw : gmap string PyVal) rt m tok rt' :
  get_model_tokenizer_chatglm E dir dt mkw true kw rt = (inr (Some m, tok), rt') ->
  CrossEntropyLoss_forward rt'
  = cross_entropy_forward (CrossEntropyLoss_forward rt).
Proof.
  intros Hrun. unfold get_model_tokenizer_chatglm in Hrun. unfold_M.
  repeat (case_match; simplify_eq); simpl;
    match goal with
    | H : get_model_tokenizer_from_repo ?E' ?d ?t ?k ?l ?w ?r = _ |- _ =>
        pose proof (get_model_tokenizer_from_repo_loss_forward E' d t k l w r)
          as Hl;
        rewrite H in Hl; simpl in Hl; rewrite Hl
    end;
    reflexivity.
Qed.

(** Callers of the loss forward see the same thing at any depth of at least
    one. *)
Lemma call_loss_forward_stacked f inputs_device target_device :
  call_loss_forward (cross_entropy_forward (cross_entropy_forward f))
    inputs_device target_device
  = call_loss_forward (cross_entropy_forward f) inputs_device target_device.
Proof. reflexivity. Qed.

(** C6. Two resolutions in one process, torch 2.1. The guarded
    [torch.utils.checkpoint.checkpoint] is wrapped once and stays so, but
    [transformers.modeling_utils.checkpoint], which the universal fixup
    rebinds outside the guard, is two lambdas deep after the second
    resolution although it was one lambda deep after the first. Likewise two
    loads of [chatglm3-6b] leave [CrossEntropyLoss.forward] wrapped twice:
    that loader patches without a guard. *)
Theorem C6_patches_wrapped_twice :
  (let '(rt1, rt2) :=
     after_two_resolutions Fixture.env0 Fixture.catalog0
       "llama2-7b-chat" "atom-7b-chat" false Fixture.rt0 in
   torch_checkpoint rt1 = checkpoint_lambda false checkpoint_orig
   ∧ torch_checkpoint rt2 = checkpoint_lambda false checkpoint_orig
   ∧ transformers_checkpoint rt1 = Some (checkpoint_lambda false checkpoint_orig)
   ∧ transformers_checkpoint rt2
     = Some (checkpoint_lambda false (checkpoint_lambda false checkpoint_orig))
   ∧ wrap_depth <$> transformers_checkpoint rt1 = Some 1%nat
   ∧ wrap_depth <$> transformers_checkpoint rt2 = Some 2%nat)
  ∧ (let '(rt1, rt2) :=
       after_two_resolutions Fixture.env0 Fixture.catalog0
         "chatglm3-6b" "chatglm3-6b" true Fixture.rt0 in
     CrossEntropyLoss_forward rt1 = cross_entropy_forward loss_forward_orig
     ∧ CrossEntropyLoss_forward rt2
       = cross_entropy_forward (cross_entropy_forward loss_forward_orig)
     ∧ loss_wrap_depth (CrossEntropyLoss_forward rt1) = 1%nat
     ∧ loss_wrap_depth (CrossEntropyLoss_forward rt2) = 2%nat).
Proof. vm_compute. repeat split; reflexivity. Qed.

(** * Further properties *)

(** ** Catalog lookups *)

(** X1. A model type that is not in the catalog is refused with [KeyError]
    by every entry point, and [get_model_tokenizer] and
    [safe_snapshot_download] leave the process exactly as it was: no hub
    call, no requirement check, nothing constructed or patched. *)
Theorem unknown_model_type_raises_KeyError E
    (MODEL_MAPPING : gmap string ModelInfo) key dt mk lm id rev
    (kw : gmap string PyVal) rt :
  MODEL_MAPPING !! key = None ->
  get_model_tokenizer E MODEL_MAPPING key dt mk lm id rev kw rt
    = (inl (KeyError key), rt)
  ∧ safe_snapshot_download E MODEL_MAPPING key id rev kw rt
    = (inl (KeyError key), rt)
  ∧ get_default_template_type MODEL_MAPPING key = inl (KeyError key)
  ∧ get_default_lora_target_modules MODEL_MAPPING key = inl (KeyError key).
Proof.
  intros Hnone.
  assert (Hdl : forall kw', safe_snapshot_download E MODEL_MAPPING key id rev kw' rt
                            = (inl (KeyError key), rt)).
  { intros kw'. unfold safe_snapshot_download, getitem.
    unfold mbind, M_bind at 1. rewrite Hnone. reflexivity. }
  split; [| split; [apply Hdl | split]].
  - apply get_model_tokenizer_download_failed. apply Hdl.
  - unfold get_default_template_type. rewrite Hnone. reflexivity.
  - unfold get_default_lora_target_modules. rewrite Hnone. reflexivity.
Qed.

Lemma unknown_model_type_raises_KeyError_witness :
  get_model_tokenizer Fixture.env0 Fixture.catalog0 "not-a-real-model" None
    None true None None ∅ Fixture.rt0
  = (inl (KeyError "not-a-real-model"), Fixture.rt0).
Proof.
  apply (unknown_model_type_raises_KeyError Fixture.env0 Fixture.catalog0
           "not-a-real-model" None None true None None ∅ Fixture.rt0).
  reflexivity.
Defined.

(** X2. Looking up what was just registered gives back what was passed:
    the template and the LoRA target modules of the registration, and the
    accessors of every other key answer as before. *)
Theorem registered_defaults_round_trip
    (MODEL_MAPPING : gmap string ModelInfo) r f res :
  register_model r (Some f) MODEL_MAPPING = inr res ->
  exists mm',
    res = Registered mm'
    ∧ get_default_template_type mm' (reg_model_type r) = inr (reg_template r)
    ∧ get_default_lora_target_modules mm' (reg_model_type r)
      = inr (reg_lora_target_modules r)
    ∧ forall key,
        key <> reg_model_type r ->
        get_default_template_type mm' key
          = get_default_template_type MODEL_MAPPING key
        ∧ get_default_lora_target_modules mm' key
          = get_default_lora_target_modules MODEL_MAPPING key.
Proof.
  unfold register_model.
  destruct (negb (reg_exists_ok r) && _); [discriminate |].
  intros Heq. injection Heq as <-.
  eexists. split; [reflexivity |].
  unfold get_default_template_type, get_default_lora_target_modules.
  rewrite lookup_insert_eq. split; [reflexivity |]. split; [reflexivity |].
  intros key Hne. rewrite lookup_insert_ne by congruence. split; reflexivity.
Qed.

Lemma registered_defaults_round_trip_witness :
  exists mm',
    register_model Fixture.atom_7b_chat
      (Some (get_model_tokenizer_from_repo Fixture.env0)) ∅ = inr (Registered mm')
    ∧ get_default_template_type mm' "atom-7b-chat" = inr "atom"
    ∧ get_default_lora_target_modules mm' "atom-7b-chat"
      = inr (Some ["q_proj"; "k_proj"; "v_proj"]).
Proof.
  assert (Hreg : exists res,
    register_model Fixture.atom_7b_chat
      (Some (get_model_tokenizer_from_repo Fixture.env0)) ∅ = inr res)
    by (eexists; reflexivity).
  destruct Hreg as [res Hreg].
  destruct (registered_defaults_round_trip ∅ Fixture.atom_7b_chat
              (get_model_tokenizer_from_repo Fixture.env0) res Hreg)
    as (mm' & -> & Ht & Hl & _).
  exists mm'. split; [exact Hreg |]. split; [exact Ht | exact Hl].
Defined.

(** X3. The duplicate check of [register_model] is made when the decorator
    is created, not when it is applied: two decorator-form registrations of
    one new key, both created before either is applied (as stacked
    decorators are), both go through without [exists_ok], and the entry left
    in the catalog is the one of the decorator applied last. *)
Theorem stacked_decorators_skip_duplicate_check
    (MODEL_MAPPING : gmap string ModelInfo) r_outer r_inner f :
  reg_model_type r_outer = reg_model_type r_inner ->
  MODEL_MAPPING !! reg_model_type r_outer = None ->
  exists outer inner,
    register_model r_outer None MODEL_MAPPING
      = inr (Decorator MODEL_MAPPING outer)
    ∧ register_model r_inner None MODEL_MAPPING
      = inr (Decorator MODEL_MAPPING inner)
    ∧ (inner f MODEL_MAPPING).1 !! reg_model_type r_outer
      = Some (model_info_of r_inner f)
    ∧ (outer (inner f MODEL_MAPPING).2 (inner f MODEL_MAPPING).1).1
        !! reg_model_type r_outer
      = Some (model_info_of r_outer f)
    ∧ exists msg,
        register_model r_outer (Some f) (inner f MODEL_MAPPING).1
        = (if reg_exists_ok r_outer
           then inr (Registered
                  (<[reg_model_type r_outer := model_info_of r_outer f]>
                     (inner f MODEL_MAPPING).1))
           else inl (ValueError msg)).
Proof.
  intros Hkey Hnone.
  assert (Hfresh : forall r, reg_model_type r = reg_model_type r_outer ->
            register_model r None MODEL_MAPPING
            = inr (Decorator MODEL_MAPPING (_register_model r))).
  { intros r Hr. unfold register_model. rewrite Hr, Hnone.
    rewrite bool_decide_eq_false_2 by (intros [x Hx]; discriminate).
    rewrite andb_false_r. reflexivity. }
  exists (_register_model r_outer), (_register_model r_inner).
  split; [apply Hfresh; reflexivity |].
  split; [apply Hfresh; symmetry; exact Hkey |].
  split; [simpl; rewrite Hkey; apply lookup_insert_eq |].
  split; [simpl; apply lookup_insert_eq |].
  eexists. unfold register_model. simpl.
  rewrite bool_decide_eq_true_2
    by (rewrite Hkey, lookup_insert_eq; eauto).
  destruct (reg_exists_ok r_outer); reflexivity.
Qed.

Lemma stacked_decorators_skip_duplicate_check_witness :
  exists outer inner,
    register_model (Fixture.atom_7b_chat_again false) None ∅
      = inr (Decorator ∅ outer)
    ∧ register_model Fixture.atom_7b_chat None ∅ = inr (Decorator ∅ inner)
    ∧ (outer (inner Fixture.loader_with_tokenizer ∅).2
             (inner Fixture.loader_with_tokenizer ∅).1).1 !! "atom-7b-chat"
      = Some (model_info_of (Fixture.atom_7b_chat_again false)
                Fixture.loader_with_tokenizer).
Proof.
  destruct (stacked_decorators_skip_duplicate_check ∅
              (Fixture.atom_7b_chat_again false) Fixture.atom_7b_chat
              Fixture.loader_with_tokenizer eq_refl (lookup_empty _))
    as (outer & inner & H1 & H2 & _ & H4 & _).
  exists outer, inner. split; [exact H1 |]. split; [exact H2 | exact H4].
Defined.

(** ** Materialization *)

Section Materialization.

Context (E : Env) (MODEL_MAPPING : gmap string ModelInfo).
Implicit Types (key : string) (info : ModelInfo) (rt : Runtime).
Implicit Types (kw : gmap string PyVal).


(** X5. One call of [safe_snapshot_download] contacts at most one hub, at
    most once, and which hub is decided by [USE_HF] alone. A call that
    contacts no hub leaves the process as it found it. A call that contacts
    one adds the record of that call and nothing else, except that on
    Hugging Face with [USE_HF_TRANSFER] set it also switches on
    [HF_HUB_ENABLE_HF_TRANSFER] in the hub library, for the rest of the
    process; the flag is never switched off, and none of the functions the
    pipeline patches is touched. When the call returns, what it returns is
    a directory. *)
Theorem at_most_one_hub_call key id rev kw rt :
  let out := safe_snapshot_download E MODEL_MAPPING key id rev kw rt in
  (exists calls,
     log out.2 = log rt ++ calls
     ∧ (length calls <= 1)%nat
     ∧ Forall (fun e => is_download e = true
                        ∧ is_hf_download e = USE_HF E) calls
     ∧ (calls = [] -> out.2 = rt)
     ∧ HF_HUB_ENABLE_HF_TRANSFER out.2
       = HF_HUB_ENABLE_HF_TRANSFER rt
         || (USE_HF E && hf_transfer_requested E
             && (0 <? length calls)%nat))
  ∧ patches out.2 = patches rt
  ∧ forall dir, out.1 = inr dir -> os_path_isdir E dir = true.
Proof.
  simpl. unfold hf_transfer_requested.
  unfold safe_snapshot_download, as_optional_str. unfold_M.
  repeat case_match; simplify_eq; simpl;
    (split; [| split; [reflexivity |]]);
    try (intros dir Hdir; congruence);
    try (exists []; rewrite app_nil_r; split; [reflexivity |];
         split; [simpl; lia |]; split; [constructor |];
         split; [reflexivity |];
         simpl; rewrite ?andb_false_r, ?orb_false_r; reflexivity);
    try (eexists [_]; split; [reflexivity |];
         split; [simpl; lia |];
         split; [constructor;
                 [split; [reflexivity | simpl; congruence] | constructor] |];
         split; [intros Hnil; discriminate Hnil |];
         simpl; rewrite ?orb_false_r, ?orb_true_r; reflexivity).
Qed.

(** X6. What is asked of the hub when the location is not on disk. The
    location is the [model_id_or_path] argument, else the legacy
    [model_dir] keyword, else the id the catalog entry has for the hub in
    use ([hf_model_id] on Hugging Face, [model_id_or_path] on ModelScope).
    The revision is the caller's when there is one, otherwise [main] on
    Hugging Face and the revision of the catalog entry on ModelScope, which
    is [master] for an entry registered without one; the ignore patterns
    are always those of the catalog entry. On Hugging Face the request is
    made once [USE_HF_TRANSFER] has been read: a true value switches
    [HF_HUB_ENABLE_HF_TRANSFER] on before the request, and a value that
    [strtobool] rejects ends the call with its error, no request made and
    the process untouched. *)
Theorem hub_request_for_missing_path key r f id p rev kw rt :
  MODEL_MAPPING !! key = Some (model_info_of r f) ->
  (id = Some p
   ∨ (id = None ∧ kw !! "model_dir" = Some (VStr p))
   ∨ (id = None
      ∧ (kw !! "model_dir" = None ∨ kw !! "model_dir" = Some VNone)
      ∧ (if USE_HF E then reg_hf_model_id r else reg_model_id_or_path r)
        = Some p)) ->
  os_path_exists E p = false ->
  let out := safe_snapshot_download E MODEL_MAPPING key id rev kw rt in
  (USE_HF E = false ->
   log out.2
   = log rt ++
     [EvSnapshotDownload p (default (default "master" (reg_revision r)) rev)
        (reg_ignore_file_pattern r)]
   ∧ HF_HUB_ENABLE_HF_TRANSFER out.2 = HF_HUB_ENABLE_HF_TRANSFER rt)
  ∧ (USE_HF E = true ->
     forall b, USE_HF_TRANSFER E = inr b ->
     log out.2
     = log rt ++
       [EvHfSnapshotDownload p (default "main" rev)
          (reg_ignore_file_pattern r)]
     ∧ HF_HUB_ENABLE_HF_TRANSFER out.2 = b || HF_HUB_ENABLE_HF_TRANSFER rt)
  ∧ (USE_HF E = true ->
     forall e, USE_HF_TRANSFER E = inl e -> out = (inl e, rt)).
Proof.
  intros Hin Hroute Hex.
  assert (Hloc :
    safe_snapshot_download E MODEL_MAPPING key id rev kw rt
    = safe_snapshot_download E MODEL_MAPPING key (Some p) rev kw rt).
  { unfold safe_snapshot_download, getitem, as_optional_str.
    rewrite Hin.
    destruct Hroute as [-> | [[-> Hkw] | (-> & Hkw & Hcat)]].
    - reflexivity.
    - rewrite Hkw. reflexivity.
    - unfold mbind, mret, M_bind, M_ret.
      destruct Hkw as [-> | ->];
        change (info_hf_model_id (model_info_of r f))
          with (reg_hf_model_id r);
        change (info_model_id_or_path (model_info_of r f))
          with (reg_model_id_or_path r);
        rewrite Hcat; reflexivity. }
  simpl. rewrite Hloc. clear Hloc Hroute.
  unfold safe_snapshot_download, getitem. rewrite Hin. unfold_M.
  rewrite Hex. simpl.
  split; [| split].
  - intros ->. repeat (case_match; simplify_eq); split; reflexivity.
  - intros -> b ->. destruct b; simpl;
      repeat (case_match; simplify_eq); split;
      rewrite ?orb_true_r; reflexivity.
  - intros -> e ->. reflexivity.
Qed.

End Materialization.


Lemma hub_request_for_missing_path_witness :
  log (safe_snapshot_download Installations.env_hf_transfer Fixture.catalog0
         "llama2-7b-chat" None None ∅ Fixture.rt0).2
  = [EvHfSnapshotDownload "meta-llama/Llama-2-7b-chat-hf" "main"
       (Some [".+\.bin$"])]
  ∧ HF_HUB_ENABLE_HF_TRANSFER
      (safe_snapshot_download Installations.env_hf_transfer Fixture.catalog0
         "llama2-7b-chat" None None ∅ Fixture.rt0).2
    = true.
Proof.
  refine (proj1 (proj2 (hub_request_for_missing_path
    Installations.env_hf_transfer
    Fixture.catalog0 "llama2-7b-chat" Fixture.llama2_7b_chat
    (get_model_tokenizer_llama2 Fixture.env0) None
    "meta-llama/Llama-2-7b-chat-hf" None ∅ Fixture.rt0 _ _ _)) _ true _);
    try reflexivity.
  right. right. split; [reflexivity |]. split; [left |]; reflexivity.
Defined.

(** ** What a resolution returns *)

Section Resolved.

Context (E : Env) (MODEL_MAPPING : gmap string ModelInfo).
Implicit Types (key dir : string) (info : ModelInfo) (rt : Runtime).
Implicit Types (kw : gmap string PyVal) (mk : option ModelKwargs).

Lemma reconcile_generation_config_attrs (m m' : PreTrainedModel) dir rt rt' :
  reconcile_generation_config E m dir rt = (inr m', rt') ->
  model_type m' = model_type m
  ∧ model_dir m' = model_dir m
  ∧ config m' = config m
  ∧ model_dtype m' = model_dtype m
  ∧ load_options m' = load_options m
  ∧ is_awq m' = is_awq m
  ∧ gptq_bits m' = gptq_bits m
  ∧ legacy_set_gradient_checkpointing m'
    = legacy_set_gradient_checkpointing m.
Proof.
  intros Hrun. unfold reconcile_generation_config in Hrun. unfold_M.
  repeat (case_match; simplify_eq); repeat split; reflexivity.
Qed.

Lemma post_load_fixups_model key dir (m0 m : PreTrainedModel) t0 tok rt rt' :
  post_load_fixups E key dir (Some m0) t0 rt = (inr (Some m, tok), rt') ->
  model_type m = Some key
  ∧ model_dir m = Some dir
  ∧ config m = config m0
  ∧ model_dtype m = model_dtype m0
  ∧ load_options m = load_options m0
  ∧ is_awq m = is_awq m0
  ∧ gptq_bits m = gptq_bits m0
  ∧ (version_ge (transformers_version E) (4, 35) = true ->
     legacy_set_gradient_checkpointing m = false).
Proof.
  unfold post_load_fixups.
  destruct (fix_gradient_checkpointing_warning_ok E rt) as (rt1 & Hfix & _).
  unfold mbind, M_bind at 1. rewrite Hfix.
  unfold py_assert. simpl.
  destruct (eos_token t0) as [eos |] eqn:Heos; simpl;
    [| unfold raise, mbind, M_bind; discriminate].
  unfold mbind, mret, M_bind, M_ret. simpl.
  destruct (reconcile_generation_config E _ dir rt1) as [[e | m'] rt2] eqn:Hrec;
    [discriminate |].
  intros Heq. injection Heq as <- <- <-.
  apply reconcile_generation_config_attrs in Hrec
    as (H1 & H2 & H3 & H4 & H5 & H6 & H7 & H8).
  rewrite H1, H2, H3, H4, H5, H6, H7, H8.
  unfold fix_transformers_upgrade.
  destruct (version_ge (transformers_version E) (4, 35)) eqn:Hv;
    destruct (legacy_set_gradient_checkpointing m0) eqn:Hleg; simpl;
    rewrite ?Hleg; repeat split; try reflexivity; intros; congruence.
Qed.

Lemma safe_snapshot_download_isdir key id rev kw rt dir rt1 :
  safe_snapshot_download E MODEL_MAPPING key id rev kw rt = (inr dir, rt1) ->
  os_path_isdir E dir = true.
Proof.
  unfold safe_snapshot_download, as_optional_str. unfold_M.
  intros Hdl. repeat (case_match; simplify_eq); first [assumption | reflexivity].
Qed.

(** X7. What [get_model_tokenizer] hands back is tagged consistently: the
    tokenizer and the model, when there is one, both carry the model type
    that was asked for and one and the same checkpoint directory, which
    exists; a model is handed back exactly when the loader of the catalog
    entry returned one, and it keeps the config, dtype, load options and
    quantization marks ([is_awq], [gptq_bits]) the loader gave it, has the
    length limit derived from that config, and from transformers 4.35 on no
    longer has the old [_set_gradient_checkpointing] signature. *)
Theorem resolved_pair_is_tagged key dt mk lm id rev kw rt model tok rt' :
  get_model_tokenizer E MODEL_MAPPING key dt mk lm id rev kw rt
    = (inr (model, tok), rt') ->
  exists dir info dt' mkw' rt3 model0 tok0 rt4,
    os_path_isdir E dir = true
    ∧ MODEL_MAPPING !! key = Some info
    ∧ info_get_function info dir dt' mkw' lm
        (loader_kwargs info (delete "model_dir" kw))
        (emit (EvGetFunction dir dt' lm) rt3)
      = (inr (model0, tok0), rt4)
    ∧ tok_model_type tok = Some key
    ∧ tok_model_dir tok = Some dir
    ∧ (model = None <-> model0 = None)
    ∧ forall m,
        model = Some m ->
        model_type m = Some key
        ∧ model_dir m = Some dir
        ∧ max_model_len m = get_max_model_len E (config m)
        ∧ (version_ge (transformers_version E) (4, 35) = true ->
           legacy_set_gradient_checkpointing m = false)
        ∧ exists m0,
            model0 = Some m0
            ∧ config m = config m0
            ∧ model_dtype m = model_dtype m0
            ∧ load_options m = load_options m0
            ∧ is_awq m = is_awq m0
            ∧ gptq_bits m = gptq_bits m0.
Proof.
  intros Hrun.
  apply get_model_tokenizer_inv in Hrun
    as (dir & rt1 & info & dt' & mkw' & rt3 & m0 & t0 & rt4
        & Hdl & Hin & Hmet & Hdt & Hload & Hpost).
  exists dir, info, dt', mkw', rt3, m0, t0, rt4.
  split; [exact (safe_snapshot_download_isdir _ _ _ _ _ _ _ Hdl) |].
  split; [exact Hin |]. split; [exact Hload |].
  pose proof (post_load_fixups_inv E key dir m0 model t0 tok rt4 rt' Hpost)
    as (_ & _ & _ & Htype & Hdir & Hmodel).
  split; [exact Htype |]. split; [exact Hdir |].
  split.
  - destruct model as [m |], m0 as [m0 |]; try contradiction;
      split; congruence.
  - intros m ->. destruct m0 as [m0 |]; [| contradiction].
    destruct Hmodel as (Hlen & _).
    apply post_load_fixups_model in Hpost
      as (H1 & H2 & H3 & H4 & H5 & H6 & H7 & H8).
    split; [exact H1 |]. split; [exact H2 |].
    split; [rewrite H3; exact Hlen |]. split; [exact H8 |].
    exists m0. repeat split; assumption.
Qed.

(** X8. The [eos_token] keyword of a caller never reaches the loader:
    [get_model_tokenizer] overwrites it with the value of the catalog entry,
    so a call behaves exactly as it does without the keyword. *)
Theorem caller_eos_token_is_overwritten key dt mk lm id rev kw v rt :
  get_model_tokenizer E MODEL_MAPPING key dt mk lm id rev
    (<["eos_token" := v]> kw) rt
  = get_model_tokenizer E MODEL_MAPPING key dt mk lm id rev kw rt.
Proof.
  assert (Hdir : model_dir_kwarg (<["eos_token" := v]> kw) = model_dir_kwarg kw).
  { unfold model_dir_kwarg. rewrite lookup_insert_ne by discriminate.
    reflexivity. }
  assert (Hkw : forall info,
    loader_kwargs info (delete "model_dir" (<["eos_token" := v]> kw))
    = loader_kwargs info (delete "model_dir" kw)).
  { intros info. unfold loader_kwargs.
    rewrite delete_insert_ne by discriminate.
    rewrite insert_insert_eq. reflexivity. }
  destruct (safe_snapshot_download E MODEL_MAPPING key id rev
              (model_dir_kwarg kw) rt) as [[e | dir] rt1] eqn:Hdl.
  - rewrite !(get_model_tokenizer_download_failed E MODEL_MAPPING key dt mk lm
               id rev _ rt e rt1); [reflexivity | exact Hdl |].
    rewrite Hdir. exact Hdl.
  - destruct (safe_snapshot_download_registered _ _ _ _ _ _ _ _ _ Hdl)
      as [info Hin].
    rewrite !(get_model_tokenizer_run E MODEL_MAPPING key info dt mk lm id rev
               _ rt dir rt1 Hin); [| exact Hdl | rewrite Hdir; exact Hdl].
    destruct (first_unmet E (info_requires info)); [reflexivity |].
    destruct (determine_torch_dtype _ _ _ _ _ _) as [[e | [dt' mkw']] rt3];
      [reflexivity |].
    unfold invoke_get_function. rewrite Hkw. reflexivity.
Qed.

End Resolved.

Lemma resolved_pair_is_tagged_witness :
  exists model tok rt',
    get_model_tokenizer Fixture.env0 Fixture.catalog0 "llama2-7b-chat" None
      None true None None ∅ Fixture.rt0 = (inr (Some model, tok), rt')
    ∧ tok_model_dir tok = model_dir model
    ∧ tok_model_type tok = Some "llama2-7b-chat"
    ∧ max_model_len model = Some 4096.
Proof.
  assert (Hrun : exists model tok rt',
    get_model_tokenizer Fixture.env0 Fixture.catalog0 "llama2-7b-chat" None
      None true None None ∅ Fixture.rt0 = (inr (Some model, tok), rt'))
    by (vm_compute; do 3 eexists; reflexivity).
  destruct Hrun as (model & tok & rt' & Hrun).
  exists model, tok, rt'. split; [exact Hrun |].
  destruct (resolved_pair_is_tagged Fixture.env0 Fixture.catalog0
              "llama2-7b-chat" None None true None None ∅ Fixture.rt0
              _ _ _ Hrun)
    as (dir & info & dt' & mkw' & rt3 & model0 & tok0 & rt4
        & _ & _ & _ & Htype & Hdir & _ & Hm).
  destruct (Hm model eq_refl) as (_ & Hmdir & Hlen & _).
  split; [rewrite Hdir, Hmdir; reflexivity |].
  split; [exact Htype | exact Hlen].
Defined.

(** ** Precision and the load-options bag *)

Section PrecisionMore.

Context (E : Env).
Implicit Types (dir : string) (info : ModelInfo) (rt : Runtime).

(** X9. Precision read from a checkpoint is never 32-bit float: whatever
    [config.json] says, [get_torch_dtype] does not return [float32], and so
    a resolution that neither declares nor requests a precision never calls
    its loader with [float32]. *)
Theorem default_precision_is_never_float32 info dir mkw rt dt' mkw' rt' :
  info_torch_dtype info = None ->
  determine_torch_dtype E info dir None mkw rt = (inr (dt', mkw'), rt') ->
  dt' <> Some float32
  ∧ forall d rt2, get_torch_dtype E dir rt = (inr d, rt2) -> d <> Some float32.
Proof.
  intros Hnone Hrun.
  assert (Hget : forall d rt2,
            get_torch_dtype E dir rt = (inr d, rt2) -> d <> Some float32).
  { intros d rt2. unfold get_torch_dtype. unfold_M.
    intros Hget. repeat (case_match; simplify_eq); congruence. }
  split; [| exact Hget].
  unfold determine_torch_dtype in Hrun. rewrite Hnone in Hrun.
  unfold mbind, mret, M_bind, M_ret in Hrun.
  destruct (get_torch_dtype E dir rt) as [[e | d] rt2] eqn:Hg; [discriminate |].
  injection Hrun as <- <- <-. exact (Hget _ _ eq_refl).
Qed.

(** X10. The precision step leaves the load-options bag alone except for
    one thing: a [BitsAndBytesConfig] whose compute dtype is missing gets
    the resolved precision, and only when that precision was read from the
    checkpoint, that is when the entry declares none and the caller
    requests none. A compute dtype already there is never replaced, and
    with a declared or requested precision a missing one stays missing. *)
Theorem bnb_compute_dtype_filled_on_default_path
    info dir dt mkw rt dt' mkw' rt' :
  determine_torch_dtype E info dir dt mkw rt = (inr (dt', mkw'), rt') ->
  device_map mkw' = device_map mkw
  ∧ low_cpu_mem_usage mkw' = low_cpu_mem_usage mkw
  ∧ quantization_config mkw'
    = match quantization_config mkw with
      | Some (BitsAndBytesConfig l8 l4 None skip) =>
          Some (BitsAndBytesConfig l8 l4
                  (match info_torch_dtype info, dt with
                   | None, None => dt'
                   | _, _ => None
                   end) skip)
      | q => q
      end.
Proof.
  unfold determine_torch_dtype, set_bnb_4bit_compute_dtype. unfold_M.
  intros Hrun.
  repeat (case_match; simplify_eq; simpl in *); repeat split;
    congruence.
Qed.

End PrecisionMore.

Lemma default_precision_is_never_float32_witness :
  exists dt' mkw' rt',
    determine_torch_dtype Fixture.env0
      (model_info_of Fixture.llama2_7b_chat
         (get_model_tokenizer_llama2 Fixture.env0))
      "/cache/ms/modelscope/Llama-2-7b-chat-ms" None empty_model_kwargs
      Fixture.rt0 = (inr (dt', mkw'), rt')
    ∧ dt' <> Some float32.
Proof.
  assert (Hrun : exists dt' mkw' rt',
    determine_torch_dtype Fixture.env0
      (model_info_of Fixture.llama2_7b_chat
         (get_model_tokenizer_llama2 Fixture.env0))
      "/cache/ms/modelscope/Llama-2-7b-chat-ms" None empty_model_kwargs
      Fixture.rt0 = (inr (dt', mkw'), rt'))
    by (vm_compute; do 3 eexists; reflexivity).
  destruct Hrun as (dt' & mkw' & rt' & Hrun).
  exists dt', mkw', rt'. split; [exact Hrun |].
  refine (proj1 (default_precision_is_never_float32 Fixture.env0 _ _ _ _ _ _ _
                   _ Hrun)).
  reflexivity.
Defined.

Lemma bnb_compute_dtype_filled_on_default_path_witness :
  exists dt' mkw' rt',
    determine_torch_dtype Fixture.env0
      (model_info_of Fixture.llama2_7b_chat
         (get_model_tokenizer_llama2 Fixture.env0))
      "/cache/ms/modelscope/Llama-2-7b-chat-ms" None
      (mkModelKwargs (Some "auto") (Some true)
         (Some (BitsAndBytesConfig false true None None)))
      Fixture.rt0 = (inr (dt', mkw'), rt')
    ∧ quantization_config mkw'
      = Some (BitsAndBytesConfig false true dt' None).
Proof.
  assert (Hrun : exists dt' mkw' rt',
    determine_torch_dtype Fixture.env0
      (model_info_of Fixture.llama2_7b_chat
         (get_model_tokenizer_llama2 Fixture.env0))
      "/cache/ms/modelscope/Llama-2-7b-chat-ms" None
      (mkModelKwargs (Some "auto") (Some true)
         (Some (BitsAndBytesConfig false true None None)))
      Fixture.rt0 = (inr (dt', mkw'), rt'))
    by (vm_compute; do 3 eexists; reflexivity).
  destruct Hrun as (dt' & mkw' & rt' & Hrun).
  exists dt', mkw', rt'. split; [exact Hrun |].
  exact (proj2 (proj2 (bnb_compute_dtype_filled_on_default_path Fixture.env0
                         _ _ _ _ _ _ _ _ Hrun))).
Defined.

(** ** Loaders *)

Section LoadersMore.

Context (E : Env).
Implicit Types (dir : string) (rt : Runtime) (kw : gmap string PyVal).

Ltac unfold_loaders :=
  unfold get_model_tokenizer_grok, get_model_tokenizer_orion,
    get_model_tokenizer_internlm_chat, get_model_tokenizer_chatglm,
    get_model_tokenizer_llama2, get_model_tokenizer_with_flash_attn,
    get_model_tokenizer_from_repo, _check_awq_ext, _check_gptq_model,
    require_version, as_optional_config, as_optional_tokenizer in *.

Ltac same_model_loads :=
  unfold model_loads, emit, set_QuantLinear_forward, set_log; simpl;
  rewrite ?List.filter_app; simpl; rewrite ?app_nil_r; reflexivity.

Lemma get_model_tokenizer_from_repo_builds_no_model :
  builds_no_model (get_model_tokenizer_from_repo E).
Proof.
  intros dir dt mkw kw rt. unfold_loaders. unfold_M.
  split; [| split].
  - repeat (case_match; simplify_eq; simpl in *); same_model_loads.
  - repeat (case_match; simplify_eq; simpl in *); reflexivity.
  - intros m tok rt' Hrun.
    repeat (case_match; simplify_eq; simpl in *); reflexivity.
Qed.

(** Finish a goal about a loader that ends in a call of loader [g]. *)
Ltac by_callee lemma :=
  first
    [ match goal with
      | |- context [?g E ?d ?t ?k false ?w ?r] =>
          destruct (lemma d t k w r) as (Hl & Hc & Hm);
          split; [rewrite Hl; same_model_loads |
                  split; [rewrite Hc; reflexivity | exact Hm]]
      end
    | split; [same_model_loads | split; [reflexivity | intros; congruence]] ].

Lemma get_model_tokenizer_with_flash_attn_builds_no_model :
  builds_no_model (get_model_tokenizer_with_flash_attn E).
Proof.
  intros dir dt mkw kw rt.
  unfold get_model_tokenizer_with_flash_attn, as_optional_config. unfold_M.
  destruct (kw !! "model_config") as [[] |];
    try destruct (AutoConfig_from_pretrained E dir);
    by_callee get_model_tokenizer_from_repo_builds_no_model.
Qed.

Lemma get_model_tokenizer_llama2_builds_no_model :
  builds_no_model (get_model_tokenizer_llama2 E).
Proof.
  intros dir dt mkw kw rt. unfold get_model_tokenizer_llama2. unfold_M.
  destruct (AutoConfig_from_pretrained E dir); [by_callee I |].
  case_bool_decide;
    by_callee get_model_tokenizer_with_flash_attn_builds_no_model.
Qed.

Lemma get_model_tokenizer_orion_builds_no_model :
  builds_no_model (get_model_tokenizer_orion E).
Proof.
  intros dir dt mkw kw rt. unfold get_model_tokenizer_orion. unfold_M.
  destruct (AutoConfig_from_pretrained E dir); [by_callee I |].
  case_bool_decide;
    by_callee get_model_tokenizer_from_repo_builds_no_model.
Qed.

Lemma get_model_tokenizer_grok_builds_no_model :
  builds_no_model (get_model_tokenizer_grok E).
Proof.
  intros dir dt mkw kw rt. unfold_loaders. unfold_M.
  split; [| split].
  - repeat (case_match; simplify_eq; simpl in *); same_model_loads.
  - repeat (case_match; simplify_eq; simpl in *); reflexivity.
  - intros m tok rt' Hrun.
    repeat (case_match; simplify_eq; simpl in *); reflexivity.
Qed.

Lemma get_model_tokenizer_internlm_chat_builds_no_model :
  builds_no_model (get_model_tokenizer_internlm_chat E).
Proof.
  intros dir dt mkw kw rt. unfold get_model_tokenizer_internlm_chat.
  unfold_M.
  destruct (get_model_tokenizer_from_repo_builds_no_model dir dt mkw kw rt)
    as (Hl & Hc & Hm).
  destruct (get_model_tokenizer_from_repo E dir dt mkw false kw rt)
    as [[e | [m tok]] rt1]; simpl in *.
  - split; [exact Hl | split; [exact Hc | intros; congruence]].
  - split; [exact Hl | split; [exact Hc |]].
    intros m' tok' rt' Heq. simplify_eq. eauto.
Qed.

Lemma get_model_tokenizer_chatglm_builds_no_model :
  builds_no_model (get_model_tokenizer_chatglm E).
Proof.
  intros dir dt mkw kw rt. unfold get_model_tokenizer_chatglm. unfold_M.
  destruct (version_ge (transformers_version E) (4, 34));
    [destruct (dynamic_tokenizer_from_pretrained E dir) as [e | t]; simpl;
       [split; [same_model_loads | split; [reflexivity | intros; congruence]] |]
    |];
    match goal with
    | |- context [get_model_tokenizer_from_repo E ?d ?t ?k false ?w ?r] =>
        destruct (get_model_tokenizer_from_repo_builds_no_model d t k w r)
          as (Hl & Hc & Hm);
        destruct (get_model_tokenizer_from_repo E d t k false w r)
          as [[e' | [m tok]] rt1]; simpl in *
    end;
    try (split; [rewrite Hl; same_model_loads |
                 split; [rewrite Hc; reflexivity | intros; congruence]]);
    pose proof (Hm _ _ _ eq_refl) as Hnone; subst m; simpl;
    (split; [rewrite Hl; same_model_loads |
             split; [rewrite Hc; reflexivity |
                     intros m' tok' rt' Heq; simplify_eq; reflexivity]]).
Qed.

Lemma partial_builds_no_model f function_kwargs :
  builds_no_model f -> builds_no_model (partial f function_kwargs).
Proof. intros Hf dir dt mkw kw rt. apply Hf. Qed.

Lemma bind_function_kwargs_builds_no_model f function_kwargs :
  builds_no_model f ->
  builds_no_model (bind_function_kwargs function_kwargs f).
Proof.
  intros Hf. unfold bind_function_kwargs.
  case_bool_decide; [apply partial_builds_no_model |]; exact Hf.
Qed.

(** The universal fixups write nothing to the log and do not touch
    [QuantLinear] or [CrossEntropyLoss]. *)
Lemma post_load_fixups_state key dir (m0 : option PreTrainedModel) t0 rt :
  let rt' := (post_load_fixups E key dir m0 t0 rt).2 in
  log rt' = log rt
  ∧ CrossEntropyLoss_forward rt' = CrossEntropyLoss_forward rt
  ∧ QuantLinear_forward rt' = QuantLinear_forward rt
  ∧ QuantLinear_old_forward rt' = QuantLinear_old_forward rt.
Proof.
  simpl. unfold post_load_fixups, reconcile_generation_config,
    fix_gradient_checkpointing_warning. unfold_M.
  destruct rt as [l tc old tm qf qo cel].
  repeat (case_match; simplify_eq; simpl in *); repeat split; reflexivity.
Qed.

Lemma determine_torch_dtype_state info dir dt mkw rt :
  let rt' := (determine_torch_dtype E info dir dt mkw rt).2 in
  model_loads rt' = model_loads rt
  ∧ CrossEntropyLoss_forward rt' = CrossEntropyLoss_forward rt.
Proof.
  simpl. unfold determine_torch_dtype, get_torch_dtype. unfold_M.
  repeat (case_match; simplify_eq; simpl in *);
    (split; [same_model_loads | reflexivity]).
Qed.

Lemma safe_snapshot_download_state MODEL_MAPPING key id rev kw rt :
  let rt' := (safe_snapshot_download E MODEL_MAPPING key id rev kw rt).2 in
  model_loads rt' = model_loads rt
  ∧ CrossEntropyLoss_forward rt' = CrossEntropyLoss_forward rt.
Proof.
  simpl. unfold safe_snapshot_download, as_optional_str. unfold_M.
  repeat (case_match; simplify_eq; simpl in *);
    (split; [same_model_loads | reflexivity]).
Qed.

Lemma after_requires_state info rt :
  model_loads (after_requires E info rt) = model_loads rt
  ∧ CrossEntropyLoss_forward (after_requires E info rt)
    = CrossEntropyLoss_forward rt.
Proof.
  split; [| reflexivity].
  unfold model_loads, after_requires, emit_all, set_log. simpl.
  rewrite List.filter_app.
  assert (Hnone : forall rs,
            List.filter is_model_load (EvRequireVersion <$> rs) = []).
  { induction rs as [| x rs IH]; [reflexivity | exact IH]. }
  rewrite Hnone. apply app_nil_r.
Qed.

(** X11. Tokenizer-only resolution does what it says for every entry whose
    loader is one of the shared loader, the flash-attention, llama2, orion,
    grok, internlm-chat and chatglm loaders, with or without bound
    [function_kwargs]: however the call ends, no model has been constructed
    and [CrossEntropyLoss] has not been patched, and when it returns, the
    model it returns is [None]. *)
Theorem tokenizer_only_resolution_builds_no_model
    (MODEL_MAPPING : gmap string ModelInfo) key info dt mk id rev kw rt :
  MODEL_MAPPING !! key = Some info ->
  (builds_no_model (info_get_function info) ->
   let out := get_model_tokenizer E MODEL_MAPPING key dt mk false id rev kw rt in
   model_loads out.2 = model_loads rt
   ∧ CrossEntropyLoss_forward out.2 = CrossEntropyLoss_forward rt
   ∧ forall model tok rt', out = (inr (model, tok), rt') -> model = None)
  ∧ builds_no_model (get_model_tokenizer_from_repo E)
  ∧ builds_no_model (get_model_tokenizer_with_flash_attn E)
  ∧ builds_no_model (get_model_tokenizer_llama2 E)
  ∧ builds_no_model (get_model_tokenizer_orion E)
  ∧ builds_no_model (get_model_tokenizer_grok E)
  ∧ builds_no_model (get_model_tokenizer_internlm_chat E)
  ∧ builds_no_model (get_model_tokenizer_chatglm E)
  ∧ forall f function_kwargs,
      builds_no_model f ->
      builds_no_model (bind_function_kwargs function_kwargs f).
Proof.
  intros Hin.
  split;
    [intros Hf
    | split; [exact get_model_tokenizer_from_repo_builds_no_model |];
       split; [exact get_model_tokenizer_with_flash_attn_builds_no_model |];
       split; [exact get_model_tokenizer_llama2_builds_no_model |];
       split; [exact get_model_tokenizer_orion_builds_no_model |];
       split; [exact get_model_tokenizer_grok_builds_no_model |];
       split; [exact get_model_tokenizer_internlm_chat_builds_no_model |];
       split; [exact get_model_tokenizer_chatglm_builds_no_model |];
       exact bind_function_kwargs_builds_no_model].
  simpl.
  destruct (safe_snapshot_download_state MODEL_MAPPING key id rev
              (model_dir_kwarg kw) rt) as (Hl1 & Hc1).
  destruct (safe_snapshot_download E MODEL_MAPPING key id rev
              (model_dir_kwarg kw) rt) as [[e | dir] rt1] eqn:Hdl;
    simpl in Hl1, Hc1.
  - rewrite (get_model_tokenizer_download_failed _ _ _ _ _ _ _ _ _ _ _ _ Hdl).
    simpl. split; [exact Hl1 | split; [exact Hc1 | intros; congruence]].
  - rewrite (get_model_tokenizer_run _ _ _ _ _ _ _ _ _ _ _ _ _ Hin Hdl).
    destruct (after_requires_state info rt1) as (Hl2 & Hc2).
    destruct (first_unmet E (info_requires info)); simpl.
    + split; [etransitivity; [exact Hl2 | exact Hl1] |].
      split; [etransitivity; [exact Hc2 | exact Hc1] | intros; congruence].
    + destruct (determine_torch_dtype_state info dir dt
                  (default_model_kwargs E mk) (after_requires E info rt1))
        as (Hl3 & Hc3).
      destruct (determine_torch_dtype E info dir dt _ _)
        as [[e | [dt' mkw']] rt3]; simpl in Hl3, Hc3; simpl.
      * split; [etransitivity; [exact Hl3 |];
                etransitivity; [exact Hl2 | exact Hl1] |].
        split; [etransitivity; [exact Hc3 |];
                etransitivity; [exact Hc2 | exact Hc1] | intros; congruence].
      * unfold invoke_get_function. unfold tell, mbind, M_bind.
        destruct (Hf dir dt' mkw' (loader_kwargs info (delete "model_dir" kw))
                    (emit (EvGetFunction dir dt' false) rt3))
          as (Hl4 & Hc4 & Hm4).
        destruct (info_get_function info dir dt' mkw' false _ _)
          as [[e | [m0 t0]] rt4]; simpl in Hl4, Hc4.
        -- simpl. split; [| split; [| intros; congruence]].
           ++ rewrite Hl4. transitivity (model_loads rt3);
                [same_model_loads |].
              etransitivity; [exact Hl3 |].
              etransitivity; [exact Hl2 | exact Hl1].
           ++ rewrite Hc4. simpl.
              etransitivity; [exact Hc3 |].
              etransitivity; [exact Hc2 | exact Hc1].
        -- pose proof (Hm4 m0 t0 rt4 eq_refl) as ->.
           destruct (post_load_fixups_state key dir None t0 rt4)
             as (Hl5 & Hc5 & _).
           simpl in Hl5, Hc5.
           split; [| split].
           ++ unfold model_loads. rewrite Hl5. fold (model_loads rt4).
              rewrite Hl4. transitivity (model_loads rt3);
                [same_model_loads |].
              etransitivity; [exact Hl3 |].
              etransitivity; [exact Hl2 | exact Hl1].
           ++ rewrite Hc5, Hc4. simpl.
              etransitivity; [exact Hc3 |].
              etransitivity; [exact Hc2 | exact Hc1].
           ++ intros model tok rt' Hrun.
              apply post_load_fixups_inv in Hrun as (_ & _ & _ & _ & _ & Hmodel).
              destruct model; [contradiction | reflexivity].
Qed.

(** X12. A [model_config] passed by the caller breaks the loaders that take
    only [**kwargs] and pass their own config on by name: the llama2 and
    orion loaders read the config from the checkpoint and then raise
    [TypeError], whatever the keyword holds, before any tokenizer or model
    is built. *)
Theorem injected_model_config_is_a_TypeError dir dt mkw lm kw rt c :
  is_Some (kw !! "model_config") ->
  AutoConfig_from_pretrained E dir = inr c ->
  get_model_tokenizer_llama2 E dir dt mkw lm kw rt
    = (inl (TypeError "got multiple values for keyword argument 'model_config'"),
       emit (EvConfigFromPretrained dir) rt)
  ∧ get_model_tokenizer_orion E dir dt mkw lm kw rt
    = (inl (TypeError "got multiple values for keyword argument 'model_config'"),
       emit (EvConfigFromPretrained dir) rt).
Proof.
  intros Hsome Hcfg.
  unfold get_model_tokenizer_llama2, get_model_tokenizer_orion. unfold_M.
  rewrite Hcfg.
  rewrite lookup_delete_ne by discriminate.
  rewrite bool_decide_eq_true_2 by exact Hsome.
  split; reflexivity.
Qed.




End LoadersMore.

Lemma tokenizer_only_resolution_builds_no_model_witness :
  model_loads
    (get_model_tokenizer Fixture.env0 Fixture.catalog0 "chatglm3-6b" None None
       false None None ∅ Fixture.rt0).2
  = model_loads Fixture.rt0.
Proof.
  destruct (tokenizer_only_resolution_builds_no_model Fixture.env0
              Fixture.catalog0 "chatglm3-6b"
              (model_info_of Fixture.chatglm3_6b
                 (get_model_tokenizer_chatglm Fixture.env0))
              None None None None ∅ Fixture.rt0 ltac:(reflexivity))
    as (Hpipe & _ & _ & _ & _ & _ & _ & Hchatglm & Hbind).
  exact (proj1 (Hpipe (Hbind _ ∅ Hchatglm))).
Defined.

Lemma injected_model_config_is_a_TypeError_witness :
  get_model_tokenizer_llama2 Fixture.env0
    "/cache/ms/modelscope/Llama-2-7b-chat-ms" None empty_model_kwargs false
    {["model_config" := VConfig Fixture.config0]} Fixture.rt0
  = (inl (TypeError "got multiple values for keyword argument 'model_config'"),
     emit (EvConfigFromPretrained "/cache/ms/modelscope/Llama-2-7b-chat-ms")
          Fixture.rt0).
Proof.
  refine (proj1 (injected_model_config_is_a_TypeError Fixture.env0
    "/cache/ms/modelscope/Llama-2-7b-chat-ms" None empty_model_kwargs false
    {["model_config" := VConfig Fixture.config0]} Fixture.rt0
    Fixture.config0 _ _)); [vm_compute; eauto | reflexivity].
Defined.


Section PatchingMore.

Context (E : Env).

(** X14. On a fresh [QuantLinear] class a successful [_check_gptq_model]
    installs the quantization config for the requested bit width, patches
    [QuantLinear.forward] once (any later call leaves the process as it is)
    and every call of the patched forward runs the library's forward with
    the CUDA kernel switched off exactly while the module is training, then
    restores the module's flag. *)
Theorem gptq_forward_is_patched_once bits mkw rt mkw1 rt1 :
  QuantLinear_forward rt = forward_orig ->
  QuantLinear_old_forward rt = None ->
  _check_gptq_model E bits mkw rt = (inr mkw1, rt1) ->
  quantization_config mkw1
    = Some (if version_ge (transformers_version E) (4, 35)
            then GPTQConfig bits (Some false) None None
            else GPTQConfig bits None (Some true) None)
  ∧ device_map mkw1 = device_map mkw
  ∧ log rt1 = log rt
  ∧ (forall bits' mkw', (_check_gptq_model E bits' mkw' rt1).2 = rt1)
  ∧ (forall self depth,
       call_forward (S depth) rt1 (QuantLinear_forward rt1) self
       = inr (autogptq_cuda_available self && negb (training self), self)).
Proof.
  intros Hfwd Hold Hrun.
  assert (Hcfg : quantization_config mkw1
            = Some (if version_ge (transformers_version E) (4, 35)
                    then GPTQConfig bits (Some false) None None
                    else GPTQConfig bits None (Some true) None)
          ∧ device_map mkw1 = device_map mkw ∧ log rt1 = log rt).
  { revert Hrun. unfold _check_gptq_model. unfold_M.
    destruct (bool_decide (quantization_config mkw = None)); [| discriminate].
    destruct (auto_gptq_importable E); [| discriminate]. simpl.
    rewrite Hold. simpl. intros Heq. injection Heq as <- <-.
    repeat split; reflexivity. }
  destruct Hcfg as (Hq & Hd & Hl).
  split; [exact Hq |]. split; [exact Hd |]. split; [exact Hl |].
  split.
  - exact (proj2 (_check_gptq_model_patches_once E bits mkw rt mkw1 rt1 Hrun)).
  - intros self depth.
    exact (_check_gptq_model_forward E bits mkw rt mkw1 rt1 self depth
             Hfwd Hold Hrun).
Qed.

Lemma fix_gradient_checkpointing_warning_times_settles n rt :
  fix_gradient_checkpointing_warning_times E (2 + n) rt
  = fix_gradient_checkpointing_warning_times E 2 rt.
Proof.
  induction n as [| n IH]; [reflexivity |].
  change (fix_gradient_checkpointing_warning_times E (2 + S n) rt)
    with (fix_gradient_checkpointing_warning E
            (fix_gradient_checkpointing_warning_times E (2 + n) rt)).2.
  rewrite IH.
  exact (fix_gradient_checkpointing_warning_settles E rt).
Qed.

Lemma fix_gradient_checkpointing_warning_times_torch n rt :
  torch_checkpoint (fix_gradient_checkpointing_warning_times E (S n) rt)
  = torch_checkpoint (fix_gradient_checkpointing_warning E rt).2
  ∧ torch_old_checkpoint (fix_gradient_checkpointing_warning_times E (S n) rt)
    = torch_old_checkpoint (fix_gradient_checkpointing_warning E rt).2.
Proof.
  destruct n as [| n]; [split; reflexivity |].
  replace (S (S n)) with (2 + n)%nat by reflexivity.
  rewrite fix_gradient_checkpointing_warning_times_settles.
  exact (fix_gradient_checkpointing_warning_torch_stable E rt).
Qed.

(** X15. However often [fix_gradient_checkpointing_warning] runs, the
    patching stays bounded: before torch 2 it changes nothing; otherwise the
    process state reached by two calls is final, the rebound
    [transformers.modeling_utils.checkpoint] is never more than two lambdas
    deeper than the function found in [torch.utils.checkpoint], and
    [torch.utils.checkpoint.checkpoint] is the one lambda of the first call,
    which hands the library an explicit [use_reentrant]: the caller's when
    given, the release's default otherwise. *)
Theorem checkpoint_patching_is_bounded n rt :
  (version_lt (torch_version E) (2, 0) = true ->
   fix_gradient_checkpointing_warning_times E n rt = rt)
  ∧ fix_gradient_checkpointing_warning_times E (2 + n) rt
    = fix_gradient_checkpointing_warning_times E 2 rt
  ∧ (version_lt (torch_version E) (2, 0) = false ->
     torch_old_checkpoint rt = None ->
     (forall f,
        transformers_checkpoint
          (fix_gradient_checkpointing_warning_times E n rt) = Some f ->
        n = 0%nat
        ∨ (wrap_depth f <= 2 + wrap_depth (torch_checkpoint rt))%nat)
     ∧ forall arg,
         call_checkpoint
           (torch_checkpoint
              (fix_gradient_checkpointing_warning_times E (S n) rt)) arg
         = call_checkpoint (torch_checkpoint rt)
             (Some (default (use_reentrant_for (torch_version E)) arg))).
Proof.
  split; [| split].
  - intros Hv. induction n as [| n IH]; [reflexivity |].
    simpl. rewrite IH. unfold fix_gradient_checkpointing_warning. unfold_M.
    rewrite Hv. reflexivity.
  - apply fix_gradient_checkpointing_warning_times_settles.
  - intros Hv Hold. split.
    + intros f Hf.
      destruct n as [| [| n]]; [left; reflexivity | right | right].
      * revert Hf. simpl.
        unfold fix_gradient_checkpointing_warning. unfold_M. rewrite Hv.
        destruct rt as [l tc old [tm |] qf qo cel]; simpl in Hold; subst old;
          simpl; intros Hf; simplify_eq; simpl; lia.
      * replace (S (S n)) with (2 + n)%nat in Hf by reflexivity.
        rewrite fix_gradient_checkpointing_warning_times_settles in Hf.
        revert Hf. simpl.
        unfold fix_gradient_checkpointing_warning. unfold_M. rewrite Hv.
        destruct rt as [l tc old [tm |] qf qo cel]; simpl in Hold; subst old;
          simpl; intros Hf; simplify_eq; simpl; lia.
    + intros arg.
      rewrite (proj1 (fix_gradient_checkpointing_warning_times_torch n rt)).
      unfold fix_gradient_checkpointing_warning. unfold_M. rewrite Hv.
      unfold use_reentrant_for.
      destruct rt as [l tc old [tm |] qf qo cel]; simpl in Hold; subst old;
        reflexivity.
Qed.

End PatchingMore.

Lemma gptq_forward_is_patched_once_witness :
  exists mkw1 rt1,
    _check_gptq_model Installations.env_quant 4 empty_model_kwargs Fixture.rt0
      = (inr mkw1, rt1)
    ∧ quantization_config mkw1 = Some (GPTQConfig 4 (Some false) None None)
    ∧ call_forward 1 rt1 (QuantLinear_forward rt1) (mkQuantLinear true true)
      = inr (false, mkQuantLinear true true).
Proof.
  assert (Hrun : exists mkw1 rt1,
    _check_gptq_model Installations.env_quant 4 empty_model_kwargs Fixture.rt0
      = (inr mkw1, rt1))
    by (vm_compute; do 2 eexists; reflexivity).
  destruct Hrun as (mkw1 & rt1 & Hrun).
  exists mkw1, rt1. split; [exact Hrun |].
  destruct (gptq_forward_is_patched_once Installations.env_quant 4
              empty_model_kwargs Fixture.rt0 mkw1 rt1 eq_refl eq_refl Hrun)
    as (Hq & _ & _ & _ & Hcall).
  split; [exact Hq | exact (Hcall (mkQuantLinear true true) 0%nat)].
Defined.

Lemma prefix_occurs key s :
  String.prefix key s = true <-> exists post, s = key +:+ post.
Proof.
  revert s. induction key as [| a key IH]; intros s.
  - split; [intros _; exists s; reflexivity | intros _; destruct s; reflexivity].
  - destruct s as [| b s]; simpl.
    + split; [discriminate | intros [post Hpost]; discriminate].
    + destruct (Ascii.ascii_dec a b) as [-> | Hne].
      * rewrite IH. split; intros [post Hpost]; exists post.
        -- rewrite Hpost. reflexivity.
        -- simpl in Hpost. injection Hpost as ->. reflexivity.
      * split; [discriminate |].
        intros [post Hpost]. injection Hpost as Hab _. congruence.
Qed.

Lemma str_contains_occurs key s :
  str_contains key s = true <-> occurs key s.
Proof.
  unfold occurs. induction s as [| b s IH].
  - change (str_contains key EmptyString)
      with (String.prefix key EmptyString || false).
    rewrite orb_false_r, prefix_occurs. split.
    + intros [post Hpost]. exists EmptyString, post. exact Hpost.
    + intros (pre & post & Heq). destruct pre as [| c pre]; [| discriminate].
      exists post. exact Heq.
  - change (str_contains key (String b s))
      with (String.prefix key (String b s) || str_contains key s).
    rewrite orb_true_iff, prefix_occurs, IH. split.
    + intros [[post Hpost] | (pre & post & Heq)].
      * exists EmptyString, post. exact Hpost.
      * exists (String b pre), post. simpl. rewrite Heq. reflexivity.
    + intros (pre & post & Heq). destruct pre as [| c pre].
      * left. exists post. exact Heq.
      * right. simpl in Heq. injection Heq as -> ->.
        exists pre, post. reflexivity.
Qed.

(** X16. [get_additional_saved_files] goes by substring, first match in
    the order the table is written: a model type that mentions [qwen-vl]
    gets the font file, otherwise one that mentions [qwen-audio] the mel
    filters, otherwise one that mentions [yi-vl] the [vit] directory, and
    the result is empty exactly when the type mentions none of the three. *)
Theorem additional_saved_files_by_substring model_type_ :
  (occurs "qwen-vl" model_type_ ->
   get_additional_saved_files model_type_ = ["SimSun.ttf"])
  ∧ (~ occurs "qwen-vl" model_type_ -> occurs "qwen-audio" model_type_ ->
     get_additional_saved_files model_type_ = ["mel_filters.npz"])
  ∧ (~ occurs "qwen-vl" model_type_ -> ~ occurs "qwen-audio" model_type_ ->
     occurs "yi-vl" model_type_ ->
     get_additional_saved_files model_type_ = ["vit"])
  ∧ (get_additional_saved_files model_type_ = []
     <-> ~ occurs "qwen-vl" model_type_ ∧ ~ occurs "qwen-audio" model_type_
         ∧ ~ occurs "yi-vl" model_type_).
Proof.
  unfold get_additional_saved_files, files_mapping.
  cbn [List.find fst snd].
  rewrite <- !str_contains_occurs.
  destruct (str_contains "qwen-vl" model_type_);
    destruct (str_contains "qwen-audio" model_type_);
    destruct (str_contains "yi-vl" model_type_);
    repeat split; try (intros; congruence); try discriminate;
    intros (? & ? & ?); congruence.
Qed.

Lemma additional_saved_files_by_substring_witness :
  get_additional_saved_files "qwen-vl-chat-int4" = ["SimSun.ttf"].
Proof.
  apply (proj1 (additional_saved_files_by_substring "qwen-vl-chat-int4")).
  exists EmptyString, "-chat-int4"%string. reflexivity.
Defined.

(** * Properties of the interactive loop *)

Ltac unfold_IO :=
  unfold input, read_multi_line, print, print_flush, emit_output, read_reply,
    request, append_to_jsonl, io_raise, io_lift, local, first_response,
    end_of_generator, get_session, mbind, mret, IO_bind, IO_ret in *.

Lemma only_prints_refl s : only_prints s s.
Proof.
  repeat split. exists []. rewrite app_nil_r. reflexivity.
Qed.

Lemma only_prints_trans s1 s2 s3 :
  only_prints s1 s2 -> only_prints s2 s3 -> only_prints s1 s3.
Proof.
  intros (Hi & Hr & Hj & o & Ho) (Hi' & Hr' & Hj' & o' & Ho').
  repeat split; try congruence.
  exists (o ++ o'). rewrite Ho', Ho, app_assoc. reflexivity.
Qed.

Lemma emit_output_only_prints o s :
  only_prints s (mkSession (stdin s) (stdout s ++ [o]) (requests s) (jsonl s)).
Proof. repeat split. exists [o]. reflexivity. Qed.

Lemma same_dialogue_refl l : same_dialogue l l.
Proof. repeat split. Qed.

Lemma same_dialogue_set_response l l' r h :
  same_dialogue l l' -> same_dialogue l (set_response l' r h).
Proof. intros (? & ? & ? & ? & ? & ?). repeat split; assumption. Qed.

Lemma print_delta_run r i s :
  exists i' s', print_delta r i s = (inr i', s') ∧ only_prints s s'.
Proof.
  unfold print_delta. unfold_IO.
  destruct (i <? String.length r)%nat; simpl.
  - eexists _, _. split; [reflexivity | apply emit_output_only_prints].
  - eexists _, _. split; [reflexivity | apply only_prints_refl].
Qed.

Lemma print_stream_run gen i l s :
  exists l' s',
    print_stream gen i l s = (inr l', s')
    ∧ only_prints s s' ∧ same_dialogue l l'
    ∧ (gen <> [] -> is_Some (response l') ∧ is_Some (new_history l')).
Proof.
  revert i l s. induction gen as [| [r h] gen IH]; intros i l s.
  - exists l, s. split; [reflexivity |].
    split; [apply only_prints_refl |]. split; [apply same_dialogue_refl |].
    intros Hne. contradiction.
  - simpl. unfold mbind, IO_bind.
    destruct (print_delta_run r i s) as (i' & s1 & -> & Hp1).
    destruct (IH i' (set_response l r h) s1) as (l' & s' & Hrun & Hp2 & Hd & Hr).
    exists l', s'. split; [exact Hrun |].
    split; [exact (only_prints_trans _ _ _ Hp1 Hp2) |].
    split.
    + destruct Hd as (? & ? & ? & ? & ? & ?). repeat split; assumption.
    + intros _. destruct gen as [| g gen'].
      * simpl in Hrun. unfold mret, IO_ret in Hrun.
        injection Hrun as <- <-. simpl. split; eauto.
      * apply Hr. discriminate.
Qed.

Lemma print_stream_vllm_run gen i l s out s' :
  print_stream_vllm gen i l s = (out, s') ->
  only_prints s s'
  ∧ forall l', out = inr l' ->
      same_dialogue l l'
      ∧ (gen <> [] -> is_Some (response l') ∧ is_Some (new_history l')).
Proof.
  revert i l s. induction gen as [| resp_list gen IH]; intros i l s.
  - simpl. unfold mret, IO_ret. intros [= <- <-].
    split; [apply only_prints_refl |]. intros l' [= <-].
    split; [apply same_dialogue_refl | intros Hne; contradiction].
  - simpl. unfold mbind, IO_bind, first_response.
    destruct resp_list as [| [r h] rest]; unfold io_raise, mret, IO_ret.
    + intros [= <- <-]. split; [apply only_prints_refl | discriminate].
    + destruct (print_delta_run r i s) as (i' & s1 & -> & Hp1).
      intros Hrun. pose proof Hrun as Hrun'.
      apply IH in Hrun as (Hp2 & Hl).
      split; [exact (only_prints_trans _ _ _ Hp1 Hp2) |].
      intros l' ->. destruct (Hl l' eq_refl) as (Hd & Hr).
      split.
      * destruct Hd as (? & ? & ? & ? & ? & ?). repeat split; assumption.
      * intros _. destruct gen as [| g gen'].
        -- simpl in Hrun'. unfold mret, IO_ret in Hrun'.
           injection Hrun' as <- <-. simpl. split; eauto.
        -- apply Hr. discriminate.
Qed.

Lemma read_media_file_spec k mode s out s' :
  read_media_file k mode s = (out, s') ->
  requests s' = requests s ∧ jsonl s' = jsonl s
  ∧ (exists o, stdout s' = stdout s ++ o)
  ∧ (exists consumed,
       stdin s = consumed ++ stdin s' ∧ (length consumed <= 1)%nat
       ∧ forall k', out = inr k' ->
           kw_stop_words k' = kw_stop_words k
           ∧ exists image,
               default [] (kw_images k') = default [] (kw_images k) ++ image
               ∧ (length image <= length consumed)%nat
               ∧ Forall (fun i => i ∈ consumed ∧ i <> "") image)
  ∧ (out = inl EOFError ∨ exists k', out = inr k').
Proof.
  unfold read_media_file. unfold_IO.
  destruct (String.eqb mode "none").
  { intros [= <- <-]. split; [reflexivity |]. split; [reflexivity |].
    split; [exists []; rewrite app_nil_r; reflexivity |].
    split; [| right; eauto].
    exists []. split; [reflexivity |]. split; [simpl; lia |].
    intros k' [= <-]. split; [reflexivity |].
    exists []. rewrite app_nil_r. split; [reflexivity |].
    split; [simpl; lia | constructor]. }
  destruct (String.eqb mode "round" || Nat.eqb (length (default [] (kw_images k))) 0)
    eqn:Hask; simpl.
  - destruct (stdin s) as [| image rest] eqn:Hin; simpl.
    + intros [= <- <-]. simpl. split; [reflexivity |]. split; [reflexivity |].
      split; [eexists; reflexivity |].
      split; [| left; reflexivity].
      exists []. split; [reflexivity |]. split; [simpl; lia |].
      discriminate.
    + destruct (0 <? String.length image)%nat eqn:Hlen; simpl.
      * assert (Hpos : (0 <? length (default [] (kw_images k) ++ [image]))%nat
                       = true).
        { apply Nat.ltb_lt. rewrite length_app. simpl. lia. }
        rewrite Hpos. intros [= <- <-]. simpl.
        split; [reflexivity |]. split; [reflexivity |].
        split; [eexists; reflexivity |].
        split; [| right; eauto].
        exists [image]. split; [reflexivity |]. split; [simpl; lia |].
        intros k' [= <-]. split; [reflexivity |].
        exists [image]. simpl. split; [reflexivity |]. split; [lia |].
        constructor; [| constructor]. split; [set_solver |].
        intros ->. simpl in Hlen. discriminate.
      * destruct (0 <? length (default [] (kw_images k)))%nat eqn:Hpos;
          intros [= <- <-]; simpl;
          (split; [reflexivity |]; split; [reflexivity |];
           split; [eexists; reflexivity |];
           split; [| right; eauto];
           exists [image]; split; [reflexivity |]; split; [simpl; lia |];
           intros k' [= <-]; split; [reflexivity |];
           exists []; rewrite app_nil_r; split; [| split; [simpl; lia | constructor]]).
        -- reflexivity.
        -- reflexivity.
  - destruct (0 <? length (default [] (kw_images k)))%nat eqn:Hpos;
      intros [= <- <-]; simpl;
      (split; [reflexivity |]; split; [reflexivity |];
       split; [exists []; rewrite app_nil_r; reflexivity |];
       split; [| right; eauto];
       exists []; split; [reflexivity |]; split; [simpl; lia |];
       intros k' [= <-]; split; [reflexivity |];
       exists []; rewrite app_nil_r; split; [| split; [simpl; lia | constructor]]);
      reflexivity.
Qed.

Lemma read_media_file_images k mode s k' s' :
  read_media_file k mode s = (inr k', s') ->
  kw_images k' = kw_images k ∨ exists i l, kw_images k' = Some (i :: l).
Proof.
  unfold read_media_file. unfold_IO.
  destruct (String.eqb mode "none"); [intros [= <- <-]; left; reflexivity |].
  destruct (String.eqb mode "round"
            || Nat.eqb (length (default [] (kw_images k))) 0); simpl.
  - destruct (stdin s) as [| image rest]; simpl; [discriminate |].
    destruct (0 <? String.length image)%nat; simpl.
    + destruct (default [] (kw_images k) ++ [image]) as [| i l] eqn:Happ;
        simpl; intros [= <- <-]; [left; reflexivity |].
      right. exists i, l. reflexivity.
    + destruct (default [] (kw_images k)) as [| i l]; simpl;
        intros [= <- <-]; [left; reflexivity |].
      right. exists i, l. reflexivity.
  - destruct (default [] (kw_images k)) as [| i l]; simpl;
      intros [= <- <-]; [left; reflexivity |].
    right. exists i, l. reflexivity.
Qed.

(** X17. [read_media_file] asks for at most one media file per call and
    only ever adds to the list: with media type [none] it does nothing;
    with a type other than [round] and media already present it asks
    nothing and leaves everything as it is; in every case it reads at most
    one reply, keeps the media already there and the stop words, appends
    the reply unless it is empty, and never leaves an empty list where
    there was none. *)
Theorem read_media_file_asks_at_most_once k mode s :
  let run := read_media_file k mode s in
  (mode = "none" -> run = (inr k, s))
  ∧ (mode <> "none" -> mode <> "round" ->
     default [] (kw_images k) <> [] -> run = (inr k, s))
  ∧ requests run.2 = requests s ∧ jsonl run.2 = jsonl s
  ∧ (exists consumed,
       stdin s = consumed ++ stdin run.2 ∧ (length consumed <= 1)%nat
       ∧ forall k', run.1 = inr k' ->
           kw_stop_words k' = kw_stop_words k
           ∧ exists image,
               default [] (kw_images k') = default [] (kw_images k) ++ image
               ∧ (length image <= length consumed)%nat
               ∧ Forall (fun i => i ∈ consumed ∧ i <> "") image)
  ∧ (kw_images k <> Some [] ->
     forall k', run.1 = inr k' -> kw_images k' <> Some []).
Proof.
  cbv zeta.
  split; [intros ->; reflexivity |].
  split.
  { intros Hnone Hround Himages. unfold read_media_file. unfold_IO.
    apply String.eqb_neq in Hnone, Hround. rewrite Hnone, Hround.
    destruct k as [[[| i l] |] sw]; simpl in Himages |- *;
      try contradiction. reflexivity. }
  destruct (read_media_file k mode s) as [out s'] eqn:Hrun.
  pose proof Hrun as Hrun'.
  apply read_media_file_spec in Hrun as (Hr & Hj & _ & Hconsumed & _).
  split; [exact Hr |]. split; [exact Hj |]. split; [exact Hconsumed |].
  simpl. intros Hne k' ->.
  destruct (read_media_file_images _ _ _ _ _ Hrun') as [-> | (i & l & ->)];
    [exact Hne | discriminate].
Qed.

Lemma read_media_file_asks_at_most_once_witness :
  read_media_file (mkInferKwargs (Some ["a.png"]) None) "dialogue"
    (Console.session ["b.png"])
  = (inr (mkInferKwargs (Some ["a.png"]) None), Console.session ["b.png"]).
Proof.
  apply (proj1 (proj2 (read_media_file_asks_at_most_once
                         (mkInferKwargs (Some ["a.png"]) None) "dialogue"
                         (Console.session ["b.png"])))); discriminate.
Defined.

Section DialogueFacts.

Context (C : Chat) (args : DialogueArguments).
Context (support_multi_round : bool) (jsonl_path : option string).

Lemma infer_round_spec query l s out s' :
  infer_round C args query l s = (out, s') ->
  stdin s' = stdin s ∧ jsonl s' = jsonl s
  ∧ (exists o, stdout s' = stdout s ++ o)
  ∧ (exists r,
       requests s' = requests s ++ [r]
       ∧ req_query r = query ∧ req_history r = history l
       ∧ req_system r = system l
       ∧ (req_images r = []
          ∨ req_images r = default [] (kw_images (infer_kwargs l))))
  ∧ forall l', out = inr l' ->
      input_mode l' = input_mode l ∧ read_system l' = read_system l
      ∧ system l' = system l ∧ history l' = history l
      ∧ result l' = result l
      ∧ kw_images (infer_kwargs l') = kw_images (infer_kwargs l).
Proof.
  unfold infer_round.
  destruct (String.eqb (args_infer_backend args) "vllm").
  - destruct (args_stream args).
    + unfold request, print, emit_output, end_of_generator, io_raise, mbind,
        mret, IO_bind, IO_ret.
      match goal with
      | |- context [print_stream_vllm ?g ?i ?l0 ?s0] =>
          destruct (print_stream_vllm g i l0 s0) as [[e | l1] s1] eqn:Hps;
          apply print_stream_vllm_run in Hps
            as ((Hi & Hr & Hj & o & Ho) & Hl)
      end; simpl in Hi, Hr, Hj, Ho.
      * intros [= <- <-].
        split; [exact Hi |]. split; [exact Hj |]. split; [eauto |].
        split; [| discriminate].
        eexists. split; [exact Hr |]. simpl. repeat split. left; reflexivity.
      * destruct (Hl l1 eq_refl) as ((? & ? & ? & ? & Hk & ?) & _).
        destruct (inference_stream_vllm C query (history l) (system l)).2;
          intros [= <- <-]; simpl.
        -- split; [exact Hi |]. split; [exact Hj |]. split; [eauto |].
           split; [| discriminate].
           eexists. split; [exact Hr |]. simpl. repeat split.
           left; reflexivity.
        -- split; [exact Hi |]. split; [exact Hj |].
           split; [exists (o ++ [Printed "" newline]); rewrite Ho, app_assoc;
                   reflexivity |].
           split.
           ++ eexists. split; [exact Hr |]. simpl. repeat split.
              left; reflexivity.
           ++ intros l' [= <-]. rewrite Hk. repeat split; assumption.
    + unfold request, print, emit_output, first_response, io_lift, io_raise,
        mbind, mret, IO_bind, IO_ret.
      destruct (inference_vllm C query (history l) (system l))
        as [e | [| [r h] rest]]; intros [= <- <-]; simpl;
        (split; [reflexivity |]; split; [reflexivity |]).
      * split; [exists []; rewrite app_nil_r; reflexivity |].
        split; [| discriminate].
        eexists. split; [reflexivity |]. simpl. repeat split.
        left; reflexivity.
      * split; [exists []; rewrite app_nil_r; reflexivity |].
        split; [| discriminate].
        eexists. split; [reflexivity |]. simpl. repeat split.
        left; reflexivity.
      * split; [eexists; reflexivity |].
        split.
        -- eexists. split; [reflexivity |]. simpl. repeat split.
           left; reflexivity.
        -- intros l' [= <-]. repeat split.
  - set (l0 := match args_stop_words args with
               | Some (w :: ws) =>
                   set_infer_kwargs l
                     (set_kw_stop_words (infer_kwargs l) (w :: ws))
               | _ => l
               end).
    assert (Hl0 : input_mode l0 = input_mode l ∧ read_system l0 = read_system l
                  ∧ system l0 = system l ∧ history l0 = history l
                  ∧ result l0 = result l
                  ∧ kw_images (infer_kwargs l0) = kw_images (infer_kwargs l)).
    { subst l0. destruct (args_stop_words args) as [[| w ws] |];
        repeat split. }
    destruct Hl0 as (Hm0 & Hr0 & Hs0 & Hh0 & Hres0 & Hk0).
    destruct (args_stream args).
    + unfold request, print, emit_output, end_of_generator, io_raise, mbind,
        mret, IO_bind, IO_ret.
      match goal with
      | |- context [print_stream ?g ?i ?l1 ?s1] =>
          destruct (print_stream_run g i l1 s1)
            as (l2 & s2 & -> & (Hi & Hr & Hj & o & Ho)
                & (? & ? & ? & ? & Hk & ?) & _)
      end; simpl in Hi, Hr, Hj, Ho.
      destruct (inference_stream C query (history l0) (system l0)
                  (infer_kwargs l0)).2;
        intros [= <- <-]; simpl.
      * split; [exact Hi |]. split; [exact Hj |]. split; [eauto |].
        split; [| discriminate].
        eexists. split; [exact Hr |]. simpl. rewrite Hh0, Hs0, Hk0.
        repeat split. right; reflexivity.
      * split; [exact Hi |]. split; [exact Hj |].
        split; [exists (o ++ [Printed "" newline]); rewrite Ho, app_assoc;
                reflexivity |].
        split.
        -- eexists. split; [exact Hr |]. simpl. rewrite Hh0, Hs0, Hk0.
           repeat split. right; reflexivity.
        -- intros l' [= <-]. rewrite Hk. repeat split; congruence.
    + unfold request, print, emit_output, io_lift, mbind, mret, IO_bind,
        IO_ret.
      destruct (inference C query (history l0) (system l0) (infer_kwargs l0))
        as [e | [r h]]; intros [= <- <-]; simpl;
        (split; [reflexivity |]; split; [reflexivity |]).
      * split; [exists []; rewrite app_nil_r; reflexivity |].
        split; [| discriminate].
        eexists. split; [reflexivity |]. simpl. rewrite Hh0, Hs0, Hk0.
        repeat split. right; reflexivity.
      * split; [eexists; reflexivity |].
        split.
        -- eexists. split; [reflexivity |]. simpl. rewrite Hh0, Hs0, Hk0.
           repeat split. right; reflexivity.
        -- intros l' [= <-]. repeat split; assumption.
Qed.

(** Reading the reply of a round. *)
Lemma read_query_spec l s :
  let read :=
    match input_mode l with
    | mode_S =>
        let addi_prompt := if read_system l then "[S]" else "" in
        input ("<<<" +:+ addi_prompt +:+ " ")
    | mode_M =>
        let addi_prompt := if read_system l then "[MS]" else "[M]" in
        read_multi_line addi_prompt
    end in
  exists o,
    match stdin s with
    | [] => read s = (inl EOFError,
                      mkSession [] (stdout s ++ [o]) (requests s) (jsonl s))
    | q :: rest =>
        read s = (inr q, mkSession rest (stdout s ++ [o]) (requests s)
                                   (jsonl s))
    end.
Proof.
  unfold input, read_multi_line, emit_output, read_reply, mbind, IO_bind.
  destruct (input_mode l); simpl; eexists;
    destruct (stdin s) eqn:Hin; simpl; rewrite ?Hin; reflexivity.
Qed.

Lemma llm_infer_round_spec l s out s' :
  llm_infer_round C args support_multi_round jsonl_path l s = (out, s') ->
  exists reqs,
    requests s' = requests s ++ reqs
    ∧ (exists o, stdout s' = stdout s ++ o)
    ∧ Forall (fun r =>
                req_system r = system l
                ∧ (support_multi_round = false ->
                   req_history r = [] ∧ (length (req_images r) <= 1)%nat))
             reqs
    ∧ match out with
      | inl _ =>
          (exists consumed, stdin s = consumed ++ stdin s')
          ∧ jsonl s' = jsonl s
      | inr next =>
          exists q media,
            stdin s = q :: media ++ stdin s'
            ∧ match next with
              | Break l' =>
                  l' = l ∧ media = [] ∧ reqs = [] ∧ jsonl s' = jsonl s
                  ∧ (command C q = "exit" ∨ command C q = "quit")
              | Continue l' =>
                  (reqs = [] ∧ media = [] ∧ jsonl s' = jsonl s
                   ∧ result l' = result l
                   ∧ (system l' = system l
                      ∨ (system l' = Some q ∧ is_command C q = false)))
                  ∨ (exists r obj,
                       reqs = [r] ∧ result l' = result l ++ [obj]
                       ∧ jsonl s' = jsonl s ++ jsonl_lines jsonl_path [obj]
                       ∧ req_query r = obj_query obj
                       ∧ req_history r = obj_history obj
                       ∧ obj_query obj = q ∧ system l' = system l
                       ∧ is_command C q = false)
              end
      end.
Proof.
  unfold llm_infer_round.
  destruct (read_query_spec l s) as (o & Hread). cbv zeta in Hread.
  unfold mbind at 1. unfold IO_bind at 1.
  destruct (stdin s) as [| q rest] eqn:Hin; rewrite Hread; clear Hread.
  { intros [= <- <-]. exists []. simpl. rewrite app_nil_r.
    split; [reflexivity |]. split; [eauto |]. split; [constructor |].
    split; [exists []; reflexivity | reflexivity]. }
  set (s1 := mkSession rest (stdout s ++ [o]) (requests s) (jsonl s)).
  assert (Hquiet : forall next,
            match next with
            | Break l' =>
                l' = l ∧ (command C q = "exit" ∨ command C q = "quit")
            | Continue l' =>
                result l' = result l
                ∧ (system l' = system l
                   ∨ (system l' = Some q ∧ is_command C q = false))
            end ->
            (inr next, s1) = (out, s') ->
            exists reqs,
              requests s' = requests s ++ reqs
              ∧ (exists o, stdout s' = stdout s ++ o)
              ∧ Forall (fun r =>
                          req_system r = system l
                          ∧ (support_multi_round = false ->
                             req_history r = []
                             ∧ (length (req_images r) <= 1)%nat))
                       reqs
              ∧ match out with
                | inl _ =>
                    (exists consumed, q :: rest = consumed ++ stdin s')
                    ∧ jsonl s' = jsonl s
                | inr next =>
                    exists q0 media,
                      q :: rest = q0 :: media ++ stdin s'
                      ∧ match next with
                        | Break l' =>
                            l' = l ∧ media = [] ∧ reqs = []
                            ∧ jsonl s' = jsonl s
                            ∧ (command C q0 = "exit" ∨ command C q0 = "quit")
                        | Continue l' =>
                            (reqs = [] ∧ media = [] ∧ jsonl s' = jsonl s
                             ∧ result l' = result l
                             ∧ (system l' = system l
                                ∨ (system l' = Some q0
                                   ∧ is_command C q0 = false)))
                            ∨ (exists r obj,
                                 reqs = [r] ∧ result l' = result l ++ [obj]
                                 ∧ jsonl s' = jsonl s
                                              ++ jsonl_lines jsonl_path [obj]
                                 ∧ req_query r = obj_query obj
                                 ∧ req_history r = obj_history obj
                                 ∧ obj_query obj = q0 ∧ system l' = system l
                                 ∧ is_command C q0 = false)
                        end
                end).
  { intros next Hnext [= <- <-]. exists []. simpl. rewrite app_nil_r.
    split; [reflexivity |]. split; [eauto |]. split; [constructor |].
    exists q, []. split; [reflexivity |].
    destruct next as [l' | l'].
    - destruct Hnext as (Hres & Hsys). left. repeat split; assumption.
    - destruct Hnext as (-> & Hcmd). repeat split. exact Hcmd. }
  unfold mret, IO_ret.
  destruct (String.eqb (command C q) "exit" || String.eqb (command C q) "quit")
    eqn:Hexit.
  { apply Hquiet. split; [reflexivity |].
    apply orb_true_iff in Hexit as [H | H]; apply String.eqb_eq in H; auto. }
  destruct (String.eqb (command C q) "clear") eqn:Hclear.
  { apply Hquiet. split; [reflexivity | left; reflexivity]. }
  destruct (String.eqb (str_strip C q) "") eqn:Hblank.
  { apply Hquiet. split; [reflexivity | left; reflexivity]. }
  destruct (String.eqb (command C q) "reset-system") eqn:Hreset.
  { apply Hquiet. split; [reflexivity | left; reflexivity]. }
  assert (Hcmd : is_command C q = false).
  { unfold is_command. rewrite Hexit, Hclear, Hblank, Hreset. reflexivity. }
  destruct (read_system l) eqn:Hrs.
  { apply Hquiet. split; [reflexivity | right; split; [reflexivity | exact Hcmd]]. }
  destruct (match input_mode l with mode_S => true | mode_M => false end
            && String.eqb (command C q) "multi-line").
  { apply Hquiet. split; [reflexivity | left; reflexivity]. }
  destruct (match input_mode l with mode_M => true | mode_S => false end
            && String.eqb (command C q) "single-line").
  { apply Hquiet. split; [reflexivity | left; reflexivity]. }
  clear Hquiet.
  set (l1 := if negb support_multi_round
             then set_infer_kwargs (set_history l []) empty_infer_kwargs
             else l).
  assert (Hl1 : system l1 = system l ∧ result l1 = result l
                ∧ (support_multi_round = false ->
                   history l1 = [] ∧ kw_images (infer_kwargs l1) = None)).
  { subst l1. destruct support_multi_round; simpl; repeat split; discriminate. }
  destruct Hl1 as (Hsys1 & Hres1 & Hsingle).
  unfold mbind, IO_bind.
  destruct (read_media_file (infer_kwargs l1) (args_infer_media_type args) s1)
    as [[e | k] s2] eqn:Hmedia;
    apply read_media_file_spec in Hmedia
      as (Hr2 & Hj2 & (o2 & Ho2) & (media & Hin2 & Hlen2 & Hk) & _);
    simpl in Hr2, Hj2, Ho2, Hin2.
  { intros [= <- <-]. exists []. rewrite app_nil_r.
    split; [exact Hr2 |].
    split; [exists ([o] ++ o2); rewrite Ho2, app_assoc; reflexivity |].
    split; [constructor |].
    split; [exists (q :: media); simpl; rewrite Hin2; reflexivity | exact Hj2]. }
  destruct (Hk k eq_refl) as (_ & image & Himages & Hlen_image & _).
  destruct (infer_round C args q (set_infer_kwargs l1 k) s2)
    as [[e | l3] s3] eqn:Hround;
    apply infer_round_spec in Hround
      as (Hin3 & Hj3 & (o3 & Ho3) & (r & Hr3 & Hrq & Hrh & Hrs3 & Hri) & Hl3);
    simpl in Hrh, Hrs3, Hri.
  all: assert (Hreq : req_system r = system l
                      ∧ (support_multi_round = false ->
                         req_history r = []
                         ∧ (length (req_images r) <= 1)%nat)).
  1, 3: (split; [congruence |]; intros Hsr;
         destruct (Hsingle Hsr) as (Hh & Hnone);
         split; [congruence |];
         destruct Hri as [-> | ->]; [simpl; lia |];
         rewrite Himages, Hnone; simpl; lia).
  { intros [= <- <-]. exists [r].
    split; [rewrite Hr3, Hr2; reflexivity |].
    split; [exists ([o] ++ o2 ++ o3); rewrite Ho3, Ho2, !app_assoc;
            reflexivity |].
    split; [constructor; [exact Hreq | constructor] |].
    split; [exists (q :: media); simpl; rewrite Hin3, Hin2; reflexivity
           | congruence]. }
  destruct (Hl3 l3 eq_refl) as (Hm & Hrsys & Hsys3 & Hh3 & Hres3 & _).
  simpl in Hm, Hrsys, Hsys3, Hh3, Hres3.
  unfold print, emit_output, local, io_raise, append_to_jsonl, mbind, mret,
    IO_bind, IO_ret.
  destruct (response l3) as [response_ |]; simpl.
  2: { intros [= <- <-]. simpl. exists [r].
       split; [rewrite Hr3, Hr2; reflexivity |].
       split; [exists ([o] ++ o2 ++ o3 ++ [Printed dashes newline]);
               rewrite Ho3, Ho2, !app_assoc; reflexivity |].
       split; [constructor; [exact Hreq | constructor] |].
       split; [exists (q :: media); simpl; rewrite Hin3, Hin2; reflexivity
              | congruence]. }
  destruct (new_history l3) as [new_history_ |]; simpl.
  2: { intros [= <- <-]. simpl. exists [r].
       split; [rewrite Hr3, Hr2; reflexivity |].
       split; [exists ([o] ++ o2 ++ o3 ++ [Printed dashes newline]);
               rewrite Ho3, Ho2, !app_assoc; reflexivity |].
       split; [constructor; [exact Hreq | constructor] |].
       split; [exists (q :: media); simpl; rewrite Hin3, Hin2; reflexivity
              | congruence]. }
  destruct jsonl_path as [p |]; intros [= <- <-]; simpl;
    (exists [r];
     split; [rewrite Hr3, Hr2; reflexivity |];
     split; [exists ([o] ++ o2 ++ o3 ++ [Printed dashes newline]);
             rewrite Ho3, Ho2, !app_assoc; reflexivity |];
     split; [constructor; [exact Hreq | constructor] |];
     exists q, media;
     split; [rewrite Hin3, Hin2; reflexivity |];
     right; exists r, (mkResultObj q response_ (history l3));
     split; [reflexivity |];
     split; [rewrite Hres3, Hres1; reflexivity |];
     split; [rewrite Hj3, Hj2, ?app_nil_r; reflexivity |];
     split; [exact Hrq |];
     split; [simpl; congruence |];
     split; [reflexivity |];
     split; [congruence | exact Hcmd]).
Qed.

Lemma jsonl_lines_app objs objs' :
  jsonl_lines jsonl_path (objs ++ objs')
  = jsonl_lines jsonl_path objs ++ jsonl_lines jsonl_path objs'.
Proof.
  unfold jsonl_lines. destruct jsonl_path; [apply fmap_app | reflexivity].
Qed.

Lemma llm_infer_loop_reads fuel l s out s' :
  llm_infer_loop C args support_multi_round jsonl_path fuel l s = (out, s') ->
  (exists consumed, stdin s = consumed ++ stdin s')
  ∧ (exists o, stdout s' = stdout s ++ o)
  ∧ (forall l', out = inr (Some l') ->
       exists before q,
         stdin s = before ++ q :: stdin s'
         ∧ (command C q = "exit" ∨ command C q = "quit"))
  ∧ ((length (stdin s) < fuel)%nat -> out <> inr None).
Proof.
  revert l s. induction fuel as [| fuel IH]; intros l s.
  - simpl. unfold mret, IO_ret. intros [= <- <-].
    split; [exists []; reflexivity |].
    split; [exists []; rewrite app_nil_r; reflexivity |].
    split; [discriminate | lia].
  - simpl. unfold mbind, IO_bind.
    destruct (llm_infer_round C args support_multi_round jsonl_path l s)
      as [[e | next] s1] eqn:Hround;
      apply llm_infer_round_spec in Hround
        as (reqs & _ & (o & Ho) & _ & Hout).
    + destruct Hout as ((consumed & Hin) & _). intros [= <- <-].
      split; [eauto |]. split; [eauto |]. split; discriminate.
    + destruct Hout as (q & media & Hin & Hnext).
      destruct next as [l1 | l1].
      * intros Hloop. apply IH in Hloop
          as ((consumed & Hin1) & (o1 & Ho1) & Hend & Hfuel).
        split; [exists (q :: media ++ consumed); rewrite Hin, Hin1;
                simpl; rewrite app_assoc; reflexivity |].
        split; [exists (o ++ o1); rewrite Ho1, Ho, app_assoc; reflexivity |].
        split.
        -- intros l' Hl'. destruct (Hend l' Hl') as (before & q' & Hin' & Hq').
           exists (q :: media ++ before), q'.
           split; [rewrite Hin, Hin'; simpl; rewrite <- app_assoc; reflexivity
                  | exact Hq'].
        -- intros Hlt. apply Hfuel. rewrite Hin in Hlt. simpl in Hlt.
           rewrite length_app in Hlt. lia.
      * unfold mret, IO_ret. intros [= <- <-].
        destruct Hnext as (_ & -> & _ & _ & Hq).
        split; [exists [q]; exact Hin |]. split; [eauto |].
        split; [| discriminate].
        intros l' _. exists [], q. split; [exact Hin | exact Hq].
Qed.

Lemma llm_infer_loop_accounting fuel l s l' s' :
  llm_infer_loop C args support_multi_round jsonl_path fuel l s
    = (inr (Some l'), s') ->
  exists reqs objs,
    requests s' = requests s ++ reqs
    ∧ result l' = result l ++ objs
    ∧ jsonl s' = jsonl s ++ jsonl_lines jsonl_path objs
    ∧ req_query <$> reqs = obj_query <$> objs
    ∧ req_history <$> reqs = obj_history <$> objs
    ∧ Forall (fun obj => obj_query obj ∈ stdin s
                         ∧ is_command C (obj_query obj) = false) objs.
Proof.
  revert l s. induction fuel as [| fuel IH]; intros l s; [discriminate |].
  simpl. unfold mbind, IO_bind.
  destruct (llm_infer_round C args support_multi_round jsonl_path l s)
    as [[e | next] s1] eqn:Hround; [discriminate |].
  apply llm_infer_round_spec in Hround as (reqs & Hreqs & _ & _ & Hout).
  destruct Hout as (q & media & Hin & Hnext).
  destruct next as [l1 | l1].
  - intros Hloop. apply IH in Hloop
      as (reqs1 & objs1 & Hreqs1 & Hres1 & Hj1 & Hq1 & Hh1 & Hin1).
    assert (Htyped : forall obj, obj ∈ objs1 ->
              obj_query obj ∈ stdin s ∧ is_command C (obj_query obj) = false).
    { intros obj Hobj. rewrite Forall_forall in Hin1.
      destruct (Hin1 obj Hobj) as (Hmem & Hcmd). split; [| exact Hcmd].
      rewrite Hin. right. apply elem_of_app. right. exact Hmem. }
    destruct Hnext
      as [(-> & _ & Hj & Hres & _)
         | (r & obj & -> & Hres & Hj & Hrq & Hrh & Hobj & _ & Hcmd)].
    + exists reqs1, objs1. rewrite app_nil_r in Hreqs.
      split; [congruence |]. split; [congruence |]. split; [congruence |].
      split; [exact Hq1 |]. split; [exact Hh1 |].
      apply Forall_forall. exact Htyped.
    + exists (r :: reqs1), (obj :: objs1).
      split; [rewrite Hreqs1, Hreqs, <- app_assoc; reflexivity |].
      split; [rewrite Hres1, Hres, <- app_assoc; reflexivity |].
      split; [rewrite Hj1, Hj, <- app_assoc;
              change (obj :: objs1) with ([obj] ++ objs1);
              rewrite jsonl_lines_app; reflexivity |].
      split; [rewrite !fmap_cons; congruence |].
      split; [rewrite !fmap_cons; congruence |].
      constructor; [| apply Forall_forall; exact Htyped].
      split; [rewrite Hin, Hobj; left | rewrite Hobj; exact Hcmd].
  - unfold mret, IO_ret. intros [= <- <-].
    destruct Hnext as (-> & _ & -> & Hj & _).
    exists [], []. rewrite !app_nil_r in *.
    split; [exact Hreqs |]. split; [reflexivity |].
    split; [unfold jsonl_lines; destruct jsonl_path; simpl;
            rewrite ?app_nil_r; exact Hj |].
    split; [reflexivity |]. split; [reflexivity | constructor].
Qed.

Lemma llm_infer_loop_requests (replies : list string) fuel l s out s' :
  llm_infer_loop C args support_multi_round jsonl_path fuel l s = (out, s') ->
  (forall q, system l = Some q -> q ∈ replies ∧ is_command C q = false) ->
  (forall q, q ∈ stdin s -> q ∈ replies) ->
  exists reqs,
    requests s' = requests s ++ reqs
    ∧ Forall (fun r =>
                (support_multi_round = false ->
                 req_history r = [] ∧ (length (req_images r) <= 1)%nat)
                ∧ forall q, req_system r = Some q ->
                    q ∈ replies ∧ is_command C q = false)
             reqs.
Proof.
  revert l s. induction fuel as [| fuel IH]; intros l s.
  - simpl. unfold mret, IO_ret. intros [= <- <-] _ _.
    exists []. rewrite app_nil_r. split; [reflexivity | constructor].
  - simpl. unfold mbind, IO_bind. intros Hloop Hsys Hsub.
    destruct (llm_infer_round C args support_multi_round jsonl_path l s)
      as [[e | next] s1] eqn:Hround;
      apply llm_infer_round_spec in Hround
        as (reqs & Hreqs & _ & Hall & Hout).
    all: assert (Hall' : Forall (fun r =>
                (support_multi_round = false ->
                 req_history r = [] ∧ (length (req_images r) <= 1)%nat)
                ∧ forall q, req_system r = Some q ->
                    q ∈ replies ∧ is_command C q = false) reqs)
      by (eapply Forall_impl; [exact Hall |];
          intros r (Hrs & Hsingle); split; [exact Hsingle |];
          intros q0 Hq0; apply Hsys; congruence).
    + injection Hloop as <- <-. exists reqs. split; assumption.
    + destruct Hout as (q & media & Hin & Hnext).
      destruct next as [l1 | l1].
      * assert (Hsub1 : forall q0, q0 ∈ stdin s1 -> q0 ∈ replies).
        { intros q0 Hq0. apply Hsub. rewrite Hin. right.
          apply elem_of_app. right. exact Hq0. }
        assert (Hsys1 : forall q0, system l1 = Some q0 ->
                                   q0 ∈ replies ∧ is_command C q0 = false).
        { intros q0 Hq0.
          destruct Hnext
            as [(_ & _ & _ & _ & [Hsame | (Hnew & Hcmd)])
               | (r & obj & _ & _ & _ & _ & _ & _ & Hsame & _)].
          - apply Hsys. congruence.
          - assert (q0 = q) as -> by congruence.
            split; [apply Hsub; rewrite Hin; left | exact Hcmd].
          - apply Hsys. congruence. }
        destruct (IH l1 s1 Hloop Hsys1 Hsub1) as (reqs1 & Hreqs1 & Hall1).
        exists (reqs ++ reqs1).
        split; [rewrite Hreqs1, Hreqs, app_assoc; reflexivity |].
        apply Forall_app. split; assumption.
      * unfold mret, IO_ret in Hloop. injection Hloop as <- <-.
        exists reqs. split; assumption.
Qed.

(** X18. A session of [eval_human] reads the replies in order, every round
    at least one, and ends in one of two ways: normally, right after a
    reply that is [exit] or [quit] once stripped and lowered, what follows
    it staying unread; or with an exception, which is [EOFError] when there
    is no reply at all. It never loops without reading, and what was
    printed stays printed. *)
Theorem eval_human_ends_at_exit s :
  let run := llm_infer_eval_human C args support_multi_round jsonl_path s in
  run.1 <> inr None
  ∧ (exists consumed, stdin s = consumed ++ stdin run.2)
  ∧ (exists o, stdout run.2 = stdout s ++ o)
  ∧ (forall res, run.1 = inr (Some res) ->
       exists before q,
         stdin s = before ++ q :: stdin run.2
         ∧ (command C q = "exit" ∨ command C q = "quit"))
  ∧ (stdin s = [] -> run.1 = inl EOFError).
Proof.
  unfold llm_infer_eval_human, get_session, mbind, mret, IO_bind, IO_ret.
  destruct (llm_infer_loop C args support_multi_round jsonl_path
              (S (length (stdin s))) initial_locals s)
    as [[e | [l |]] s'] eqn:Hloop; simpl.
  - pose proof Hloop as Hloop'.
    apply llm_infer_loop_reads in Hloop as (Hin & Ho & _ & _).
    split; [discriminate |]. split; [exact Hin |]. split; [exact Ho |].
    split; [discriminate |].
    intros Hempty. revert Hloop'. simpl. unfold mbind, IO_bind.
    destruct (read_query_spec initial_locals s) as (o & Hread).
    cbv zeta in Hread. rewrite Hempty in Hread.
    unfold llm_infer_round, mbind, IO_bind. simpl in Hread |- *.
    rewrite Hread. congruence.
  - pose proof Hloop as Hloop'.
    apply llm_infer_loop_reads in Hloop as (Hin & Ho & Hend & _).
    split; [discriminate |]. split; [exact Hin |]. split; [exact Ho |].
    split; [intros res _; exact (Hend l eq_refl) |].
    intros Hempty. destruct (Hend l eq_refl) as (before & q & Hq & _).
    rewrite Hempty in Hq. destruct before; discriminate.
  - apply llm_infer_loop_reads in Hloop as (_ & _ & _ & Hfuel).
    exfalso. apply Hfuel; [lia | reflexivity].
Qed.

(** X19. When a session ends normally its books agree: there is one result
    for every inference call made, in the same order and with the query and
    the history the call was given; every query is a reply that was read
    and is none of the commands; and the [jsonl] file received exactly the
    results, in order, when a path was set, and nothing otherwise. *)
Theorem eval_human_results_match_requests s res s' :
  llm_infer_eval_human C args support_multi_round jsonl_path s
    = (inr (Some res), s') ->
  exists reqs,
    requests s' = requests s ++ reqs
    ∧ req_query <$> reqs = obj_query <$> res
    ∧ req_history <$> reqs = obj_history <$> res
    ∧ jsonl s' = jsonl s ++ jsonl_lines jsonl_path res
    ∧ Forall (fun obj => obj_query obj ∈ stdin s
                         ∧ is_command C (obj_query obj) = false) res.
Proof.
  unfold llm_infer_eval_human, get_session, mbind, mret, IO_bind, IO_ret.
  destruct (llm_infer_loop C args support_multi_round jsonl_path
              (S (length (stdin s))) initial_locals s)
    as [[e | [l |]] s1] eqn:Hloop; simpl; try discriminate.
  intros [= <- <-].
  apply llm_infer_loop_accounting in Hloop
    as (reqs & objs & Hreqs & Hres & Hj & Hq & Hh & Hin).
  simpl in Hres. subst objs. exists reqs. repeat split; assumption.
Qed.

Lemma mode_word_is_no_command q :
  str_strip C q <> "" ->
  command C q = "multi-line" ∨ command C q = "single-line" ->
  is_command C q = false.
Proof.
  intros Hblank Hword. unfold is_command.
  apply String.eqb_neq in Hblank. rewrite Hblank.
  destruct Hword as [-> | ->]; reflexivity.
Qed.

(** X21. The system prompt a request carries is never invented and never a
    command: it is absent, or it is, verbatim, a reply the user gave that is
    not [exit], [quit], [clear], [reset-system] or blank. It is set in two
    rounds, neither of which calls the model: a reply that reads
    [reset-system] makes the loop await the system prompt, and the next
    reply that is none of the five commands becomes the system prompt, as
    typed, after which the loop no longer awaits one. The words
    [multi-line] and [single-line] are not excluded: given while the system
    prompt is awaited, they become the system prompt and the input mode
    stays what it was. Every request of a round carries the system prompt
    the loop held when the round began. *)
Theorem system_prompt_is_a_typed_reply s :
  let run := llm_infer_eval_human C args support_multi_round jsonl_path s in
  (exists reqs,
     requests run.2 = requests s ++ reqs
     ∧ Forall (fun r => forall q, req_system r = Some q ->
                          q ∈ stdin s ∧ is_command C q = false) reqs)
  ∧ (forall l q rest,
       stdin s = q :: rest ->
       exists o,
         let s1 := mkSession rest (stdout s ++ [o]) (requests s) (jsonl s) in
         (command C q = "reset-system" -> str_strip C q <> "" ->
          llm_infer_round C args support_multi_round jsonl_path l s
          = (inr (Continue (set_read_system l true)), s1))
         ∧ (read_system l = true -> is_command C q = false ->
            llm_infer_round C args support_multi_round jsonl_path l s
            = (inr (Continue (set_read_system (set_system l (Some q)) false)),
               s1))
         ∧ (read_system l = true -> str_strip C q <> "" ->
            command C q = "multi-line" ∨ command C q = "single-line" ->
            exists l',
              llm_infer_round C args support_multi_round jsonl_path l s
              = (inr (Continue l'), s1)
              ∧ system l' = Some q ∧ read_system l' = false
              ∧ input_mode l' = input_mode l))
  ∧ (forall l out s',
       llm_infer_round C args support_multi_round jsonl_path l s = (out, s') ->
       exists reqs,
         requests s' = requests s ++ reqs
         ∧ Forall (fun r => req_system r = system l) reqs).
Proof.
  split; [| split].
  - unfold llm_infer_eval_human, get_session, mbind, mret, IO_bind, IO_ret.
    destruct (llm_infer_loop C args support_multi_round jsonl_path
                (S (length (stdin s))) initial_locals s)
      as [out s'] eqn:Hloop.
    apply (llm_infer_loop_requests (stdin s)) in Hloop
      as (reqs & Hreqs & Hall); [| discriminate | auto].
    exists reqs. split.
    + destruct out as [e | [l |]]; exact Hreqs.
    + eapply Forall_impl; [exact Hall |]. intros r (_ & H). exact H.
  - intros l q rest Hin.
    destruct (read_query_spec l s) as (o & Hq). cbv zeta in Hq.
    rewrite Hin in Hq. exists o. cbv zeta.
    assert (Hsys : read_system l = true -> is_command C q = false ->
      llm_infer_round C args support_multi_round jsonl_path l s
      = (inr (Continue (set_read_system (set_system l (Some q)) false)),
         mkSession rest (stdout s ++ [o]) (requests s) (jsonl s))).
    { intros Hread Hcmd. unfold llm_infer_round.
      unfold mbind at 1. unfold IO_bind at 1. rewrite Hq.
      unfold is_command in Hcmd.
      apply orb_false_iff in Hcmd as [Hcmd Hreset].
      apply orb_false_iff in Hcmd as [Hcmd Hblank].
      apply orb_false_iff in Hcmd as [Hcmd Hclear].
      rewrite Hcmd, Hclear, Hblank, Hreset, Hread. reflexivity. }
    split; [| split].
    + intros Hcmd Hblank. unfold llm_infer_round.
      unfold mbind at 1. unfold IO_bind at 1. rewrite Hq.
      rewrite Hcmd. apply String.eqb_neq in Hblank. rewrite Hblank.
      reflexivity.
    + exact Hsys.
    + intros Hread Hblank Hword. eexists. split.
      * exact (Hsys Hread (mode_word_is_no_command q Hblank Hword)).
      * repeat split.
  - intros l out s' Hround.
    apply llm_infer_round_spec in Hround as (reqs & Hreqs & _ & Hall & _).
    exists reqs. split; [exact Hreqs |].
    eapply Forall_impl; [exact Hall |]. intros r (H & _). exact H.
Qed.

End DialogueFacts.

(** X20. With a template that supports single-round dialogues only, every
    inference call of a session, however it ends, is made with an empty
    history and with at most one media file. *)
Theorem single_round_requests_carry_no_history C args jsonl_path s :
  let run := llm_infer_eval_human C args false jsonl_path s in
  exists reqs,
    requests run.2 = requests s ++ reqs
    ∧ Forall (fun r => req_history r = []
                       ∧ (length (req_images r) <= 1)%nat) reqs.
Proof.
  unfold llm_infer_eval_human, get_session, mbind, mret, IO_bind, IO_ret.
  destruct (llm_infer_loop C args false jsonl_path
              (S (length (stdin s))) initial_locals s)
    as [out s'] eqn:Hloop.
  apply (llm_infer_loop_requests C args false jsonl_path (stdin s)) in Hloop
    as (reqs & Hreqs & Hall); [| discriminate | auto].
  exists reqs. split.
  - destruct out as [e | [l |]]; exact Hreqs.
  - eapply Forall_impl; [exact Hall |]. intros r (H & _). exact (H eq_refl).
Qed.

Lemma eval_human_results_match_requests_witness :
  exists reqs,
    requests
      (llm_infer_eval_human Console.chat0 Console.args_media true
         (Some "infer_result/20240101-000000.jsonl")
         (Console.session ["hello"; "a.png"; "clear"; "again"; ""; " EXIT"])).2
    = reqs
    ∧ req_query <$> reqs = ["hello"; "again"]
    ∧ req_history <$> reqs = [[]; []].
Proof.
  assert (Hrun : exists res s',
    llm_infer_eval_human Console.chat0 Console.args_media true
      (Some "infer_result/20240101-000000.jsonl")
      (Console.session ["hello"; "a.png"; "clear"; "again"; ""; " EXIT"])
    = (inr (Some res), s')
    ∧ obj_query <$> res = ["hello"; "again"]
    ∧ obj_history <$> res = [[]; []])
    by (vm_compute; do 2 eexists; repeat split; reflexivity).
  destruct Hrun as (res & s' & Hrun & Hq & Hh).
  destruct (eval_human_results_match_requests _ _ _ _ _ _ _ Hrun)
    as (reqs & Hreqs & Hrq & Hrh & _).
  exists reqs. rewrite Hrun. simpl in Hreqs |- *.
  split; [exact Hreqs |]. split; congruence.
Defined.

Lemma system_prompt_is_a_typed_reply_witness :
  (llm_infer_round Console.chat0 Console.args0 true None
     (set_read_system initial_locals true)
     (Console.session ["multi-line"; "hello"])).1
  = inr (Continue (set_system initial_locals (Some "multi-line"))).
Proof.
  destruct (proj1 (proj2 (system_prompt_is_a_typed_reply Console.chat0
              Console.args0 true None
              (Console.session ["multi-line"; "hello"])))
              (set_read_system initial_locals true) "multi-line" ["hello"]
              eq_refl) as (o & _ & Hsys & _).
  rewrite (Hsys eq_refl ltac:(vm_compute; reflexivity)). reflexivity.
Defined.

(** * Properties of [save_checkpoint] and [merge_lora] *)

Ltac unfold_P :=
  unfold perform, check, throw, lift_result, run_M, get_world, get_args,
    put_args, mbind, mret, P_bind, P_ret in *.

Lemma wrote_nil {World} (p : Process World) : wrote [] p p.
Proof. repeat split. rewrite app_nil_r. reflexivity. Qed.

Lemma wrote_app {World} ops ops' (p1 p2 p3 : Process World) :
  wrote ops p1 p2 -> wrote ops' p2 p3 -> wrote (ops ++ ops') p1 p3.
Proof.
  intros (Hr & Ha & Ho) (Hr' & Ha' & Ho').
  repeat split; try congruence. rewrite Ho', Ho, app_assoc. reflexivity.
Qed.

Section Saving.

Context {World : Type} (OS : Os World).

Lemma perform_wrote op (p : Process World) :
  wrote [op] p (perform OS op p).2.
Proof.
  unfold perform. destruct (apply_op OS op (world p)) as [e w].
  repeat split.
Qed.

Lemma copy_from_first_spec fname tgt_path model_dirs (p : Process World) :
  exists ops,
    wrote ops p (copy_from_first OS fname tgt_path model_dirs p).2
    ∧ (length ops <= 1)%nat
    ∧ Forall (fun op =>
                exists dir,
                  Some dir ∈ model_dirs
                  ∧ (op = ShutilCopy (os_path_join dir fname) tgt_path
                     ∨ op = ShutilCopytree (os_path_join dir fname) tgt_path))
             ops.
Proof.
  induction model_dirs as [| [dir |] model_dirs IH]; simpl.
  - exists []. split; [apply wrote_nil |]. split; [simpl; lia | constructor].
  - unfold get_world, mbind, P_bind.
    destruct (path_isfile OS (world p) (os_path_join dir fname)).
    { eexists [_]. split; [apply perform_wrote |]. split; [simpl; lia |].
      constructor; [| constructor]. exists dir.
      split; [left | left; reflexivity]. }
    destruct (path_isdir OS (world p) (os_path_join dir fname)).
    { eexists [_]. split; [apply perform_wrote |]. split; [simpl; lia |].
      constructor; [| constructor]. exists dir.
      split; [left | right; reflexivity]. }
    destruct IH as (ops & Hw & Hlen & Hall). exists ops.
    split; [exact Hw |]. split; [exact Hlen |].
    eapply Forall_impl; [exact Hall |].
    intros op (dir' & Hin & Hop). exists dir'. split; [right; exact Hin | exact Hop].
  - destruct IH as (ops & Hw & Hlen & Hall). exists ops.
    split; [exact Hw |]. split; [exact Hlen |].
    eapply Forall_impl; [exact Hall |].
    intros op (dir' & Hin & Hop). exists dir'. split; [right; exact Hin | exact Hop].
Qed.

Lemma copy_files_spec target_dir model_dirs fname_list (p : Process World) :
  exists ops,
    wrote ops p (copy_files OS target_dir model_dirs fname_list p).2
    ∧ (length ops <= length fname_list)%nat
    ∧ Forall (fun op =>
                exists fname dir,
                  fname ∈ fname_list ∧ Some dir ∈ model_dirs
                  ∧ (op = ShutilCopy (os_path_join dir fname)
                            (os_path_join target_dir fname)
                     ∨ op = ShutilCopytree (os_path_join dir fname)
                              (os_path_join target_dir fname)))
             ops.
Proof.
  revert p. induction fname_list as [| fname fname_list IH]; intros p; simpl.
  - exists []. split; [apply wrote_nil |]. split; [simpl; lia | constructor].
  - unfold mbind, P_bind.
    destruct (copy_from_first_spec fname (os_path_join target_dir fname)
                model_dirs p) as (ops1 & Hw1 & Hlen1 & Hall1).
    assert (Hall1' : Forall (fun op =>
                exists fname0 dir,
                  fname0 ∈ fname :: fname_list ∧ Some dir ∈ model_dirs
                  ∧ (op = ShutilCopy (os_path_join dir fname0)
                            (os_path_join target_dir fname0)
                     ∨ op = ShutilCopytree (os_path_join dir fname0)
                              (os_path_join target_dir fname0))) ops1).
    { eapply Forall_impl; [exact Hall1 |].
      intros op (dir & Hin & Hop). exists fname, dir.
      split; [left | split; assumption]. }
    destruct (copy_from_first OS fname (os_path_join target_dir fname)
                model_dirs p) as [[e | []] p1]; simpl in Hw1.
    + exists ops1. split; [exact Hw1 |]. split; [simpl; lia | exact Hall1'].
    + destruct (IH p1) as (ops2 & Hw2 & Hlen2 & Hall2).
      exists (ops1 ++ ops2).
      split; [exact (wrote_app _ _ _ _ _ Hw1 Hw2) |].
      split; [rewrite length_app; simpl; lia |].
      apply Forall_app. split; [exact Hall1' |].
      eapply Forall_impl; [exact Hall2 |].
      intros op (fname0 & dir & Hin & Hdir & Hop). exists fname0, dir.
      split; [right; exact Hin | split; assumption].
Qed.

Lemma copy_configuration_spec path model_dirs (p : Process World) :
  exists ops,
    wrote ops p (copy_configuration OS path model_dirs p).2
    ∧ (length ops <= 1)%nat
    ∧ Forall (fun op =>
                exists members,
                  op = JsonDump path (JDict members) 4
                  ∧ members !! "adapter_cfg" = None)
             ops.
Proof.
  induction model_dirs as [| [dir |] model_dirs IH]; simpl.
  - exists []. split; [apply wrote_nil |]. split; [simpl; lia | constructor].
  - unfold get_world, lift_result, mbind, P_bind.
    destruct (path_exists OS (world p) (os_path_join dir "configuration.json"));
      [| exact IH].
    destruct (json_load OS (world p) (os_path_join dir "configuration.json"))
      as [e | [members | | type_name]]; simpl.
    + exists []. split; [apply wrote_nil |]. split; [simpl; lia | constructor].
    + eexists [_]. split; [apply perform_wrote |]. split; [simpl; lia |].
      constructor; [| constructor]. eexists. split; [reflexivity |].
      apply lookup_delete_eq.
    + exists []. split; [apply wrote_nil |]. split; [simpl; lia | constructor].
    + exists []. split; [apply wrote_nil |]. split; [simpl; lia | constructor].
  - exact IH.
Qed.

Lemma performs_ret {A} Q (a : A) : performs (World:=World) Q 0 (mret a).
Proof.
  intros p. exists []. split; [apply wrote_nil |].
  split; [constructor | simpl; lia].
Qed.

Lemma performs_lift_result {A} Q (r : Exception + A) :
  performs (World:=World) Q 0 (lift_result r).
Proof.
  intros p. exists []. split; [apply wrote_nil |].
  split; [constructor | simpl; lia].
Qed.

Lemma performs_get_world Q : performs (World:=World) Q 0 get_world.
Proof.
  intros p. exists []. split; [apply wrote_nil |].
  split; [constructor | simpl; lia].
Qed.

Lemma performs_perform (Q : FileOp -> Prop) op :
  Q op -> is_copy op = false -> performs Q 0 (perform OS op).
Proof.
  intros HQ Hcopy p. exists [op]. split; [apply perform_wrote |].
  split; [constructor; [exact HQ | constructor] |].
  simpl. rewrite Hcopy. simpl. lia.
Qed.

Lemma performs_bind {A B} Q n m (c : P World A) (k : A -> P World B) :
  performs Q n c -> (forall a, performs Q m (k a)) ->
  performs Q (n + m) (c ≫= k).
Proof.
  intros Hc Hk p. unfold mbind, P_bind.
  destruct (Hc p) as (ops1 & Hw1 & Hall1 & Hlen1).
  destruct (c p) as [[e | a] p1]; simpl in Hw1.
  - exists ops1. split; [exact Hw1 |]. split; [exact Hall1 | lia].
  - destruct (Hk a p1) as (ops2 & Hw2 & Hall2 & Hlen2).
    exists (ops1 ++ ops2).
    split; [exact (wrote_app _ _ _ _ _ Hw1 Hw2) |].
    split; [apply Forall_app; split; assumption |].
    rewrite List.filter_app, length_app. lia.
Qed.

Lemma performs_weaken {A} Q n m (c : P World A) :
  performs Q n c -> (n <= m)%nat -> performs Q m c.
Proof.
  intros Hc Hle p. destruct (Hc p) as (ops & Hw & Hall & Hlen).
  exists ops. split; [exact Hw |]. split; [exact Hall | lia].
Qed.

Lemma filter_is_copy_length ops : (length (List.filter is_copy ops) <= length ops)%nat.
Proof.
  induction ops as [| op ops IH]; simpl; [lia |].
  destruct (is_copy op); simpl; lia.
Qed.

Lemma save_checkpoint_performs
    model tokenizer model_cache_dir ckpt_dir target_dir save_safetensors :
  performs
    (saved_by model tokenizer model_cache_dir ckpt_dir target_dir
       save_safetensors)
    (length (saved_file_names tokenizer))
    (save_checkpoint OS model tokenizer model_cache_dir ckpt_dir target_dir
       save_safetensors).
Proof.
  set (Q := saved_by model tokenizer model_cache_dir ckpt_dir target_dir
              save_safetensors).
  unfold save_checkpoint.
  eapply performs_weaken;
    [| instantiate (1 := (0 + (0 + (length (saved_file_names tokenizer)
                                      + (0 + 0))))%nat); lia].
  apply performs_bind.
  { destruct model as [m |]; [| apply performs_ret].
    apply performs_perform; [| reflexivity]. repeat split. }
  intros _. apply performs_bind.
  { apply performs_perform; [| reflexivity]. repeat split. }
  intros _. apply performs_bind.
  { intros p.
    match goal with
    | |- context [copy_files OS ?t ?d ?names p] =>
        destruct (copy_files_spec t d names p) as (ops & Hw & Hlen & Hall);
        assert (Hnames : names = saved_file_names tokenizer)
          by (unfold saved_file_names; destruct (tok_model_type tokenizer);
              reflexivity)
    end.
    exists ops. split; [exact Hw |]. split.
    - eapply Forall_impl; [exact Hall |].
      intros op (fname & dir & Hin & Hdir & [-> | ->]); simpl;
        exists fname, dir; rewrite <- Hnames; repeat split; assumption.
    - rewrite <- Hnames. pose proof (filter_is_copy_length ops). lia. }
  intros _. apply performs_bind.
  { intros p.
    destruct (copy_configuration_spec (os_path_join target_dir "configuration.json")
                [ckpt_dir; model_cache_dir] p) as (ops & Hw & Hlen & Hall).
    exists ops. split; [exact Hw |]. split.
    - eapply Forall_impl; [exact Hall |].
      intros op (members & -> & Hnone). simpl. exists members.
      split; [reflexivity |]. left. repeat split. exact Hnone.
    - clear Hw. destruct ops as [| op [| op' ops]]; [simpl; lia | | simpl in Hlen; lia].
      apply Forall_inv in Hall. destruct Hall as (members & -> & _).
      simpl. lia. }
  intros _. destruct ckpt_dir as [ckpt |]; [| apply performs_ret].
  change 0%nat with (0 + 0)%nat. apply performs_bind;
    [apply performs_get_world |].
  intros w.
  destruct (path_exists OS w (os_path_join ckpt "sft_args.json"));
    [| apply performs_ret].
  intros p. unfold lift_result, mbind, P_bind.
  destruct (json_load OS w (os_path_join ckpt "sft_args.json"))
    as [e | [members | | type_name]]; simpl;
    try (exists []; split; [apply wrote_nil |];
         split; [constructor | simpl; lia]).
  eexists [_]. split; [apply perform_wrote |].
  split; [| simpl; lia].
  constructor; [| constructor]. simpl. eexists. split; [reflexivity |].
  right. repeat split; [eauto |]. apply lookup_insert_eq.
Qed.







End Saving.

Lemma max_model_len_block_sets model n model' :
  prepare_model_template_max_model_len model (Some n) = inr model' ->
  max_model_len model' = Some n.
Proof.
  unfold prepare_model_template_max_model_len.
  destruct (max_model_len model) as [limit |].
  - destruct (n <=? limit)%Z; [| discriminate]. intros [= <-]. reflexivity.
  - intros [= <-]. reflexivity.
Qed.

Section Preparing.

Context {World : Type} (OS : Os World).
Context (E : Env) (T : Tuners) (MODEL_MAPPING : gmap string ModelInfo).

Ltac frame_split :=
  repeat split; try (cbn [runtime world]; rewrite ?drop_all; reflexivity).

Lemma prepare_model_template_spec device_map_ verbose automodel_class
    (p : Process World) :
  let args := infer_args p in
  let run := prepare_model_template OS E T MODEL_MAPPING device_map_ verbose
               automodel_class p in
  world run.2
  = pipeline_effect OS
      (drop (length (log (runtime p))) (log (runtime run.2))) (world p)
  ∧ file_ops run.2 = file_ops p
  ∧ match run.1 with
    | inl _ => infer_args run.2 = args
    | inr (model, template) =>
        infer_args run.2 = set_args_system args (default_system template)
        ∧ (exists model_kwargs kwargs model0 tokenizer,
             get_model_tokenizer E MODEL_MAPPING (args_model_type args)
               (args_torch_dtype args) (Some model_kwargs) true
               (model_source args) (args_model_revision args) kwargs
               (runtime p)
             = (inr (model0, tokenizer), runtime run.2)
             ∧ device_map model_kwargs
               = Some (default (if is_torch_npu_available T
                                then "npu:0" else "auto") device_map_)
             ∧ (is_Some (quantization_config model_kwargs)
                <-> args_load_in_8bit args || args_load_in_4bit args = true)
             ∧ kwargs !! "use_flash_attn"
               = VBool <$> args_use_flash_attn args)
        ∧ (is_adapter T (args_sft_type args)
           && bool_decide (is_Some (args_ckpt_dir args)) = false ->
           forall n, args_max_model_len args = Some n ->
                     max_model_len model = Some n)
    end.
Proof.
  cbv zeta. unfold prepare_model_template. unfold_P.
  destruct (args_load_in_8bit (infer_args p) || args_load_in_4bit (infer_args p))
    eqn:Hquant.
  - destruct (BitsAndBytesConfig_new T (args_load_in_8bit (infer_args p))
                (args_load_in_4bit (infer_args p))
                (args_bnb_4bit_compute_dtype (infer_args p))) as [e | q];
      [frame_split |].
    match goal with
    | |- context [get_model_tokenizer E MODEL_MAPPING ?mt ?dt ?mk ?lm ?src ?rev
                    ?kw (runtime p)] =>
        destruct (get_model_tokenizer E MODEL_MAPPING mt dt mk lm src rev kw
                    (runtime p)) as [[e | [model0 tokenizer]] rt1] eqn:Hload
    end; [frame_split |].
    simpl.
    destruct (verbose && bool_decide (model0 = None)); [frame_split |].
    destruct (GenerationConfig_new T (args_max_new_tokens (infer_args p))
                (args_temperature (infer_args p))
                (args_do_sample (infer_args p))) as [e | g];
      [frame_split |].
    destruct (set_generation_config T model0 g) as [e | [model1 |]];
      [frame_split | | frame_split].
    destruct (prepare_model_template_max_model_len model1
                (args_max_model_len (infer_args p))) as [e | model2] eqn:Hmax;
      [frame_split |].
    simpl.
    destruct (is_adapter T (args_sft_type (infer_args p))
              && bool_decide (is_Some (args_ckpt_dir (infer_args p))))
      eqn:Hadapter.
    + destruct (Swift_from_pretrained T model2
                  (default "" (args_ckpt_dir (infer_args p))))
        as [e | model3]; [frame_split |].
      destruct (String.eqb (args_sft_type (infer_args p)) "adalora");
        [destruct (model_to_dtype T model3) as [e | model4];
         [frame_split |] |];
        simpl;
        match goal with
        | |- context [get_template T ?a ?b ?c ?d ?e0 ?m] =>
            destruct (get_template T a b c d e0 m) as [e | template]
        end; simpl; try (frame_split; fail);
        (split; [reflexivity |]; split; [reflexivity |];
         split; [reflexivity |];
         split; [| discriminate];
         do 4 eexists; split; [exact Hload |]; simpl;
         split; [destruct device_map_; reflexivity |];
         split; [split; [reflexivity | eauto] |];
         destruct (args_use_flash_attn (infer_args p)); simpl;
         destruct automodel_class; simpl;
         rewrite ?lookup_insert_ne by discriminate;
         rewrite ?lookup_empty; try reflexivity;
         apply lookup_singleton_eq).
    + match goal with
      | |- context [get_template T ?a ?b ?c ?d ?e0 ?m] =>
          destruct (get_template T a b c d e0 m) as [e | template]
      end; simpl; [frame_split |].
      split; [reflexivity |]. split; [reflexivity |].
      split; [reflexivity |].
      split.
      * do 4 eexists. split; [exact Hload |]. simpl.
        split; [destruct device_map_; reflexivity |].
        split; [split; [reflexivity | eauto] |].
        destruct (args_use_flash_attn (infer_args p)); simpl;
          destruct automodel_class; simpl;
          rewrite ?lookup_insert_ne by discriminate;
          rewrite ?lookup_empty; try reflexivity;
          apply lookup_singleton_eq.
      * intros _ n Hn. rewrite Hn in Hmax.
        exact (max_model_len_block_sets _ _ _ Hmax).
  - match goal with
    | |- context [get_model_tokenizer E MODEL_MAPPING ?mt ?dt ?mk ?lm ?src ?rev
                    ?kw (runtime p)] =>
        destruct (get_model_tokenizer E MODEL_MAPPING mt dt mk lm src rev kw
                    (runtime p)) as [[e | [model0 tokenizer]] rt1] eqn:Hload
    end; [frame_split |].
    simpl.
    destruct (verbose && bool_decide (model0 = None)); [frame_split |].
    destruct (GenerationConfig_new T (args_max_new_tokens (infer_args p))
                (args_temperature (infer_args p))
                (args_do_sample (infer_args p))) as [e | g];
      [frame_split |].
    destruct (set_generation_config T model0 g) as [e | [model1 |]];
      [frame_split | | frame_split].
    destruct (prepare_model_template_max_model_len model1
                (args_max_model_len (infer_args p))) as [e | model2] eqn:Hmax;
      [frame_split |].
    simpl.
    destruct (is_adapter T (args_sft_type (infer_args p))
              && bool_decide (is_Some (args_ckpt_dir (infer_args p))))
      eqn:Hadapter.
    + destruct (Swift_from_pretrained T model2
                  (default "" (args_ckpt_dir (infer_args p))))
        as [e | model3]; [frame_split |].
      destruct (String.eqb (args_sft_type (infer_args p)) "adalora");
        [destruct (model_to_dtype T model3) as [e | model4];
         [frame_split |] |];
        simpl;
        match goal with
        | |- context [get_template T ?a ?b ?c ?d ?e0 ?m] =>
            destruct (get_template T a b c d e0 m) as [e | template]
        end; simpl; try (frame_split; fail);
        (split; [reflexivity |]; split; [reflexivity |];
         split; [reflexivity |];
         split; [| discriminate];
         do 4 eexists; split; [exact Hload |]; simpl;
         split; [destruct device_map_; reflexivity |];
         split; [split; [intros [? ?]; discriminate | discriminate] |];
         destruct (args_use_flash_attn (infer_args p)); simpl;
         destruct automodel_class; simpl;
         rewrite ?lookup_insert_ne by discriminate;
         rewrite ?lookup_empty; try reflexivity;
         apply lookup_singleton_eq).
    + match goal with
      | |- context [get_template T ?a ?b ?c ?d ?e0 ?m] =>
          destruct (get_template T a b c d e0 m) as [e | template]
      end; simpl; [frame_split |].
      split; [reflexivity |]. split; [reflexivity |].
      split; [reflexivity |].
      split.
      * do 4 eexists. split; [exact Hload |]. simpl.
        split; [destruct device_map_; reflexivity |].
        split; [split; [intros [? ?]; discriminate | discriminate] |].
        destruct (args_use_flash_attn (infer_args p)); simpl;
          destruct automodel_class; simpl;
          rewrite ?lookup_insert_ne by discriminate;
          rewrite ?lookup_empty; try reflexivity;
          apply lookup_singleton_eq.
      * intros _ n Hn. rewrite Hn in Hmax.
        exact (max_model_len_block_sets _ _ _ Hmax).
Qed.

(** X26. [prepare_model_template] runs the resolution pipeline once, with
    the model requested ([load_model] on), from the merged or fully
    fine-tuned checkpoint when [args] names one and from
    [args.model_id_or_path] otherwise, on the device map given or the
    default of the machine, with a quantization config exactly when 8-bit
    or 4-bit loading is asked for. It makes no file operation of its own:
    the disk changes by what the calls of that pipeline run do to it (a
    hub download writes the checkpoint), in the order they were made, and
    by nothing else. Of [args] it changes [system] only, to the default of
    the template it returns, and nothing when it fails. Without an adapter
    the model it returns has the [max_model_len] that [args] asks for. *)
Theorem prepare_model_template_resolves_once device_map_ verbose
    automodel_class (p : Process World) :
  let args := infer_args p in
  let run := prepare_model_template OS E T MODEL_MAPPING device_map_ verbose
               automodel_class p in
  world run.2
  = pipeline_effect OS
      (drop (length (log (runtime p))) (log (runtime run.2))) (world p)
  ∧ file_ops run.2 = file_ops p
  ∧ match run.1 with
    | inl _ => infer_args run.2 = args
    | inr (model, template) =>
        infer_args run.2 = set_args_system args (default_system template)
        ∧ (exists model_kwargs kwargs model0 tokenizer,
             get_model_tokenizer E MODEL_MAPPING (args_model_type args)
               (args_torch_dtype args) (Some model_kwargs) true
               (model_source args) (args_model_revision args) kwargs
               (runtime p)
             = (inr (model0, tokenizer), runtime run.2)
             ∧ device_map model_kwargs
               = Some (default (if is_torch_npu_available T
                                then "npu:0" else "auto") device_map_)
             ∧ (is_Some (quantization_config model_kwargs)
                <-> args_load_in_8bit args || args_load_in_4bit args = true)
             ∧ kwargs !! "use_flash_attn"
               = VBool <$> args_use_flash_attn args)
        ∧ (is_adapter T (args_sft_type args)
           && bool_decide (is_Some (args_ckpt_dir args)) = false ->
           forall n, args_max_model_len args = Some n ->
                     max_model_len model = Some n)
    end.
Proof.
  exact (prepare_model_template_spec device_map_ verbose automodel_class p).
Qed.

End Preparing.

Section MergingFacts.

Context {World : Type} (OS : Os World).
Context (E : Env) (T : Tuners) (MODEL_MAPPING : gmap string ModelInfo).

Lemma prepare_model_template_frame device_map_ verbose automodel_class
    (p : Process World) :
  let run := prepare_model_template OS E T MODEL_MAPPING device_map_ verbose
               automodel_class p in
  file_ops run.2 = file_ops p
  ∧ match run.1 with
    | inl _ => infer_args run.2 = infer_args p
    | inr (_, template) =>
        infer_args run.2
        = set_args_system (infer_args p) (default_system template)
    end.
Proof.
  cbv zeta.
  pose proof (prepare_model_template_spec OS E T MODEL_MAPPING device_map_
                verbose automodel_class p) as Hspec. cbv zeta in Hspec.
  destruct Hspec as (_ & Hops & Hout).
  split; [exact Hops |].
  destruct (prepare_model_template OS E T MODEL_MAPPING device_map_ verbose
              automodel_class p).1 as [e | [model template]];
    [exact Hout | exact (proj1 Hout)].
Qed.

Lemma merge_and_save_spec path (p : Process World) :
  let run := merge_and_save OS E T MODEL_MAPPING path p in
  args_sft_type (infer_args run.2) = args_sft_type (infer_args p)
  ∧ args_ckpt_dir (infer_args run.2) = args_ckpt_dir (infer_args p)
  ∧ args_model_type (infer_args run.2) = args_model_type (infer_args p)
  ∧ exists ops,
      file_ops run.2 = file_ops p ++ ops
      ∧ Forall (fun op =>
                  exists model tokenizer model_cache_dir,
                    saved_by (Some model) tokenizer model_cache_dir
                      (args_ckpt_dir (infer_args p)) path
                      (args_save_safetensors (infer_args p)) op)
               ops.
Proof.
  cbv zeta. unfold merge_and_save.
  unfold get_args, lift_result, mbind, P_bind.
  pose proof (prepare_model_template_frame (args_merge_device_map (infer_args p))
                false None p) as Hframe. cbv zeta in Hframe.
  destruct (prepare_model_template OS E T MODEL_MAPPING
              (args_merge_device_map (infer_args p)) false None p)
    as [[e | [model template]] p1]; simpl in Hframe;
    destruct Hframe as (Hops & Hargs).
  { simpl. rewrite Hargs. repeat split.
    exists []. rewrite app_nil_r. split; [exact Hops | constructor]. }
  assert (Hsame : args_sft_type (infer_args p1) = args_sft_type (infer_args p)
                  ∧ args_ckpt_dir (infer_args p1) = args_ckpt_dir (infer_args p)
                  ∧ args_model_type (infer_args p1)
                    = args_model_type (infer_args p)
                  ∧ args_save_safetensors (infer_args p1)
                    = args_save_safetensors (infer_args p))
    by (rewrite Hargs; repeat split).
  destruct Hsame as (Hsft & Hckpt & Hmt & Hsafe).
  destruct (Swift_merge_and_unload T model) as [e | model1].
  { simpl. repeat split; try assumption.
    exists []. rewrite app_nil_r. split; [exact Hops | constructor]. }
  destruct (model_model T model1) as [e | model2].
  { simpl. repeat split; try assumption.
    exists []. rewrite app_nil_r. split; [exact Hops | constructor]. }
  destruct (save_checkpoint_performs OS (Some model2)
              (template_tokenizer template) (model_dir model2)
              (args_ckpt_dir (infer_args p1)) path
              (args_save_safetensors (infer_args p1)) p1)
    as (ops & (Hr2 & Ha2 & Ho2) & Hall & _).
  rewrite Ha2. split; [exact Hsft |]. split; [exact Hckpt |].
  split; [exact Hmt |].
  exists ops. split; [rewrite Ho2, Hops; reflexivity |].
  eapply Forall_impl; [exact Hall |].
  intros op Hop. rewrite Hckpt, Hsafe in Hop. eauto.
Qed.

(** X23. [merge_lora] refuses before it does anything: without
    [args.ckpt_dir], with an [sft_type] other than [lora], and for a model
    type that mentions [int4], [int8] or [awq], it raises
    [AssertionError], and the pipeline, the disk and [args] are as they
    were. *)
Theorem merge_lora_refuses_before_loading replace_if_exists device_map_
    (p : Process World) :
  args_ckpt_dir (infer_args p) = None
  ∨ args_sft_type (infer_args p) <> "lora"
  ∨ occurs "int4" (args_model_type (infer_args p))
  ∨ occurs "int8" (args_model_type (infer_args p))
  ∨ occurs "awq" (args_model_type (infer_args p)) ->
  exists msg,
    merge_lora OS E T MODEL_MAPPING replace_if_exists device_map_ p
    = (inl (AssertionError msg), p)
    ∧ (args_ckpt_dir (infer_args p) = None ->
       msg = "args.ckpt_dir is not specified.")
    ∧ (is_Some (args_ckpt_dir (infer_args p)) ->
       args_sft_type (infer_args p) <> "lora" ->
       msg = "Only supports sft_type == 'lora'").
Proof.
  intros Hcase. unfold merge_lora.
  unfold check, throw, get_args, mbind, mret, P_bind, P_ret.
  destruct (args_ckpt_dir (infer_args p)) as [ckpt |] eqn:Hckpt; simpl.
  2: { eexists. split; [reflexivity |]. split; [reflexivity |].
       intros [? Hsome]. discriminate. }
  destruct (String.eqb (args_sft_type (infer_args p)) "lora") eqn:Hsft; simpl.
  2: { eexists. split; [reflexivity |]. split; [discriminate |].
       reflexivity. }
  apply String.eqb_eq in Hsft.
  destruct Hcase as [Hnone | [Hne | Hocc]]; [discriminate | contradiction |].
  rewrite <- !str_contains_occurs in Hocc.
  destruct (str_contains "int4" (args_model_type (infer_args p))); simpl.
  { eexists. split; [reflexivity |]. split; [discriminate |].
    intros _ Hne. contradiction. }
  destruct (str_contains "int8" (args_model_type (infer_args p))); simpl.
  { eexists. split; [reflexivity |]. split; [discriminate |].
    intros _ Hne. contradiction. }
  destruct (str_contains "awq" (args_model_type (infer_args p))); simpl.
  { eexists. split; [reflexivity |]. split; [discriminate |].
    intros _ Hne. contradiction. }
  destruct Hocc as [H | [H | H]]; discriminate.
Qed.

(** X24. When [merge_lora] returns, [args] points at the merged weights:
    [sft_type] is [full] and [ckpt_dir] is the returned directory, which is
    where [prepare_model_template] will resolve the model from; the
    returned directory is computed from the old [ckpt_dir] alone. Calling
    [merge_lora] again on the same [args] therefore fails its [sft_type]
    check and changes nothing. When the directory was already there and
    replacing was not asked for, nothing was loaded and nothing written;
    otherwise every operation made was one of [save_checkpoint] into the
    returned directory. *)
Theorem merge_lora_retargets_args replace_if_exists device_map_
    (p : Process World) path p' :
  merge_lora OS E T MODEL_MAPPING replace_if_exists device_map_ p
    = (inr path, p') ->
  (exists ckpt,
     args_ckpt_dir (infer_args p) = Some ckpt
     ∧ path = merged_lora_path_of ckpt)
  ∧ args_sft_type (infer_args p') = "full"
  ∧ args_ckpt_dir (infer_args p') = Some path
  ∧ args_model_type (infer_args p') = args_model_type (infer_args p)
  ∧ model_source (infer_args p') = Some path
  ∧ (forall replace_if_exists' device_map',
       merge_lora OS E T MODEL_MAPPING replace_if_exists' device_map' p'
       = (inl (AssertionError "Only supports sft_type == 'lora'"), p'))
  ∧ (path_exists OS (world p) path = true -> replace_if_exists = false ->
     runtime p' = runtime p ∧ world p' = world p
     ∧ file_ops p' = file_ops p)
  ∧ (exists ops,
       file_ops p' = file_ops p ++ ops
       ∧ Forall (fun op =>
                   exists model tokenizer model_cache_dir,
                     saved_by (Some model) tokenizer model_cache_dir
                       (args_ckpt_dir (infer_args p)) path
                       (args_save_safetensors (infer_args p)) op)
                ops).
Proof.
  unfold merge_lora.
  unfold check, throw, get_args, get_world, put_args, mbind, mret, P_bind,
    P_ret.
  destruct (args_ckpt_dir (infer_args p)) as [ckpt |] eqn:Hckpt; simpl;
    [| discriminate].
  destruct (String.eqb (args_sft_type (infer_args p)) "lora"); simpl;
    [| discriminate].
  destruct (str_contains "int4" (args_model_type (infer_args p))); simpl;
    [discriminate |].
  destruct (str_contains "int8" (args_model_type (infer_args p))); simpl;
    [discriminate |].
  destruct (str_contains "awq" (args_model_type (infer_args p))); simpl;
    [discriminate |].
  set (merged := merged_lora_path_of ckpt).
  assert (Hdone : forall p2,
            args_model_type (infer_args p2) = args_model_type (infer_args p) ->
            ((inr merged : Exception + string),
             mkProcess (runtime p2) (world p2) (file_ops p2)
               (set_args_checkpoint (infer_args p2) "full" merged))
            = (inr path, p') ->
            (exists ckpt0, Some ckpt = Some ckpt0
                           ∧ path = merged_lora_path_of ckpt0)
            ∧ args_sft_type (infer_args p') = "full"
            ∧ args_ckpt_dir (infer_args p') = Some path
            ∧ args_model_type (infer_args p')
              = args_model_type (infer_args p)
            ∧ model_source (infer_args p') = Some path
            ∧ (forall replace_if_exists' device_map',
                 merge_lora OS E T MODEL_MAPPING replace_if_exists'
                   device_map' p'
                 = (inl (AssertionError "Only supports sft_type == 'lora'"),
                    p'))
            ∧ runtime p' = runtime p2 ∧ world p' = world p2
            ∧ file_ops p' = file_ops p2).
  { intros p2 Hmt [= <- <-]. simpl.
    split; [exists ckpt; split; reflexivity |].
    split; [reflexivity |]. split; [reflexivity |]. split; [exact Hmt |].
    split; [reflexivity |].
    split; [| repeat split].
    intros r' d'. unfold merge_lora.
    unfold check, throw, get_args, mbind, mret, P_bind, P_ret. reflexivity. }
  destruct (path_exists OS (world p) merged && negb replace_if_exists)
    eqn:Hskip.
  - intros Hrun.
    destruct (Hdone p eq_refl Hrun)
      as (H1 & H2 & H3 & H4 & H5 & H6 & H7 & H8 & H9).
    split; [exact H1 |]. split; [exact H2 |]. split; [exact H3 |].
    split; [exact H4 |]. split; [exact H5 |]. split; [exact H6 |].
    split; [intros _ _; repeat split; assumption |].
    exists []. rewrite app_nil_r. split; [exact H9 | constructor].
  - pose proof (merge_and_save_spec merged p) as Hsave. cbv zeta in Hsave.
    destruct (merge_and_save OS E T MODEL_MAPPING merged p)
      as [[e | []] p2]; [discriminate |].
    simpl in Hsave. destruct Hsave as (_ & _ & Hmt & ops & Hops & Hall).
    intros Hrun.
    destruct (Hdone p2 Hmt Hrun)
      as (H1 & H2 & H3 & H4 & H5 & H6 & H7 & H8 & H9).
    assert (path = merged) as -> by (injection Hrun as <- _; reflexivity).
    split; [exact H1 |]. split; [exact H2 |]. split; [exact H3 |].
    split; [exact H4 |]. split; [exact H5 |]. split; [exact H6 |].
    split.
    + intros Hex ->. rewrite Hex in Hskip. discriminate.
    + exists ops. split; [congruence |].
      rewrite Hckpt in Hall. exact Hall.
Qed.

End MergingFacts.

Lemma merge_lora_refuses_before_loading_witness :
  exists msg,
    merge_lora Workstation.os0 Fixture.env0 Workstation.tuners0
      Fixture.catalog0 false None
      (Workstation.process0 Workstation.args_int4)
    = (inl (AssertionError msg), Workstation.process0 Workstation.args_int4).
Proof.
  destruct (merge_lora_refuses_before_loading Workstation.os0 Fixture.env0
              Workstation.tuners0 Fixture.catalog0 false None
              (Workstation.process0 Workstation.args_int4))
    as (msg & Hrun & _).
  - right. right. left. exists "qwen-7b-chat-"%string, EmptyString.
    reflexivity.
  - exists msg. exact Hrun.
Defined.

Lemma merge_lora_retargets_args_witness :
  exists p',
    merge_lora Workstation.os0 Fixture.env0 Workstation.tuners0
      Fixture.catalog0 false None (Workstation.process0 Workstation.args0)
    = (inr "output/llama2-7b-chat/v0/checkpoint-100-merged", p')
    ∧ args_sft_type (infer_args p') = "full"
    ∧ args_ckpt_dir (infer_args p')
      = Some "output/llama2-7b-chat/v0/checkpoint-100-merged".
Proof.
  assert (Hrun : exists p',
    merge_lora Workstation.os0 Fixture.env0 Workstation.tuners0
      Fixture.catalog0 false None (Workstation.process0 Workstation.args0)
    = (inr "output/llama2-7b-chat/v0/checkpoint-100-merged", p'))
    by (vm_compute; eexists; reflexivity).
  destruct Hrun as (p' & Hrun). exists p'. split; [exact Hrun |].
  destruct (merge_lora_retargets_args _ _ _ _ _ _ _ _ _ Hrun)
    as (_ & Hsft & Hckpt & _).
  split; assumption.
Defined.

Section Paths.

Lemma app_slash_nonempty dir : String.eqb (dir +:+ "/") "" = false.
Proof. destruct dir; reflexivity. Qed.

Lemma cut_at_last_slash_no_slash name :
  str_contains "/" name = false -> cut_at_last_slash name = ("", name).
Proof.
  induction name as [| c name IH]; [reflexivity |].
  change (str_contains "/" (String c name))
    with (String.prefix "/" (String c name) || str_contains "/" name).
  intros Hno. apply orb_false_iff in Hno as (Hc & Hrest).
  cbn [cut_at_last_slash]. rewrite (IH Hrest). cbv iota beta.
  change (String.eqb "" "") with true. cbn [negb].
  destruct (String.eqb (String c "") "/") eqn:Heq; [| reflexivity].
  apply String.eqb_eq in Heq. injection Heq as ->.
  assert (Hp : String.prefix "/" ("/" +:+ name) = true)
    by (apply prefix_occurs; exists name; reflexivity).
  assert (Habs : true = false)
    by (etransitivity; [symmetry; exact Hp | exact Hc]).
  discriminate.
Qed.

Lemma string_app_cons c s t : String c s +:+ t = String c (s +:+ t).
Proof. reflexivity. Qed.

Lemma string_app_nil s : "" +:+ s = s.
Proof. reflexivity. Qed.

Lemma cut_at_last_slash_app dir name :
  str_contains "/" name = false ->
  cut_at_last_slash (dir +:+ "/" +:+ name) = (dir +:+ "/", name).
Proof.
  intros Hno. induction dir as [| c dir IH].
  - rewrite !string_app_nil, string_app_cons, string_app_nil.
    cbn [cut_at_last_slash].
    rewrite (cut_at_last_slash_no_slash name Hno). reflexivity.
  - rewrite !(string_app_cons c dir).
    cbn [cut_at_last_slash]. rewrite IH. cbv iota beta.
    rewrite app_slash_nonempty. reflexivity.
Qed.

Lemma rstrip_slash_app dir : rstrip_slash (dir +:+ "/") = rstrip_slash dir.
Proof.
  induction dir as [| c dir IH]; [reflexivity |].
  rewrite string_app_cons. cbn [rstrip_slash]. rewrite IH. reflexivity.
Qed.

Lemma rstrip_slash_id dir :
  (forall pre, dir <> pre +:+ "/") -> rstrip_slash dir = dir.
Proof.
  induction dir as [| c dir IH]; [reflexivity |].
  intros Hend. cbn [rstrip_slash].
  destruct dir as [| c' dir'].
  - cbn [rstrip_slash].
    destruct (String.eqb (String c "") "/") eqn:Heq; [| reflexivity].
    apply String.eqb_eq in Heq. exfalso. apply (Hend ""). exact Heq.
  - rewrite IH.
    + change (String.eqb (String c' dir') "") with false.
      rewrite andb_false_r. reflexivity.
    + intros pre Heq. apply (Hend (String c pre)).
      rewrite string_app_cons, <- Heq. reflexivity.
Qed.

Lemma last_char_slash dir :
  String.substring (String.length dir - 1) 1 dir = "/" ->
  exists pre, dir = pre +:+ "/".
Proof.
  induction dir as [| c dir IH]; [discriminate |].
  destruct dir as [| c' dir'].
  - simpl. intros [= ->]. exists "". reflexivity.
  - intros Hlast.
    assert (Hlast' : String.substring (String.length (String c' dir') - 1) 1
                       (String c' dir') = "/").
    { replace (String.length (String c' dir') - 1)%nat
        with (String.length dir') by (simpl; lia).
      exact Hlast. }
    destruct (IH Hlast') as (pre & Hpre).
    exists (String c pre). rewrite string_app_cons, <- Hpre. reflexivity.
Qed.

Lemma app_slash_last pre :
  String.substring (String.length (pre +:+ "/") - 1) 1 (pre +:+ "/") = "/".
Proof.
  induction pre as [| c pre IH]; [reflexivity |].
  rewrite string_app_cons.
  replace (String.length (String c (pre +:+ "/")) - 1)%nat
    with (S (String.length (pre +:+ "/") - 1))
    by (destruct pre; simpl; lia).
  exact IH.
Qed.

Lemma os_path_join_plain dir x :
  dir <> "" -> (forall pre, dir <> pre +:+ "/") ->
  os_path_join dir x = dir +:+ "/" +:+ x.
Proof.
  intros Hne Hend. unfold os_path_join.
  destruct (String.eqb dir "") eqn:Hempty;
    [apply String.eqb_eq in Hempty; contradiction |].
  destruct (String.eqb (String.substring (String.length dir - 1) 1 dir) "/")
    eqn:Hlast; [| reflexivity].
  apply String.eqb_eq in Hlast. destruct (last_char_slash dir Hlast) as (pre & ->).
  exfalso. exact (Hend pre eq_refl).
Qed.

(** X25. Where the merged weights go. For a checkpoint directory without
    a slash, and for one of the form [dir/name] with [name] free of slashes
    and [dir] not ending in one, it is the directory itself with [-merged]
    appended: a sibling of the checkpoint. With a slash at the end of
    [ckpt_dir] it is not: the weights go to a directory called [-merged]
    inside the checkpoint directory. *)
Theorem merged_lora_path_is_a_sibling :
  (forall name,
     ~ occurs "/" name -> merged_lora_path_of name = name +:+ "-merged")
  ∧ (forall dir name,
       dir <> "" -> (forall pre, dir <> pre +:+ "/") -> ~ occurs "/" name ->
       merged_lora_path_of (dir +:+ "/" +:+ name)
       = dir +:+ "/" +:+ name +:+ "-merged")
  ∧ (forall dir,
       dir <> "" -> (forall pre, dir <> pre +:+ "/") ->
       merged_lora_path_of (dir +:+ "/") = dir +:+ "/-merged").
Proof.
  assert (Hgeneral : forall dir name,
            dir <> "" -> (forall pre, dir <> pre +:+ "/") ->
            str_contains "/" name = false ->
            merged_lora_path_of (dir +:+ "/" +:+ name)
            = dir +:+ "/" +:+ name +:+ "-merged").
  { intros dir name Hne Hend Hno. unfold merged_lora_path_of, os_path_split.
    rewrite (cut_at_last_slash_app dir name Hno).
    rewrite app_slash_nonempty, rstrip_slash_app, (rstrip_slash_id dir Hend).
    destruct (String.eqb dir "") eqn:Hempty;
      [apply String.eqb_eq in Hempty; contradiction |].
    simpl. apply os_path_join_plain; assumption. }
  split; [| split].
  - intros name Hno.
    assert (Hno' : str_contains "/" name = false).
    { destruct (str_contains "/" name) eqn:Hc; [| reflexivity].
      exfalso. apply Hno. apply str_contains_occurs. exact Hc. }
    unfold merged_lora_path_of, os_path_split.
    rewrite (cut_at_last_slash_no_slash name Hno'). reflexivity.
  - intros dir name Hne Hend Hno. apply Hgeneral; try assumption.
    destruct (str_contains "/" name) eqn:Hc; [| reflexivity].
    exfalso. apply Hno. apply str_contains_occurs. exact Hc.
  - intros dir Hne Hend. exact (Hgeneral dir "" Hne Hend eq_refl).
Qed.

End Paths.

Lemma merged_lora_path_is_a_sibling_witness :
  merged_lora_path_of "output/checkpoint-100/"
  = "output/checkpoint-100/-merged".
Proof.
  apply (proj2 (proj2 merged_lora_path_is_a_sibling) "output/checkpoint-100").
  - discriminate.
  - intros pre Heq. pose proof (app_slash_last pre) as Hlast.
    rewrite <- Heq in Hlast. discriminate Hlast.
Defined.

Section HistoryFacts.

Context (C : Chat) (args : DialogueArguments) (jsonl_path : option string).

Lemma print_stream_last gen i l s l' s' :
  print_stream gen i l s = (inr l', s') ->
  (response l', new_history l')
  = match last gen with
    | Some (r, h) => (Some r, Some h)
    | None => (response l, new_history l)
    end.
Proof.
  revert i l s. induction gen as [| [r h] gen IH]; intros i l s.
  - simpl. unfold mret, IO_ret. intros [= <- <-]. reflexivity.
  - simpl. unfold mbind, IO_bind.
    destruct (print_delta_run r i s) as (i' & s1 & -> & _).
    intros Hrun. apply IH in Hrun. rewrite Hrun.
    destruct gen as [| g gen']; [reflexivity |].
    change (last ((r, h) :: g :: gen')) with (last (g :: gen')).
    destruct (last (g :: gen')) as [[r' h'] |] eqn:Hlast; [reflexivity |].
    apply last_None in Hlast. discriminate.
Qed.

Lemma print_stream_vllm_last gen i l s l' s' :
  print_stream_vllm gen i l s = (inr l', s') ->
  (response l', new_history l')
  = match last gen with
    | Some ((r, h) :: _) => (Some r, Some h)
    | _ => (response l, new_history l)
    end.
Proof.
  revert i l s. induction gen as [| resp_list gen IH]; intros i l s.
  - simpl. unfold mret, IO_ret. intros [= <- <-]. reflexivity.
  - simpl. unfold mbind, IO_bind, first_response.
    destruct resp_list as [| [r h] rest]; unfold io_raise, mret, IO_ret;
      [discriminate |].
    destruct (print_delta_run r i s) as (i' & s1 & -> & _).
    intros Hrun. pose proof Hrun as Hrun'. apply IH in Hrun. rewrite Hrun.
    destruct gen as [| g gen']; [reflexivity |].
    change (last (((r, h) :: rest) :: g :: gen')) with (last (g :: gen')).
    destruct (last (g :: gen')) as [[| [r' h'] rest'] |] eqn:Hlast;
      [| reflexivity | apply last_None in Hlast; discriminate].
    exfalso. clear IH Hrun.
    assert (Hfail : forall gen0 i0 l0 s0 l1 s1',
              last gen0 = Some [] ->
              print_stream_vllm gen0 i0 l0 s0 <> (inr l1, s1')).
    { clear. induction gen0 as [| g0 gen0 IH0]; intros i0 l0 s0 l1 s1' Hl;
        [discriminate |].
      simpl. unfold mbind, IO_bind, first_response.
      destruct g0 as [| [r0 h0] rest0]; unfold io_raise, mret, IO_ret;
        [discriminate |].
      destruct (print_delta_run r0 i0 s0) as (i1 & s2 & -> & _).
      destruct gen0 as [| g1 gen1]; [discriminate |].
      apply IH0. exact Hl. }
    exact (Hfail _ _ _ _ _ _ Hlast Hrun').
Qed.

Lemma infer_round_outcome query l s l' s' :
  infer_round C args query l s = (inr l', s') ->
  exists r,
    requests s' = requests s ++ [r]
    ∧ req_history r = history l
    ∧ history l' = history l
    ∧ (response l', new_history l')
      = match outcome C r with
        | Some (resp, h') => (Some resp, Some h')
        | None => (response l, new_history l)
        end.
Proof.
  unfold infer_round.
  destruct (String.eqb (args_infer_backend args) "vllm").
  - destruct (args_stream args).
    + unfold request, print, emit_output, end_of_generator, io_raise, mbind,
        mret, IO_bind, IO_ret.
      match goal with
      | |- context [print_stream_vllm ?g ?i ?l0 ?s0] =>
          destruct (print_stream_vllm g i l0 s0) as [[e | l1] s1] eqn:Hps
      end; [discriminate |].
      pose proof Hps as Hlast. apply print_stream_vllm_last in Hlast.
      apply print_stream_vllm_run in Hps as ((_ & Hr & _) & Hl).
      destruct (Hl l1 eq_refl) as ((_ & _ & _ & Hh & _) & _).
      simpl in Hr.
      destruct (inference_stream_vllm C query (history l) (system l)).2;
        [discriminate |].
      intros [= <- <-]. simpl.
      eexists. split; [exact Hr |]. split; [reflexivity |].
      split; [exact Hh |]. simpl. rewrite Hlast.
      destruct (last (inference_stream_vllm C query (history l) (system l)).1)
        as [[| [r h] rest] |]; reflexivity.
    + unfold request, print, emit_output, first_response, io_lift, io_raise,
        mbind, mret, IO_bind, IO_ret.
      destruct (inference_vllm C query (history l) (system l))
        as [e | [| [r h] rest]] eqn:Hinf; intros [= <- <-]; simpl.
      eexists. split; [reflexivity |]. split; [reflexivity |].
      split; [reflexivity |]. simpl. rewrite Hinf. reflexivity.
  - set (l0 := match args_stop_words args with
               | Some (w :: ws) =>
                   set_infer_kwargs l
                     (set_kw_stop_words (infer_kwargs l) (w :: ws))
               | _ => l
               end).
    assert (Hl0 : history l0 = history l ∧ response l0 = response l
                  ∧ new_history l0 = new_history l).
    { subst l0. destruct (args_stop_words args) as [[| w ws] |];
        repeat split. }
    destruct Hl0 as (Hh0 & Hresp0 & Hnew0).
    destruct (args_stream args).
    + unfold request, print, emit_output, end_of_generator, io_raise, mbind,
        mret, IO_bind, IO_ret.
      match goal with
      | |- context [print_stream ?g ?i ?l1 ?s1] =>
          destruct (print_stream g i l1 s1) as [[e | l2] s2] eqn:Hps
      end; [discriminate |].
      pose proof Hps as Hlast. apply print_stream_last in Hlast.
      match type of Hps with
      | print_stream ?g ?i ?l1 ?s1 = _ =>
          destruct (print_stream_run g i l1 s1)
            as (l2' & s2' & Hrun & (_ & Hr & _) & (_ & _ & _ & Hh & _) & _)
      end.
      rewrite Hps in Hrun. injection Hrun as <- <-. simpl in Hr.
      destruct (inference_stream C query (history l0) (system l0)
                  (infer_kwargs l0)).2; [discriminate |].
      intros [= <- <-]. simpl.
      eexists. split; [exact Hr |]. split; [exact Hh0 |].
      split; [congruence |]. simpl. rewrite Hlast, Hresp0, Hnew0.
      destruct (last (inference_stream C query (history l0) (system l0)
                        (infer_kwargs l0)).1) as [[r h] |]; reflexivity.
    + unfold request, print, emit_output, io_lift, mbind, mret, IO_bind,
        IO_ret.
      destruct (inference C query (history l0) (system l0) (infer_kwargs l0))
        as [e | [r h]] eqn:Hinf; intros [= <- <-]; simpl.
      eexists. split; [reflexivity |]. split; [exact Hh0 |].
      split; [exact Hh0 |]. simpl. rewrite Hinf. reflexivity.
Qed.

(** One round of a multi-round session, for a reply that is not [clear]. *)
Lemma llm_infer_round_history l s out s' :
  llm_infer_round C args true jsonl_path l s = (out, s') ->
  (new_history l = None ∨ new_history l = Some (history l)) ->
  (forall q rest, stdin s = q :: rest -> command C q <> "clear") ->
  exists reqs,
    requests s' = requests s ++ reqs
    ∧ (exists consumed, stdin s = consumed ++ stdin s')
    ∧ match out with
      | inl _ => Forall (fun r => req_history r = history l) reqs
                 ∧ (length reqs <= 1)%nat
      | inr next =>
          let l' := match next with Continue l' | Break l' => l' end in
          (new_history l' = None ∨ new_history l' = Some (history l'))
          ∧ ((reqs = [] ∧ history l' = history l)
             ∨ (exists r,
                  reqs = [r] ∧ req_history r = history l
                  ∧ history l'
                    = match outcome C r with
                      | Some (_, h') => h'
                      | None => history l
                      end))
      end.
Proof.
  intros Hround Hinv Hclear.
  unfold llm_infer_round in Hround.
  destruct (read_query_spec l s) as (o & Hread). cbv zeta in Hread.
  unfold mbind at 1 in Hround. unfold IO_bind at 1 in Hround.
  destruct (stdin s) as [| q rest] eqn:Hin; rewrite Hread in Hround;
    clear Hread.
  { injection Hround as <- <-. exists []. simpl. rewrite app_nil_r.
    split; [reflexivity |]. split; [exists []; reflexivity |].
    split; [constructor | simpl; lia]. }
  specialize (Hclear q rest eq_refl).
  set (s1 := mkSession rest (stdout s ++ [o]) (requests s) (jsonl s)) in *.
  assert (Hquiet : forall next,
            (let l' := match next with Continue l' | Break l' => l' end in
             new_history l' = new_history l ∧ history l' = history l) ->
            (inr next, s1) = (out, s') ->
            exists reqs,
              requests s' = requests s ++ reqs
              ∧ (exists consumed, q :: rest = consumed ++ stdin s')
              ∧ match out with
                | inl _ => Forall (fun r => req_history r = history l) reqs
                           ∧ (length reqs <= 1)%nat
                | inr next =>
                    let l' := match next with
                              | Continue l' | Break l' => l' end in
                    (new_history l' = None
                     ∨ new_history l' = Some (history l'))
                    ∧ ((reqs = [] ∧ history l' = history l)
                       ∨ (exists r,
                            reqs = [r] ∧ req_history r = history l
                            ∧ history l'
                              = match outcome C r with
                                | Some (_, h') => h'
                                | None => history l
                                end))
                end).
  { intros next Hnext [= <- <-]. exists []. simpl. rewrite app_nil_r.
    split; [reflexivity |]. split; [exists [q]; reflexivity |].
    cbv zeta in Hnext. destruct Hnext as (Hnew & Hhist).
    split; [rewrite Hnew, Hhist; exact Hinv | left; split; [reflexivity | exact Hhist]]. }
  unfold mret, IO_ret in Hround.
  destruct (String.eqb (command C q) "exit" || String.eqb (command C q) "quit").
  { revert Hround. apply Hquiet. split; reflexivity. }
  destruct (String.eqb (command C q) "clear") eqn:Hc.
  { apply String.eqb_eq in Hc. contradiction. }
  destruct (String.eqb (str_strip C q) "").
  { revert Hround. apply Hquiet. split; reflexivity. }
  destruct (String.eqb (command C q) "reset-system").
  { revert Hround. apply Hquiet. split; reflexivity. }
  destruct (read_system l).
  { revert Hround. apply Hquiet. split; reflexivity. }
  destruct (match input_mode l with mode_S => true | mode_M => false end
            && String.eqb (command C q) "multi-line").
  { revert Hround. apply Hquiet. split; reflexivity. }
  destruct (match input_mode l with mode_M => true | mode_S => false end
            && String.eqb (command C q) "single-line").
  { revert Hround. apply Hquiet. split; reflexivity. }
  clear Hquiet. cbn [negb] in Hround.
  unfold mbind, IO_bind in Hround.
  destruct (read_media_file (infer_kwargs l) (args_infer_media_type args) s1)
    as [[e | k] s2] eqn:Hmedia;
    apply read_media_file_spec in Hmedia
      as (Hr2 & _ & _ & (media & Hin2 & _ & _) & _);
    simpl in Hr2, Hin2.
  { injection Hround as <- <-. exists []. rewrite app_nil_r.
    split; [exact Hr2 |].
    split; [exists (q :: media); simpl; rewrite Hin2; reflexivity |].
    split; [constructor | simpl; lia]. }
  destruct (infer_round C args q (set_infer_kwargs l k) s2)
    as [[e | l3] s3] eqn:Hinfer.
  { pose proof Hinfer as Hinfer'.
    apply infer_round_spec in Hinfer
      as (Hin3 & _ & _ & (r & Hr3 & _ & Hrh & _) & _).
    simpl in Hrh. injection Hround as <- <-. exists [r].
    split; [rewrite Hr3, Hr2; reflexivity |].
    split; [exists (q :: media); simpl; rewrite Hin3, Hin2; reflexivity |].
    split; [constructor; [exact Hrh | constructor] | simpl; lia]. }
  pose proof Hinfer as Hinfer'.
  apply infer_round_spec in Hinfer' as (Hin3 & _ & _ & _ & _).
  apply infer_round_outcome in Hinfer
    as (r & Hr3 & Hrh & Hh3 & Hout3).
  simpl in Hrh, Hh3, Hout3.
  assert (Hreqs : requests s3 = requests s ++ [r])
    by (rewrite Hr3, Hr2; reflexivity).
  assert (Hcons : q :: rest = (q :: media) ++ stdin s3)
    by (simpl; rewrite Hin3, Hin2; reflexivity).
  unfold print, emit_output, local, io_raise, append_to_jsonl, mbind, mret,
    IO_bind, IO_ret in Hround.
  destruct (response l3) as [response_ |] eqn:Hresp; simpl in Hround.
  2: { injection Hround as <- <-. simpl. exists [r].
       split; [exact Hreqs |]. split; [eauto |].
       split; [constructor; [exact Hrh | constructor] | simpl; lia]. }
  destruct (new_history l3) as [new_history_ |] eqn:Hnew; simpl in Hround.
  2: { injection Hround as <- <-. simpl. exists [r].
       split; [exact Hreqs |]. split; [eauto |].
       split; [constructor; [exact Hrh | constructor] | simpl; lia]. }
  assert (Hnext : history l = history l ->
            new_history_
            = match outcome C r with
              | Some (_, h') => h'
              | None => history l
              end).
  { intros _. destruct (outcome C r) as [[resp h'] |].
    - injection Hout3 as _ Hn. congruence.
    - injection Hout3 as _ Hn. destruct Hinv as [Hnone | Hsome]; congruence. }
  specialize (Hnext eq_refl).
  destruct jsonl_path as [path |]; injection Hround as <- <-; simpl;
    (exists [r]; split; [exact Hreqs |]; split; [eauto |];
     split; [right; rewrite Hnew; reflexivity |];
     right; exists r; split; [reflexivity |]; split; [exact Hrh |];
     exact Hnext).
Qed.

Lemma history_chain_app h reqs reqs' h' :
  history_chain C h reqs ->
  (reqs = [] -> h' = h) ->
  (forall r, last reqs = Some r ->
     h' = match outcome C r with Some (_, h1) => h1 | None => req_history r end) ->
  history_chain C h' reqs' ->
  history_chain C h (reqs ++ reqs').
Proof.
  revert h. induction reqs as [| r reqs IH]; intros h Hchain Hnil Hlast Hrest.
  - simpl. rewrite <- (Hnil eq_refl). exact Hrest.
  - destruct Hchain as (Hh & Hchain). split; [exact Hh |].
    apply IH; [exact Hchain | | | exact Hrest].
    + intros ->. rewrite (Hlast r eq_refl), Hh. reflexivity.
    + intros r' Hr'. apply Hlast. destruct reqs; [discriminate | exact Hr'].
Qed.

Lemma llm_infer_loop_history fuel l s out s' :
  llm_infer_loop C args true jsonl_path fuel l s = (out, s') ->
  (new_history l = None ∨ new_history l = Some (history l)) ->
  Forall (fun q => command C q <> "clear") (stdin s) ->
  exists reqs,
    requests s' = requests s ++ reqs ∧ history_chain C (history l) reqs.
Proof.
  revert l s. induction fuel as [| fuel IH]; intros l s.
  - simpl. unfold mret, IO_ret. intros [= <- <-] _ _.
    exists []. rewrite app_nil_r. split; [reflexivity | exact I].
  - simpl. unfold mbind, IO_bind. intros Hloop Hinv Hclear.
    destruct (llm_infer_round C args true jsonl_path l s)
      as [[e | next] s1] eqn:Hround;
      apply llm_infer_round_history in Hround
        as (reqs & Hreqs & (consumed & Hin) & Hout);
      try exact Hinv;
      try (intros q rest Hs; rewrite Hs in Hclear;
           exact (Forall_inv Hclear)).
    + injection Hloop as <- <-. exists reqs. split; [exact Hreqs |].
      destruct Hout as (Hall & Hlen).
      destruct reqs as [| r [| r' reqs]]; [exact I | | simpl in Hlen; lia].
      split; [exact (Forall_inv Hall) | exact I].
    + cbv zeta in Hout. destruct Hout as (Hinv' & Hstep).
      assert (Hclear' : Forall (fun q => command C q <> "clear") (stdin s1)).
      { rewrite Hin in Hclear. apply Forall_app in Hclear. tauto. }
      assert (Hchain : forall l',
                match next with Continue l0 | Break l0 => l0 end = l' ->
                history_chain C (history l) reqs
                ∧ (reqs = [] -> history l' = history l)
                ∧ (forall r, last reqs = Some r ->
                     history l'
                     = match outcome C r with
                       | Some (_, h1) => h1
                       | None => req_history r
                       end)).
      { intros l' <-.
        destruct Hstep as [(-> & Hh) | (r & -> & Hrh & Hh)].
        - split; [exact I |]. split; [intros _; exact Hh | discriminate].
        - split; [split; [exact Hrh | exact I] |].
          split; [discriminate |].
          intros r' [= <-]. rewrite Hh, Hrh. reflexivity. }
      destruct next as [l1 | l1].
      * destruct (IH l1 s1 Hloop Hinv' Hclear') as (reqs1 & Hreqs1 & Hchain1).
        destruct (Hchain l1 eq_refl) as (Hc & Hnil & Hlast).
        exists (reqs ++ reqs1).
        split; [rewrite Hreqs1, Hreqs, app_assoc; reflexivity |].
        exact (history_chain_app _ _ _ _ Hc Hnil Hlast Hchain1).
      * unfold mret, IO_ret in Hloop. injection Hloop as <- <-.
        exists reqs. split; [exact Hreqs |].
        exact (proj1 (Hchain l1 eq_refl)).
Qed.

(** X27. The history is threaded. In a session with a multi-round
    template in which no reply is [clear], the first inference call is made
    with the empty history and every later one with the history the call
    before it produced: the one it returned, or the last one its stream
    yielded; after a stream that yielded nothing the history stays what it
    was. Commands, system prompts and mode switches in between do not
    disturb it. *)
Theorem history_is_threaded s :
  Forall (fun q => command C q <> "clear") (stdin s) ->
  exists reqs,
    requests (llm_infer_eval_human C args true jsonl_path s).2
    = requests s ++ reqs
    ∧ history_chain C [] reqs.
Proof.
  intros Hclear.
  unfold llm_infer_eval_human, get_session, mbind, mret, IO_bind, IO_ret.
  destruct (llm_infer_loop C args true jsonl_path
              (S (length (stdin s))) initial_locals s)
    as [out s'] eqn:Hloop.
  apply llm_infer_loop_history in Hloop as (reqs & Hreqs & Hchain);
    [| left; reflexivity | exact Hclear].
  exists reqs. split; [| exact Hchain].
  destruct out as [e | [l |]]; exact Hreqs.
Qed.

End HistoryFacts.

Lemma history_is_threaded_witness :
  exists reqs,
    requests
      (llm_infer_eval_human Console.chat0 Console.args0 true None
         (Console.session ["hello"; "reset-system"; "be brief"; "again";
                           "quit"])).2
    = reqs
    ∧ history_chain Console.chat0 [] reqs
    ∧ req_history <$> reqs = [[]; [("hello", "re: hello")]].
Proof.
  assert (Hrun : req_history <$>
    requests
      (llm_infer_eval_human Console.chat0 Console.args0 true None
         (Console.session ["hello"; "reset-system"; "be brief"; "again";
                           "quit"])).2
    = [[]; [("hello", "re: hello")]]) by (vm_compute; reflexivity).
  destruct (history_is_threaded Console.chat0 Console.args0 None
              (Console.session ["hello"; "reset-system"; "be brief"; "again";
                                "quit"])) as (reqs & Hreqs & Hchain).
  - repeat (constructor; [intros H; vm_compute in H; discriminate H |]).
    constructor.
  - exists reqs. split; [exact Hreqs |]. split; [exact Hchain |].
    rewrite Hreqs in Hrun. exact Hrun.
Defined.
